(** * Dataset browser widgets: a shallow embedding and its properties

    The repository holds three notebook widgets that list Hugging Face
    datasets and show the details of a selected one:

    - [hf_datasets_gpt5/hf_top_datasets_ui.py]   (module [Gpt5]),
    - [hf_datasets_sonnet4/hf_datasets_viewer.py] (module [Sonnet4]),
    - [hf_datasets_qwen3/hf_datasets_explorer.py] (module [Qwen3]).

    Conventions of the embedding:
    - Python [str] is [string]; characters are ASCII code points, and
      [str.lower], [str.strip] act on the ASCII range.
    - Python [int] is [Z]; [time.time()] readings are seconds, as [Z],
      and a call reads the clock once. A [datetime] of the sonnet4 file
      is naive or timezone-aware and holds its seconds; the qwen3 file
      strips the timezone before it compares, and its dates are [Z].
    - [dict] is a [gmap] where only lookups matter, and an association
      list in insertion order where [values()] is iterated.
    - Widgets are mutable objects: they live in a store keyed by object
      identity, and lists hold references into it.
    - A function that can raise returns a [result]. *)

From stdpp Require Import gmap strings list pretty sorting.
From Stdlib Require Import ZArith Lia.

Local Open Scope string_scope.
Local Open Scope list_scope.
Local Open Scope Z_scope.

(** ** Exceptions and results *)

Inductive Exn :=
| AttributeError
| IndexError
| TypeError
| HubError (cause : string).

Inductive result (A : Type) :=
| Ok (a : A)
| Raise (e : Exn).
Arguments Ok {A} a.
Arguments Raise {A} e.

Definition is_ok {A} (r : result A) : bool :=
  match r with Ok _ => true | Raise _ => false end.

(** ** Python strings *)

Module Str.

Definition lower_ascii (c : Ascii.ascii) : Ascii.ascii :=
  let n := Ascii.nat_of_ascii c in
  if (65 <=? n)%nat && (n <=? 90)%nat then Ascii.ascii_of_nat (n + 32) else c.

(** [s.lower()] *)
Fixpoint lower (s : string) : string :=
  match s with
  | EmptyString => EmptyString
  | String c r => String (lower_ascii c) (lower r)
  end.

(** The characters [str.strip()] drops: tab to carriage return, the
    four separators 28..31, and the space. *)
Definition is_space (c : Ascii.ascii) : bool :=
  let n := Ascii.nat_of_ascii c in
  ((9 <=? n)%nat && (n <=? 13)%nat) || ((28 <=? n)%nat && (n <=? 32)%nat).

Fixpoint lstrip (s : string) : string :=
  match s with
  | EmptyString => EmptyString
  | String c r => if is_space c then lstrip r else s
  end.

(** [s.strip()] *)
Definition strip (s : string) : string :=
  String.rev (lstrip (String.rev (lstrip s))).

(** [needle in hay] *)
Fixpoint contains (needle hay : string) : bool :=
  String.prefix needle hay ||
  match hay with
  | EmptyString => false
  | String _ r => contains needle r
  end.

Definition quote : Ascii.ascii := Ascii.ascii_of_nat 39.
Definition dquote : Ascii.ascii := Ascii.ascii_of_nat 34.
Definition backslash : Ascii.ascii := Ascii.ascii_of_nat 92.

Fixpoint has_char (c : Ascii.ascii) (s : string) : bool :=
  match s with
  | EmptyString => false
  | String d r => Ascii.eqb c d || has_char c r
  end.

Definition hex_digit (n : nat) : Ascii.ascii :=
  match String.get n "0123456789abcdef" with
  | Some c => c
  | None => Ascii.zero
  end.

(** One character of [repr(s)], inside the quotes [q]. *)
Definition escape (q c : Ascii.ascii) : string :=
  let n := Ascii.nat_of_ascii c in
  if Ascii.eqb c q || Ascii.eqb c backslash then String backslash (String c "")
  else if (n =? 9)%nat then String backslash "t"
  else if (n =? 10)%nat then String backslash "n"
  else if (n =? 13)%nat then String backslash "r"
  else if (n <? 32)%nat || (n =? 127)%nat then
    String backslash ("x" +:+ String (hex_digit (n / 16)) (String (hex_digit (n mod 16)) ""))
  else String c "".

Fixpoint escape_all (q : Ascii.ascii) (s : string) : string :=
  match s with
  | EmptyString => EmptyString
  | String c r => escape q c +:+ escape_all q r
  end.

(** [repr(s)] for a string: single quotes, unless the string holds a
    single quote and no double quote. *)
Definition repr (s : string) : string :=
  let q := if has_char quote s && negb (has_char dquote s) then dquote else quote in
  String q (escape_all q s) +:+ String q "".

(** [sep.join(l)] *)
Fixpoint join (sep : string) (l : list string) : string :=
  match l with
  | [] => ""
  | [x] => x
  | x :: rest => x +:+ sep +:+ join sep rest
  end.

End Str.

(** ** Python values

    The values a dataset card (YAML metadata) or a JSON response holds. *)

Unset Elimination Schemes.
Inductive PyVal :=
| PNone
| PBool (b : bool)
| PInt (z : Z)
| PStr (s : string)
| PList (l : list PyVal)
| PDict (d : list (string * PyVal)).
Set Elimination Schemes.

Module Py.

(** [bool(v)] *)
Definition truthy (v : PyVal) : bool :=
  match v with
  | PNone => false
  | PBool b => b
  | PInt z => negb (z =? 0)
  | PStr s => negb (String.eqb s "")
  | PList l => match l with [] => false | _ => true end
  | PDict d => match d with [] => false | _ => true end
  end.

(** [a or b] *)
Definition or (a b : PyVal) : PyVal := if truthy a then a else b.

(** [d.get(k)] on the entries of a dict. *)
Fixpoint lookup (k : string) (d : list (string * PyVal)) : PyVal :=
  match d with
  | [] => PNone
  | (k', v) :: rest => if String.eqb k k' then v else lookup k rest
  end.

(** [v.get(k)]: only a dict has the method. *)
Definition get (v : PyVal) (k : string) : result PyVal :=
  match v with
  | PDict d => Ok (lookup k d)
  | _ => Raise AttributeError
  end.

(** [repr(v)] *)
Fixpoint repr (v : PyVal) : string :=
  match v with
  | PNone => "None"
  | PBool true => "True"
  | PBool false => "False"
  | PInt z => pretty z
  | PStr s => Str.repr s
  | PList l => "[" +:+ Str.join ", " (map repr l) +:+ "]"
  | PDict d =>
      "{" +:+ Str.join ", " (map (fun kv => Str.repr kv.1 +:+ ": " +:+ repr kv.2) d) +:+ "}"
  end.

(** [str(v)] *)
Definition str (v : PyVal) : string :=
  match v with
  | PStr s => s
  | _ => repr v
  end.

End Py.

(** ** Errors as a monad *)

Global Instance result_ret : MRet result := λ A a, Ok a.
Global Instance result_fmap : FMap result := λ A B f m,
  match m with
  | Ok a => Ok (f a)
  | Raise e => Raise e
  end.
Global Instance result_bind : MBind result := λ A B f m,
  match m with
  | Ok a => f a
  | Raise e => Raise e
  end.

(** ** [functools.lru_cache]

    The memo table of a decorated function of one string argument:
    entries from the most recently used to the least recently used. *)

Module LRU.

Definition t (V : Type) := list (string * V).

Fixpoint find {V} (k : string) (c : t V) : option V :=
  match c with
  | [] => None
  | (k', v) :: rest => if String.eqb k k' then Some v else find k rest
  end.

Fixpoint forget {V} (k : string) (c : t V) : t V :=
  match c with
  | [] => []
  | (k', v) :: rest => if String.eqb k k' then forget k rest else (k', v) :: forget k rest
  end.

(** A hit moves the entry to the front. *)
Definition touch {V} (k : string) (v : V) (c : t V) : t V :=
  (k, v) :: forget k c.

(** A miss stores the result, and drops the oldest entry of a full table. *)
Definition add {V} (maxsize : nat) (k : string) (v : V) (c : t V) : t V :=
  take maxsize ((k, v) :: forget k c).

End LRU.

(** A generator handed out by the hub client: the items it yields, and
    the exception that ends the iteration when a page request fails. *)
Definition Gen (A : Type) : Type := list A * option Exn.

(** ** The widget store and [ButtonBox]

    The three files carry the same [ButtonBox] class; they differ in
    [remove] only ([Gpt5.remove] against [Sonnet4.remove], which the
    [Qwen3] file shares). *)

Module BB.

Record Button := {
  description : string;
  tooltip : string;
  button_color : option string;   (* style = {'button_color': ...} *)
  dataset_id : option string      (* attribute set by the sonnet4 viewer *)
}.

Definition set_color (c : option string) (b : Button) : Button :=
  {| description := description b; tooltip := tooltip b;
     button_color := c; dataset_id := dataset_id b |}.

Definition set_tooltip (t : string) (b : Button) : Button :=
  {| description := description b; tooltip := t;
     button_color := button_color b; dataset_id := dataset_id b |}.

Definition set_dataset_id (i : string) (b : Button) : Button :=
  {| description := description b; tooltip := tooltip b;
     button_color := button_color b; dataset_id := Some i |}.

(** [buttons] and [children] hold references (keys of [store]);
    [button] is the selected reference, [position] its index. *)
Record ButtonBox := {
  buttons : list nat;
  children : list nat;              (* self.box.children *)
  position : Z;
  button : option nat;
  maxchar : Z;
  color : string;
  store : gmap nat Button;
  next_ref : nat
}.

Definition with_selection (pos : Z) (b : option nat) (bb : ButtonBox) : ButtonBox :=
  {| buttons := buttons bb; children := children bb; position := pos;
     button := b; maxchar := maxchar bb; color := color bb;
     store := store bb; next_ref := next_ref bb |}.

Definition with_store (st : gmap nat Button) (bb : ButtonBox) : ButtonBox :=
  {| buttons := buttons bb; children := children bb; position := position bb;
     button := button bb; maxchar := maxchar bb; color := color bb;
     store := st; next_ref := next_ref bb |}.

Definition with_lists (bs cs : list nat) (bb : ButtonBox) : ButtonBox :=
  {| buttons := bs; children := cs; position := position bb;
     button := button bb; maxchar := maxchar bb; color := color bb;
     store := store bb; next_ref := next_ref bb |}.

(** [s[:k]] on a string, with Python's reading of a negative [k]. *)
Definition slice_to (k : Z) (s : string) : string :=
  let n := Z.of_nat (String.length s) in
  let stop := if k <? 0 then Z.max 0 (n + k) else Z.min k n in
  String.substring 0 (Z.to_nat stop) s.

(** [d if len(d) <= maxchar else f'{d[:(maxchar-3)]}...'] *)
Definition shorten (mx : Z) (d : string) : string :=
  if Z.of_nat (String.length d) <=? mx then d
  else slice_to (mx - 3) d +:+ "...".

Definition new_button (mx : Z) (d : string) : Button :=
  {| description := shorten mx d; tooltip := d;
     button_color := None; dataset_id := None |}.

(** [[(i, but) for i, but in enumerate(self.buttons) if b == but]] *)
Fixpoint find_refs (b : nat) (i : Z) (bs : list nat) : list (Z * nat) :=
  match bs with
  | [] => []
  | but :: rest =>
      if Nat.eqb b but then (i, but) :: find_refs b (i + 1) rest
      else find_refs b (i + 1) rest
  end.

(** [unselect]: every listed button loses its colour. *)
Definition unselect (bb : ButtonBox) : ButtonBox :=
  with_store (foldr (fun r st => alter (set_color None) r st) (store bb) (buttons bb)) bb.

(** [self.buttons[self.position]], with Python's negative indices. *)
Definition index_ref (bs : list nat) (i : Z) : option nat :=
  let n := Z.of_nat (length bs) in
  if (0 <=? i) && (i <? n) then bs !! Z.to_nat i
  else if (i <? 0) && (- n <=? i) then bs !! Z.to_nat (n + i)
  else None.

(** [_clicker] up to the point where the event is fired. *)
Definition select_clicked (b : nat) (bb : ButtonBox) : result ButtonBox :=
  match find_refs b 0 (buttons bb) with
  | [] => Raise IndexError
  | (i, but) :: _ =>
      let bb1 := unselect (with_selection i (Some but) bb) in
      match index_ref (buttons bb1) (position bb1) with
      | None => Raise IndexError
      | Some r => Ok (with_store (alter (set_color (Some (color bb1))) r (store bb1)) bb1)
      end
  end.

(** [_clicker]: the callback [self.clicker] acts on the state [St] of the
    application that owns the box; an exception keeps the mutations
    made before it. *)
Definition _clicker {St : Type} (clicker : option (ButtonBox -> St -> result unit * St))
    (b : nat) (st : ButtonBox * St) : result unit * (ButtonBox * St) :=
  match select_clicked b st.1 with
  | Raise e => (Raise e, st)
  | Ok bb' =>
      match clicker with
      | None => (Ok (), (bb', st.2))
      | Some f => let '(r, s') := f bb' st.2 in (r, (bb', s'))
      end
  end.

(** [append]: returns the reference of the new button. *)
Definition append {St : Type} (clicker : option (ButtonBox -> St -> result unit * St))
    (d : string) (select : bool) (st : ButtonBox * St)
    : result nat * (ButtonBox * St) :=
  let bb := st.1 in
  let r := next_ref bb in
  let bb1 :=
    {| buttons := buttons bb ++ [r]; children := children bb ++ [r];
       position := position bb; button := button bb;
       maxchar := maxchar bb; color := color bb;
       store := <[r := new_button (maxchar bb) d]> (store bb);
       next_ref := S r |} in
  if select then
    let bb2 := with_selection (Z.of_nat (length (buttons bb1)) - 1) (Some r) bb1 in
    match _clicker clicker r (bb2, st.2) with
    | (Ok _, st') => (Ok r, st')
    | (Raise e, st') => (Raise e, st')
    end
  else (Ok r, (bb1, st.2)).

(** [[*l[:p], *l[p+1:]]] for [0 <= p]. *)
Definition drop_at {A} (p : Z) (l : list A) : list A :=
  take (Z.to_nat p) l ++ drop (Z.to_nat (p + 1)) l.

Definition removed (p : Z) (bb : ButtonBox) : ButtonBox :=
  with_selection (-1) None
    (with_lists (drop_at p (buttons bb)) (drop_at p (children bb)) bb).

(** [__init__]: one button per description given; [self.descriptions]
    is read nowhere and is left out. *)
Definition init (descriptions : list string) (mx : Z) (col : string) : ButtonBox :=
  let n := length descriptions in
  {| buttons := seq 0 n; children := seq 0 n; position := -1; button := None;
     maxchar := mx; color := col;
     store := list_to_map (zip (seq 0 n) (new_button mx <$> descriptions));
     next_ref := n |}.

(** The box shows the buttons the class keeps track of. *)
Definition synced (bb : ButtonBox) : Prop := children bb = buttons bb.

End BB.

Module Gpt5.
Import BB.

(** [ButtonBox.remove]: only [None] stands for "the selected one". *)
Definition remove (pos : option Z) (bb : ButtonBox) : ButtonBox :=
  let p := match pos with None => position bb | Some p => p end in
  if negb (p <? Z.of_nat (length (buttons bb))) || (p <? 0) then bb
  else removed p bb.

(** *** Normalizer *)

Definition _normalize_list (val : PyVal) : list PyVal :=
  match val with
  | PNone => []
  | PStr _ => [val]
  | PDict d => d.*2
  | PList l => l
  | _ => []
  end.

(** What one item of the loop of [_lower_flatten] adds to [out]. *)
Definition lowered (x : PyVal) : list string :=
  match x with
  | PDict d =>
      flat_map (fun kv => match kv.2 with PStr s => [Str.lower s] | _ => [] end) d
  | PList l => map (fun y => Str.lower (Py.str y)) l
  | _ => [Str.lower (Py.str x)]
  end.

(** [list({*out})] holds every element of the set once, in an order
    Python leaves open; the record keeps the set, and its readers use
    [in] and [len] only. *)
Definition _lower_flatten (items : list PyVal) : gset string :=
  list_to_set (flat_map lowered items).

(** [_lower_flatten(_normalize_list(c.get(a) or c.get(b) or c.get(d)))]
    with [c = card or {}]. *)
Definition extract (a b d : string) (card : PyVal) : result (gset string) :=
  let c := Py.or card (PDict []) in
  va ← Py.get c a;
  vb ← Py.get c b;
  vd ← Py.get c d;
  Ok (_lower_flatten (_normalize_list (Py.or (Py.or va vb) vd))).

Definition extract_tasks : PyVal -> result (gset string) :=
  extract "task_categories" "task_ids" "tasks".

Definition extract_languages : PyVal -> result (gset string) :=
  extract "language" "languages" "langs".

(** A [DatasetInfo] of the hub client. [None] stands for an attribute
    that is missing or holds [None]: [getattr(info, name, None)] reads
    both alike. *)
Record Info := {
  i_id : string;
  i_downloads : option Z;
  i_likes : option Z;
  i_lastModified : option Z;
  i_cardData : PyVal
}.

(** The record dict of [build_dataset_record]. *)
Record Rec := {
  r_id : string;
  r_downloads : option Z;
  r_likes : option Z;
  r_last_modified : option Z;
  r_card : PyVal;
  r_tasks : gset string;
  r_languages : gset string;
  r_license : PyVal
}.

Definition build_dataset_record (info : Info) : result Rec :=
  let card := i_cardData info in
  tasks ← extract_tasks card;
  langs ← extract_languages card;
  lic ← Py.get (Py.or card (PDict [])) "license";
  Ok {| r_id := i_id info;
        r_downloads := i_downloads info;
        r_likes := i_likes info;
        r_last_modified := i_lastModified info;
        r_card := card;
        r_tasks := tasks;
        r_languages := langs;
        r_license := lic |}.

(** *** Filtering *)

Record Query := {
  limit : Z;
  search_text : string;
  task : string;
  language : string;
  require_license : bool;
  require_carddata : bool
}.

(** [(search_text or '').strip().lower()] *)
Definition search_of (q : Query) : string :=
  Str.lower (Str.strip (search_text q)).

(** The search test of the loop body: [false] stands for [continue]. *)
Definition search_ok (search : string) (rec : Rec) : result bool :=
  if String.eqb search "" then Ok true
  else
    p ← Py.get (Py.or (r_card rec) (PDict [])) "pretty_name";
    let pretty := Py.or p (PStr "") in
    Ok (negb (negb (Str.contains search (Str.lower (r_id rec))) &&
              negb (Str.contains search (Str.lower (Py.str pretty))))).

Definition task_ok (q : Query) (rec : Rec) : bool :=
  negb (negb (String.eqb (task q) "Any") &&
        negb (bool_decide (Str.lower (task q) ∈ r_tasks rec))).

Definition language_ok (q : Query) (rec : Rec) : bool :=
  if negb (String.eqb (language q) "Any") then
    if String.eqb (language q) "multi" then
      (1 <? size (r_languages rec))%nat ||
      bool_decide ("multilingual" ∈ r_languages rec)
    else bool_decide (Str.lower (language q) ∈ r_languages rec)
  else true.

Definition license_ok (q : Query) (rec : Rec) : bool :=
  negb (require_license q && negb (Py.truthy (r_license rec))).

Definition carddata_ok (q : Query) (rec : Rec) : bool :=
  negb (require_carddata q && negb (Py.truthy (r_card rec))).

(** The tests of the loop body, in their order. *)
Definition passes (q : Query) (rec : Rec) : result bool :=
  s ← search_ok (search_of q) rec;
  Ok (s && task_ok q rec && language_ok q rec && license_ok q rec && carddata_ok q rec).

(** The remote side: the listing sorted by downloads (a generator),
    the detail endpoint, and the trending endpoint with its transport,
    status check and JSON decoding. *)
Record Hub := {
  list_datasets : Z -> Gen Info;
  dataset_info : string -> result Info;
  trending : string -> result PyVal
}.

(** What the loop does with a record that passed or failed the tests:
    [inl] is the [break] with the final list, [inr] the list to go on with. *)
Definition step (q : Query) (rec : Rec) (keep : bool) (records : list Rec)
    : list Rec + list Rec :=
  if keep then
    let records' := (records ++ [rec])%list in
    if limit q <=? Z.of_nat (length records') then inl records' else inr records'
  else inr records.

(** The loop of [list_all_time] over the infos still to come. *)
Fixpoint all_time_loop (q : Query) (infos : list Info) (tail : option Exn)
    (records : list Rec) : result (list Rec) :=
  match infos with
  | [] => match tail with Some e => Raise e | None => Ok records end
  | info :: rest =>
      rec ← build_dataset_record info;
      keep ← passes q rec;
      match step q rec keep records with
      | inl final => Ok final
      | inr records' => all_time_loop q rest tail records'
      end
  end.

Definition list_all_time (hub : Hub) (q : Query) (backend_limit : Z)
    : result (list Rec) :=
  let '(infos, tail) := list_datasets hub backend_limit in
  all_time_loop q infos tail [].

(** [cached_dataset_info], an [lru_cache(maxsize=2048)] around the
    detail endpoint; a result is stored only when the call returns. The
    hub client refuses an id that is not a string. *)
Definition cached_dataset_info (hub : Hub) (rid : PyVal) (c : LRU.t Info)
    : result Info * LRU.t Info :=
  match rid with
  | PStr s =>
      match LRU.find s c with
      | Some info => (Ok info, LRU.touch s info c)
      | None =>
          match dataset_info hub s with
          | Ok info => (Ok info, LRU.add 2048 s info c)
          | Raise e => (Raise e, c)
          end
      end
  | _ => (Raise TypeError, c)
  end.

(** [for item in data]: the items a value yields when iterated. *)
Definition iterate (data : PyVal) : result (list PyVal) :=
  match data with
  | PList l => Ok l
  | PDict d => Ok (PStr <$> d.*1)
  | PStr s => Ok ((fun c => PStr (String c "")) <$> String.list_ascii_of_string s)
  | _ => Raise TypeError
  end.

(** The first loop of [list_trending]: the ids of the response. *)
Fixpoint trending_ids (items : list PyVal) (ids : list PyVal) : result (list PyVal) :=
  match items with
  | [] => Ok ids
  | item :: rest =>
      a ← Py.get item "repoId";
      b ← Py.get item "id";
      c ← Py.get item "name";
      let rid := Py.or (Py.or a b) c in
      trending_ids rest (if Py.truthy rid then (ids ++ [rid])%list else ids)
  end.

(** The second loop of [list_trending]; an id whose detail lookup
    raises is skipped. *)
Fixpoint trending_loop (hub : Hub) (q : Query) (ids : list PyVal)
    (records : list Rec) (c : LRU.t Info) : result (list Rec) * LRU.t Info :=
  match ids with
  | [] => (Ok records, c)
  | rid :: rest =>
      match cached_dataset_info hub rid c with
      | (Raise _, c') => trending_loop hub q rest records c'
      | (Ok info, c') =>
          match (rec ← build_dataset_record info;
                 keep ← passes q rec;
                 Ok (step q rec keep records)) with
          | Raise e => (Raise e, c')
          | Ok (inl final) => (Ok final, c')
          | Ok (inr records') => trending_loop hub q rest records' c'
          end
      end
  end.

Definition list_trending (hub : Hub) (period : string) (q : Query)
    (c : LRU.t Info) : result (list Rec) * LRU.t Info :=
  match trending hub period with
  | Raise _ => (Ok [], c)
  | Ok data =>
      match (items ← iterate data; trending_ids items []) with
      | Raise e => (Raise e, c)
      | Ok ids => trending_loop hub q ids [] c
      end
  end.

(** *** Presentation *)

(** What the details pane shows. The markup of [render_details] is
    not spelled out: [Rendered rec] stands for the block built from [rec]. *)
Inductive Details :=
| Markup (s : string)
| Rendered (rec : Rec)
| ErrorText (e : Exn).

(** [render_details]: it raises where [len(summary)] is asked of a
    number. *)
Definition render_details (rec : Rec) : result Details :=
  let card := Py.or (r_card rec) (PDict []) in
  _ ← Py.get card "pretty_name";
  ds ← Py.get card "dataset_summary";
  de ← Py.get card "description";
  let summary := Py.or (Py.or ds de) (PStr "") in
  let summary :=
    match summary with
    | PList l => PStr (Str.join " " (map Py.str l))
    | _ => summary
    end in
  match summary with
  | PInt _ | PBool _ => if Py.truthy summary then Raise TypeError else Ok (Rendered rec)
  | _ => Ok (Rendered rec)
  end.

(** The widgets and closure variables of [render_ui] that the
    handlers touch, besides the button box. *)
(** The status line: its two texts, by their parameters. *)
Inductive Status :=
| NoStatus
| Loading
| Showing (n : nat) (metric_val : string).

Record UI := {
  details : Details;
  status : Status;
  _current_records : gmap string Rec;
  info_cache : LRU.t Info
}.

Definition set_details (d : Details) (ui : UI) : UI :=
  {| details := d; status := status ui;
     _current_records := _current_records ui; info_cache := info_cache ui |}.

Definition set_info_cache (c : LRU.t Info) (ui : UI) : UI :=
  {| details := details ui; status := status ui;
     _current_records := _current_records ui; info_cache := c |}.

(** The body of the [try] of [on_select]. *)
Definition on_select_try (hub : Hub) (bbox : ButtonBox) (ui : UI) : result Details * UI :=
  match button bbox ≫= (fun r => store bbox !! r) with
  | None => (Raise AttributeError, ui)
  | Some b =>
      let ds_id := tooltip b in
      match _current_records ui !! ds_id with
      | Some rec => (render_details rec, ui)
      | None =>
          let '(r, c) := cached_dataset_info hub (PStr ds_id) (info_cache ui) in
          (info ← r; rec ← build_dataset_record info; render_details rec,
           set_info_cache c ui)
      end
  end.

(** [on_select]: every exception ends as text in the details pane. *)
Definition on_select (hub : Hub) (bbox : ButtonBox) (ui : UI) : result unit * UI :=
  match on_select_try hub bbox ui with
  | (Ok d, ui') => (Ok (), set_details d ui')
  | (Raise e, ui') => (Ok (), set_details (ErrorText e) ui')
  end.

(** A click on the button [b] of the box of [render_ui]. *)
Definition click (hub : Hub) (b : nat) (st : ButtonBox * UI)
    : result unit * (ButtonBox * UI) :=
  _clicker (Some (on_select hub)) b st.

(** [populate_buttons]: the lists are emptied, the selection fields
    are left as they were. *)
Fixpoint populate_loop (records : list Rec) (bb : ButtonBox) : result unit * ButtonBox :=
  match records with
  | [] => (Ok (), bb)
  | rec :: rest =>
      match Py.get (Py.or (r_card rec) (PDict [])) "pretty_name" with
      | Raise e => (Raise e, bb)
      | Ok p =>
          let title := Py.or p (PStr (r_id rec)) in
          match append (St := unit) None (Py.str title) false (bb, ()) with
          | (Raise e, (bb', _)) => (Raise e, bb')
          | (Ok r, (bb', _)) =>
              populate_loop rest
                (with_store (alter (set_tooltip (r_id rec)) r (store bb')) bb')
          end
      end
  end.

Definition populate_buttons (records : list Rec) (bb : ButtonBox) : result unit * ButtonBox :=
  populate_loop records (with_lists [] [] bb).

Definition set_status (s : Status) (ui : UI) : UI :=
  {| details := details ui; status := s;
     _current_records := _current_records ui; info_cache := info_cache ui |}.

Definition set_current (m : gmap string Rec) (ui : UI) : UI :=
  {| details := details ui; status := status ui;
     _current_records := m; info_cache := info_cache ui |}.

(** [refresh]: an exception of [list_all_time] leaves the handler
    with the status and details already reset. *)
Definition refresh (hub : Hub) (metric_val : string) (q : Query)
    (st : ButtonBox * UI) : result unit * (ButtonBox * UI) :=
  let '(bb, ui) := st in
  let ui1 := set_details (Markup "") (set_status Loading ui) in
  let '(r, c) :=
    if String.eqb metric_val "All-time downloads" then
      (list_all_time hub q 500, info_cache ui1)
    else if String.eqb metric_val "Trending (week)" then
      list_trending hub "week" q (info_cache ui1)
    else list_trending hub "month" q (info_cache ui1) in
  let ui2 := set_info_cache c ui1 in
  match r with
  | Raise e => (Raise e, (bb, ui2))
  | Ok records =>
      let ui3 := set_current (foldl (fun m rec => <[r_id rec := rec]> m) ∅ records) ui2 in
      match populate_buttons records bb with
      | (Raise e, bb') => (Raise e, (bb', ui3))
      | (Ok _, bb') => (Ok (), (bb', set_status (Showing (length records) metric_val) ui3))
      end
  end.

(** The listing that [refresh] asks for: [list_all_time], or
    [list_trending] for the week or the month, by the metric chosen. *)
Definition listing (hub : Hub) (metric_val : string) (q : Query) (c : LRU.t Info)
    : result (list Rec) * LRU.t Info :=
  if String.eqb metric_val "All-time downloads" then (list_all_time hub q 500, c)
  else if String.eqb metric_val "Trending (week)" then list_trending hub "week" q c
  else list_trending hub "month" q c.

(** *** Readings used in the statements *)

(** The normalization of one tag-source value. *)
Definition normalize (val : PyVal) : gset string :=
  _lower_flatten (_normalize_list val).

(** The card data for which [(card or {}).get] is defined: a falsy
    value, which gives way to [{}], or a dict. *)
Definition card_ok (card : PyVal) : Prop :=
  Py.truthy card = false \/ exists d, card = PDict d.

(** [(card or {}).get(k)] for such a card. *)
Definition card_get (card : PyVal) (k : string) : PyVal :=
  match Py.or card (PDict []) with
  | PDict d => Py.lookup k d
  | _ => PNone
  end.

(** More than one language tag, or the tag "multilingual". *)
Definition multi (rec : Rec) : Prop :=
  (1 < size (r_languages rec))%nat \/ "multilingual" ∈ r_languages rec.

Global Instance multi_dec (rec : Rec) : Decision (multi rec).
Proof. unfold multi. apply _. Defined.

(** The search test on a record whose card is fine. *)
Definition search_hit (search : string) (rec : Rec) : bool :=
  String.eqb search "" ||
  Str.contains search (Str.lower (r_id rec)) ||
  Str.contains search
    (Str.lower (Py.str (Py.or (card_get (r_card rec) "pretty_name") (PStr "")))).

(** The tests of the loop body other than the language test. *)
Definition others_ok (q : Query) (rec : Rec) : bool :=
  search_hit (search_of q) rec && task_ok q rec && license_ok q rec && carddata_ok q rec.

(** All the tests of the loop body. *)
Definition keep (q : Query) (rec : Rec) : bool :=
  others_ok q rec && language_ok q rec.

(** [item.get('repoId') or item.get('id') or item.get('name')] on the
    entries of a dict. *)
Definition rid_of (d : list (string * PyVal)) : PyVal :=
  Py.or (Py.or (Py.lookup "repoId" d) (Py.lookup "id" d)) (Py.lookup "name" d).

Definition is_dict (v : PyVal) : bool :=
  match v with PDict _ => true | _ => false end.

End Gpt5.

Module Sonnet4.
Import BB.

(** [ButtonBox.remove]: [if not position] also catches position 0. *)
Definition remove (pos : option Z) (bb : ButtonBox) : ButtonBox :=
  let p := match pos with
           | None => position bb
           | Some p => if p =? 0 then position bb else p
           end in
  if (p =? 0) || negb (p <? Z.of_nat (length (buttons bb))) || (p <? 0) then bb
  else removed p bb.

(** [ButtonBox.clear] *)
Definition clear (bb : ButtonBox) : ButtonBox :=
  with_selection (-1) None (with_lists [] [] bb).

(** *** [list.sort] *)

(** Where [x] goes in an ascending list so that it stays in front of
    the elements of equal key. *)
Fixpoint insert_asc {A} (key : A -> Z) (x : A) (l : list A) : list A :=
  match l with
  | [] => [x]
  | y :: rest => if key x <=? key y then x :: l else y :: insert_asc key x rest
  end.

(** A stable ascending sort. *)
Definition sort_asc {A} (key : A -> Z) (l : list A) : list A :=
  foldr (insert_asc key) [] l.

(** [l.sort(key=key, reverse=reverse)] as CPython runs it: the list is
    reversed before and after a stable ascending sort, which keeps
    equal elements in their order. *)
Definition list_sort {A} (key : A -> Z) (reverse : bool) (l : list A) : list A :=
  if reverse then rev (sort_asc key (rev l)) else sort_asc key l.

(** The same over keys that may be [None]: two elements or more are
    compared, and a comparison with [None] raises [TypeError]. *)
Definition list_sort_opt {A} (key : A -> option Z) (reverse : bool) (l : list A)
    : result (list A) :=
  if (1 <? length l)%nat && negb (forallb (fun a => bool_decide (is_Some (key a))) l)
  then Raise TypeError
  else Ok (list_sort (fun a => default 0 (key a)) reverse l).

(** A [datetime]. The hub client hands out timezone-aware values;
    [datetime.now()] is naive. Two naive values compare by their wall
    clock and two aware ones by their instant, each held here in seconds;
    comparing a naive with an aware value raises [TypeError]. *)
Inductive datetime :=
| Naive (t : Z)
| Aware (t : Z).

Definition instant (d : datetime) : Z :=
  match d with
  | Naive t => t
  | Aware t => t
  end.

Definition is_naive (d : option datetime) : bool :=
  match d with
  | Some (Naive _) => true
  | _ => false
  end.

Definition is_aware (d : option datetime) : bool :=
  match d with
  | Some (Aware _) => true
  | _ => false
  end.

(** [l.sort(key=key, reverse=reverse)] over keys that are datetimes or
    [None]. A sort of two elements or more ends only when its
    comparisons settle the place of every element, so it compares
    across the kinds where the list mixes them: a naive with an aware
    datetime, or anything with [None], and such a comparison raises
    [TypeError]. Keys of one kind sort by their number. *)
Definition list_sort_date {A} (key : A -> option datetime) (reverse : bool) (l : list A)
    : result (list A) :=
  if (1 <? length l)%nat && existsb (fun a => is_naive (key a)) l
     && existsb (fun a => is_aware (key a)) l
  then Raise TypeError
  else list_sort_opt (fun a => instant <$> key a) reverse l.

(** *** Data *)

(** An attribute of a hub object: missing, [None], or a value. *)
Inductive Attr (A : Type) :=
| Absent
| Null
| Val (a : A).
Arguments Absent {A}.
Arguments Null {A}.
Arguments Val {A} a.

(** [getattr(o, name, d) or d] *)
Definition attr_or {A} (falsy : A -> bool) (d : A) (a : Attr A) : A :=
  match a with
  | Val v => if falsy v then d else v
  | _ => d
  end.

(** The result of [dataset_info]. *)
Record Info := {
  i_description : Attr string;
  i_downloads : Attr Z;
  i_likes : Attr Z;
  i_created_at : Attr datetime;
  i_last_modified : Attr datetime;
  i_tags : Attr (list string);
  i_size_in_bytes : Attr Z;
  i_siblings : Attr (list string)
}.

Record DatasetStats := {
  id : string;
  author : string;
  name : string;
  description : string;
  downloads : Z;
  likes : Z;
  created_at : option datetime;
  updated_at : datetime;
  tags : list string;
  url : string;
  size_bytes : option Z;
  file_count : option Z
}.

Definition slash : Ascii.ascii := Ascii.ascii_of_nat 47.

(** [s.split('/')[0]] *)
Fixpoint split_first (s : string) : string :=
  match s with
  | EmptyString => EmptyString
  | String c r => if Ascii.eqb c slash then EmptyString else String c (split_first r)
  end.

(** [s.split('/')[-1]] *)
Fixpoint split_last (s : string) : string :=
  match s with
  | EmptyString => EmptyString
  | String c r =>
      if Str.has_char slash r then split_last r
      else if Ascii.eqb c slash then r else s
  end.

(** The [DatasetStats(...)] call of [get_dataset_stats]; [len(None)]
    raises where [siblings] is present and holds [None]. The dates the
    hub gives are kept as they are, and [datetime.now()], which is naive,
    stands in for a missing one. *)
Definition make_stats (now : Z) (dataset_id : string) (info : Info) : result DatasetStats :=
  fc ← match i_siblings info with
       | Absent => Ok None
       | Null => Raise TypeError
       | Val l => Ok (Some (Z.of_nat (length l)))
       end;
  Ok {| id := dataset_id;
        author := if Str.has_char slash dataset_id then split_first dataset_id else "unknown";
        name := split_last dataset_id;
        description := attr_or (String.eqb "") "" (i_description info);
        downloads := attr_or (Z.eqb 0) 0 (i_downloads info);
        likes := attr_or (Z.eqb 0) 0 (i_likes info);
        created_at := match i_created_at info with
                      | Absent => Some (Naive now)
                      | Null => None
                      | Val t => Some t
                      end;
        updated_at := attr_or (fun _ => false) (Naive now) (i_last_modified info);
        tags := attr_or (fun l => bool_decide (l = [])) [] (i_tags info);
        url := "https://huggingface.co/datasets/" +:+ dataset_id;
        size_bytes := match i_size_in_bytes info with Val z => Some z | _ => None end;
        file_count := fc |}.

(** *** [DatasetManager] *)

(** The remote side: the listing (the call may raise, and so may the
    generator it returns) and the detail endpoint. *)
Record Hub := {
  list_datasets : option Z -> result (Gen string);
  dataset_info : string -> result Info
}.

Inductive Call :=
| CallList (limit : option Z)
| CallInfo (dataset_id : string).

(** The fields of a manager, the memo table that [lru_cache] keeps for
    [get_dataset_stats], and a log of the requests sent to the hub
    (the log is not part of the program: it counts calls). *)
Record Manager := {
  cache : gmap string (Z * list DatasetStats);
  cache_timeout : Z;
  _stats_cache : gmap string (Z * DatasetStats);
  stats_memo : LRU.t (option DatasetStats);
  calls : list Call
}.

(** [DatasetManager.__init__] *)
Definition init : Manager :=
  {| cache := ∅; cache_timeout := 3600; _stats_cache := ∅;
     stats_memo := []; calls := [] |}.

Definition log (c : Call) (m : Manager) : Manager :=
  {| cache := cache m; cache_timeout := cache_timeout m;
     _stats_cache := _stats_cache m; stats_memo := stats_memo m;
     calls := calls m ++ [c] |}.

Definition set_stats_cache (sc : gmap string (Z * DatasetStats)) (m : Manager) : Manager :=
  {| cache := cache m; cache_timeout := cache_timeout m;
     _stats_cache := sc; stats_memo := stats_memo m; calls := calls m |}.

Definition set_stats_memo (l : LRU.t (option DatasetStats)) (m : Manager) : Manager :=
  {| cache := cache m; cache_timeout := cache_timeout m;
     _stats_cache := _stats_cache m; stats_memo := l; calls := calls m |}.

Definition set_cache (c : gmap string (Z * list DatasetStats)) (m : Manager) : Manager :=
  {| cache := c; cache_timeout := cache_timeout m;
     _stats_cache := _stats_cache m; stats_memo := stats_memo m; calls := calls m |}.

(** The part of [get_dataset_stats] after the cache check. *)
Definition fetch_stats (hub : Hub) (now : Z) (dataset_id : string) (m : Manager)
    : option DatasetStats * Manager :=
  let m1 := log (CallInfo dataset_id) m in
  match dataset_info hub dataset_id ≫= make_stats now dataset_id with
  | Ok stats => (Some stats, set_stats_cache (<[dataset_id := (now, stats)]> (_stats_cache m1)) m1)
  | Raise _ => (None, m1)
  end.

(** The body of [get_dataset_stats]. *)
Definition get_dataset_stats_body (hub : Hub) (now : Z) (dataset_id : string) (m : Manager)
    : option DatasetStats * Manager :=
  match _stats_cache m !! dataset_id with
  | Some (cache_time, stats) =>
      if now - cache_time <? cache_timeout m then (Some stats, m)
      else fetch_stats hub now dataset_id m
  | None => fetch_stats hub now dataset_id m
  end.

(** [get_dataset_stats] as decorated: [@lru_cache(maxsize=100)] answers
    a repeated [dataset_id] from its memo table, without running the body.
    The table is keyed by the instance and the id; the model follows one
    instance. *)
Definition get_dataset_stats (hub : Hub) (now : Z) (dataset_id : string) (m : Manager)
    : option DatasetStats * Manager :=
  match LRU.find dataset_id (stats_memo m) with
  | Some r => (r, set_stats_memo (LRU.touch dataset_id r (stats_memo m)) m)
  | None =>
      let '(r, m') := get_dataset_stats_body hub now dataset_id m in
      (r, set_stats_memo (LRU.add 100 dataset_id r (stats_memo m')) m')
  end.

(** [_apply_filters] *)
Definition cutoff_date (now : Z) (time_period : string) : Z :=
  if String.eqb time_period "7d" then now - 7 * 86400
  else if String.eqb time_period "30d" then now - 30 * 86400
  else if String.eqb time_period "90d" then now - 90 * 86400
  else now.

(** [d >= cutoff_date], where [cutoff_date] comes from
    [datetime.now()] and is naive. *)
Definition ge_naive (d : datetime) (cutoff : Z) : result bool :=
  match d with
  | Naive t => Ok (cutoff <=? t)
  | Aware _ => Raise TypeError
  end.

(** [[d for d in datasets if d.updated_at >= cutoff_date]]: the first
    comparison that raises ends the comprehension. *)
Fixpoint since (cutoff : Z) (datasets : list DatasetStats) : result (list DatasetStats) :=
  match datasets with
  | [] => Ok []
  | d :: rest =>
      keep ← ge_naive (updated_at d) cutoff;
      kept ← since cutoff rest;
      Ok (if keep : bool then d :: kept else kept)
  end.

Definition time_filter (now : Z) (time_period : string) (datasets : list DatasetStats)
    : result (list DatasetStats) :=
  if negb (String.eqb time_period "all") then
    since (cutoff_date now time_period) datasets
  else Ok datasets.

Definition _apply_filters (now : Z) (datasets : list DatasetStats)
    (time_period sort_by : string) : result (list DatasetStats) :=
  datasets ← time_filter now time_period datasets;
  if String.eqb sort_by "downloads" then Ok (list_sort downloads true datasets)
  else if String.eqb sort_by "likes" then Ok (list_sort likes true datasets)
  else if String.eqb sort_by "updated"
  then list_sort_date (fun d => Some (updated_at d)) true datasets
  else if String.eqb sort_by "created" then list_sort_date created_at true datasets
  else Ok datasets.

(** The number that [_apply_filters] sorts by, for the values of
    [sort_by] it knows: the counter, or the number of the date. *)
Definition sort_key (sort_by : string) : option (DatasetStats -> option Z) :=
  if String.eqb sort_by "downloads" then Some (fun d => Some (downloads d))
  else if String.eqb sort_by "likes" then Some (fun d => Some (likes d))
  else if String.eqb sort_by "updated" then Some (fun d => Some (instant (updated_at d)))
  else if String.eqb sort_by "created" then Some (fun d => instant <$> created_at d)
  else None.

(** [l[:n]] *)
Definition slice_to {A} (n : Z) (l : list A) : list A :=
  if n <? 0 then take (Z.to_nat (Z.of_nat (length l) + n)) l
  else take (Z.to_nat n) l.

(** The loop of [get_popular_datasets] over the ids still to come. *)
Fixpoint stats_loop (hub : Hub) (now : Z) (limit : Z) (ids : list string)
    (tail : option Exn) (dataset_stats : list DatasetStats) (m : Manager)
    : result (list DatasetStats) * Manager :=
  match ids with
  | [] => (match tail with Some e => Raise e | None => Ok dataset_stats end, m)
  | dataset_id :: rest =>
      if limit <=? Z.of_nat (length dataset_stats) then (Ok dataset_stats, m)
      else
        let '(stats, m') := get_dataset_stats hub now dataset_id m in
        stats_loop hub now limit rest tail
          (match stats with Some s => dataset_stats ++ [s] | None => dataset_stats end) m'
  end.

(** [f"{time_period}_{limit}_{sort_by}"] *)
Definition cache_key (time_period : string) (limit : Z) (sort_by : string) : string :=
  time_period +:+ "_" +:+ pretty limit +:+ "_" +:+ sort_by.

(** The [try] block of [get_popular_datasets]. *)
Definition fetch_popular (hub : Hub) (now : Z) (time_period : string) (limit : Z)
    (sort_by : string) (m : Manager) : result (list DatasetStats) * Manager :=
  let m1 := log (CallList (Some (limit * 3))) m in
  let '(listing, m2) :=
    match list_datasets hub (Some (limit * 3)) with
    | Ok g => (Ok g, m1)
    | Raise _ => (list_datasets hub None, log (CallList None) m1)
    end in
  match listing with
  | Raise e => (Raise e, m2)
  | Ok (ids, tail) =>
      match stats_loop hub now limit ids tail [] m2 with
      | (Raise e, m3) => (Raise e, m3)
      | (Ok dataset_stats, m3) =>
          match _apply_filters now dataset_stats time_period sort_by with
          | Raise e => (Raise e, m3)
          | Ok filtered_stats =>
              let data := slice_to limit filtered_stats in
              (Ok data,
               set_cache (<[cache_key time_period limit sort_by := (now, data)]> (cache m3)) m3)
          end
      end
  end.

(** The cache check: the data under [key], when stored less than
    [cache_timeout] ago. *)
Definition cached (now : Z) (key : string) (m : Manager) : option (list DatasetStats) :=
  match cache m !! key with
  | Some (cache_time, data) =>
      if now - cache_time <? cache_timeout m then Some data else None
  | None => None
  end.

Definition get_popular_datasets (hub : Hub) (now : Z) (time_period : string)
    (limit : Z) (sort_by : string) (m : Manager) : list DatasetStats * Manager :=
  match cached now (cache_key time_period limit sort_by) m with
  | Some data => (data, m)
  | None =>
      match fetch_popular hub now time_period limit sort_by m with
      | (Ok data, m') => (data, m')
      | (Raise _, m') => ([], m')
      end
  end.

(** A run of calls of [get_dataset_stats], each with the hub and the
    clock of its moment. *)
Definition lookups (ks : list (Hub * Z * string)) (m : Manager) : Manager :=
  foldl (fun m k => (get_dataset_stats k.1.1 k.1.2 k.2 m).2) m ks.

(** The stats that the memo table of [get_dataset_stats] holds for
    the given ids, in their order. *)
Definition memoized (m : Manager) (ids : list string) : list DatasetStats :=
  omap (fun i => mjoin (LRU.find i (stats_memo m))) ids.

(** What a step leaves alone: the query cache and the time-to-live;
    the log only grows. *)
Definition frame (m m' : Manager) : Prop :=
  cache m' = cache m /\ cache_timeout m' = cache_timeout m /\
  calls m `prefix_of` calls m'.

(** Both counters of an item are non-negative. *)
Definition nonneg (s : DatasetStats) : Prop := 0 <= downloads s /\ 0 <= likes s.

(** The counters the hub reports, where it reports any, are non-negative. *)
Definition raw_nonneg (info : Info) : Prop :=
  match i_downloads info with Val z => 0 <= z | _ => True end /\
  match i_likes info with Val z => 0 <= z | _ => True end.

(** Every item that a manager has stored satisfies [P]. *)
Definition stored (P : DatasetStats -> Prop) (m : Manager) : Prop :=
  (forall k t data, cache m !! k = Some (t, data) -> Forall P data) /\
  (forall k t s, _stats_cache m !! k = Some (t, s) -> P s) /\
  (forall k s, (k, Some s) ∈ stats_memo m -> P s).

End Sonnet4.


Module Qwen3.
Import BB.

(** [ButtonBox.remove] is the one of the sonnet4 file. *)
Definition remove : option Z -> ButtonBox -> ButtonBox := Sonnet4.remove.

(** A [DatasetInfo] listed with the expanded properties: every
    attribute is there, and [None] where the hub gave no value. *)
Record Info := {
  id : string;
  downloads : option Z;
  downloads_all_time : option Z;
  likes : option Z;
  last_modified : option Z;
  created_at : option Z;
  description : option string;
  tags : option (list string)
}.

(** The listing endpoint, by sort key and limit. *)
Record Hub := {
  list_datasets : string -> Z -> result (Gen Info)
}.

(** [list(datasets)] *)
Definition materialise {A} (g : Gen A) : result (list A) :=
  match g.2 with
  | Some e => Raise e
  | None => Ok g.1
  end.

Definition cutoff_date (now : Z) (date_filter : string) : option Z :=
  if String.eqb date_filter "week" then Some (now - 7 * 86400)
  else if String.eqb date_filter "month" then Some (now - 30 * 86400)
  else if String.eqb date_filter "year" then Some (now - 365 * 86400)
  else None.

Definition fetch_datasets (hub : Hub) (now : Z) (sort_by : string) (limit : Z)
    (date_filter : option string) : result (list Info) :=
  datasets ← list_datasets hub sort_by limit;
  datasets_list ← materialise datasets;
  match date_filter with
  | Some df =>
      if negb (String.eqb df "") &&
         (String.eqb sort_by "last_modified" || String.eqb sort_by "created_at")
      then
        match cutoff_date now df with
        | Some cutoff =>
            let date_attr := if String.eqb sort_by "last_modified"
                             then last_modified else created_at in
            Ok (List.filter (fun ds => match date_attr ds with
                                  | Some t => bool_decide (cutoff < t)
                                  | None => false
                                  end) datasets_list)
        | None => Ok datasets_list
        end
      else Ok datasets_list
  | None => Ok datasets_list
  end.

(** What the output area shows; the text of the details is not
    spelled out. *)
Inductive Output :=
| Cleared
| FetchingDatasets
| ShowingDatasets (n : nat)
| ErrorFetchingDatasets (e : Exn)
| FetchingDetails
| DetailsOf (ds : Info)
| NotFound (dataset_id : string)
| ErrorFetchingDetails (e : Exn).

(** [display_dataset_details]: the format [:,] raises on [None]. *)
Definition display_dataset_details (dataset : Info) : result Output :=
  match downloads dataset, downloads_all_time dataset with
  | Some _, Some _ => Ok (DetailsOf dataset)
  | _, _ => Raise TypeError
  end.

(** The widgets of [create_dataset_explorer] that the handlers read or
    write, besides the button box. *)
Record UI := {
  sort_value : string;
  date_filter_value : option string;
  limit_value : Z;
  output : Output
}.

Definition set_output (o : Output) (ui : UI) : UI :=
  {| sort_value := sort_value ui; date_filter_value := date_filter_value ui;
     limit_value := limit_value ui; output := o |}.

(** [show_dataset_details] *)
Definition show_dataset_details (hub : Hub) (now : Z) (bbox : ButtonBox) (ui : UI)
    : result unit * UI :=
  match button bbox ≫= (fun r => store bbox !! r) with
  | None => (Raise AttributeError, ui)
  | Some b =>
      let dataset_id := tooltip b in
      let shown :=
        datasets ← fetch_datasets hub now (sort_value ui) (limit_value ui) None;
        match List.find (fun ds => String.eqb (id ds) dataset_id) datasets with
        | Some selected_dataset => display_dataset_details selected_dataset
        | None => Ok (NotFound dataset_id)
        end in
      match shown with
      | Ok o => (Ok (), set_output o ui)
      | Raise e => (Ok (), set_output (ErrorFetchingDetails e) ui)
      end
  end.

(** A click on the button [b] of the box of the explorer. *)
Definition click (hub : Hub) (now : Z) (b : nat) (st : ButtonBox * UI)
    : result unit * (ButtonBox * UI) :=
  _clicker (Some (show_dataset_details hub now)) b st.

(** The button loop of [update_datasets]. *)
Fixpoint append_all (datasets : list Info) (bb : ButtonBox) : ButtonBox :=
  match datasets with
  | [] => bb
  | ds :: rest =>
      append_all rest (append (St := unit) None (id ds) false (bb, ())).2.1
  end.

(** [update_datasets]; an argument that is [None] or falsy gives way
    to the value of its widget. *)
Definition update_datasets (hub : Hub) (now : Z) (sort_by : option string)
    (date_filter : option string) (limit : option Z) (st : ButtonBox * UI)
    : ButtonBox * UI :=
  let '(bb, ui) := st in
  let sort := match sort_by with
              | Some s => if String.eqb s "" then sort_value ui else s
              | None => sort_value ui
              end in
  let lim := match limit with
             | Some l => if l =? 0 then limit_value ui else l
             | None => limit_value ui
             end in
  let df := match date_filter with
            | Some s => if String.eqb s "" then date_filter_value ui else Some s
            | None => date_filter_value ui
            end in
  match fetch_datasets hub now sort lim df with
  | Raise e => (bb, set_output (ErrorFetchingDatasets e) ui)
  | Ok datasets =>
      let bb1 := with_selection (-1) None (with_lists [] [] bb) in
      (append_all datasets bb1, set_output (ShowingDatasets (length datasets)) ui)
  end.

(** The arguments [update_datasets] hands to [fetch_datasets]:
    [sort_by or sort_dropdown.value] and its like. *)
Definition sort_or (sort_by : option string) (ui : UI) : string :=
  match sort_by with
  | Some s => if String.eqb s "" then sort_value ui else s
  | None => sort_value ui
  end.

Definition limit_or (limit : option Z) (ui : UI) : Z :=
  match limit with
  | Some l => if l =? 0 then limit_value ui else l
  | None => limit_value ui
  end.

Definition date_filter_or (date_filter : option string) (ui : UI) : option string :=
  match date_filter with
  | Some s => if String.eqb s "" then date_filter_value ui else Some s
  | None => date_filter_value ui
  end.

(** [getattr(ds, date_attr)] for the [date_attr] that goes with [sort_by]. *)
Definition date_attr (sort_by : string) (ds : Info) : option Z :=
  if String.eqb sort_by "last_modified" then last_modified ds else created_at ds.

End Qwen3.

(** ** Sample data *)

Module Sample.

(** What the detail endpoint gives for a dataset of which only the
    download counter is known. *)
Definition info (d : Z) : Sonnet4.Info :=
  {| Sonnet4.i_description := Sonnet4.Null;
     Sonnet4.i_downloads := Sonnet4.Val d;
     Sonnet4.i_likes := Sonnet4.Null;
     Sonnet4.i_created_at := Sonnet4.Val (Sonnet4.Aware 0);
     Sonnet4.i_last_modified := Sonnet4.Val (Sonnet4.Aware 0);
     Sonnet4.i_tags := Sonnet4.Null;
     Sonnet4.i_size_in_bytes := Sonnet4.Null;
     Sonnet4.i_siblings := Sonnet4.Absent |}.

Definition stats (i : string) (d : Z) : Sonnet4.DatasetStats :=
  {| Sonnet4.id := i; Sonnet4.author := "unknown"; Sonnet4.name := i;
     Sonnet4.description := ""; Sonnet4.downloads := d; Sonnet4.likes := 0;
     Sonnet4.created_at := Some (Sonnet4.Aware 0);
     Sonnet4.updated_at := Sonnet4.Aware 0;
     Sonnet4.tags := [];
     Sonnet4.url := "https://huggingface.co/datasets/" +:+ i;
     Sonnet4.size_bytes := None; Sonnet4.file_count := None |}.

Definition a100 : Sonnet4.DatasetStats := stats "a" 100.
Definition b500 : Sonnet4.DatasetStats := stats "b" 500.
Definition c500 : Sonnet4.DatasetStats := stats "c" 500.

(** A hub that lists a and b, in this order, with the given download
    counters. *)
Definition hub_ab (da db : Z) : Sonnet4.Hub :=
  {| Sonnet4.list_datasets := fun _ => Ok (["a"; "b"], None);
     Sonnet4.dataset_info := fun i =>
       if String.eqb i "a" then Ok (info da)
       else if String.eqb i "b" then Ok (info db)
       else Raise (HubError "404") |}.

(** A hub that lists a, b and c, in this order, with 100, 500 and 500
    downloads. *)
Definition hub_abc : Sonnet4.Hub :=
  {| Sonnet4.list_datasets := fun _ => Ok (["a"; "b"; "c"], None);
     Sonnet4.dataset_info := fun i =>
       if String.eqb i "a" then Ok (info 100)
       else if String.eqb i "b" then Ok (info 500)
       else if String.eqb i "c" then Ok (info 500)
       else Raise (HubError "404") |}.

(** A dataset whose creation date the hub does not give. *)
Definition undated (i : string) : Sonnet4.DatasetStats :=
  {| Sonnet4.id := i; Sonnet4.author := "unknown"; Sonnet4.name := i;
     Sonnet4.description := ""; Sonnet4.downloads := 0; Sonnet4.likes := 0;
     Sonnet4.created_at := None; Sonnet4.updated_at := Sonnet4.Aware 0;
     Sonnet4.tags := [];
     Sonnet4.url := "https://huggingface.co/datasets/" +:+ i;
     Sonnet4.size_bytes := None; Sonnet4.file_count := None |}.

(** A dataset as [get_dataset_stats] builds it at time [now] when the
    hub gives no modification date: [datetime.now()] stands in. *)
Definition undated_update (i : string) (now : Z) : Sonnet4.DatasetStats :=
  {| Sonnet4.id := i; Sonnet4.author := "unknown"; Sonnet4.name := i;
     Sonnet4.description := ""; Sonnet4.downloads := 0; Sonnet4.likes := 0;
     Sonnet4.created_at := Some (Sonnet4.Aware 0);
     Sonnet4.updated_at := Sonnet4.Naive now;
     Sonnet4.tags := [];
     Sonnet4.url := "https://huggingface.co/datasets/" +:+ i;
     Sonnet4.size_bytes := None; Sonnet4.file_count := None |}.

(** What the detail endpoint gives for a dataset with the given
    creation and modification dates and nothing else. *)
Definition info_dated (created modified : Sonnet4.Attr Sonnet4.datetime) : Sonnet4.Info :=
  {| Sonnet4.i_description := Sonnet4.Null;
     Sonnet4.i_downloads := Sonnet4.Null;
     Sonnet4.i_likes := Sonnet4.Null;
     Sonnet4.i_created_at := created;
     Sonnet4.i_last_modified := modified;
     Sonnet4.i_tags := Sonnet4.Null;
     Sonnet4.i_size_in_bytes := Sonnet4.Null;
     Sonnet4.i_siblings := Sonnet4.Absent |}.

(** A hub that lists a and u, in this order: a with 100 downloads,
    u as given. *)
Definition hub_au (u : Sonnet4.Info) : Sonnet4.Hub :=
  {| Sonnet4.list_datasets := fun _ => Ok (["a"; "u"], None);
     Sonnet4.dataset_info := fun i =>
       if String.eqb i "a" then Ok (info 100)
       else if String.eqb i "u" then Ok u
       else Raise (HubError "404") |}.

(** A hub that cannot be reached. *)
Definition hub_down : Sonnet4.Hub :=
  {| Sonnet4.list_datasets := fun _ => Raise (HubError "timeout");
     Sonnet4.dataset_info := fun _ => Raise (HubError "timeout") |}.

(** A dataset of which the hub knows the id only. *)
Definition bare (i : string) : Gpt5.Info :=
  {| Gpt5.i_id := i; Gpt5.i_downloads := None; Gpt5.i_likes := None;
     Gpt5.i_lastModified := None; Gpt5.i_cardData := PNone |}.

(** A dataset whose card gives its task categories as a mapping. *)
Definition translation_info : Gpt5.Info :=
  {| Gpt5.i_id := "org/x"; Gpt5.i_downloads := Some 7; Gpt5.i_likes := None;
     Gpt5.i_lastModified := None;
     Gpt5.i_cardData :=
       PDict [("task_categories", PDict [("x", PStr "Translation")])] |}.

(** A dataset with the given language tags. *)
Definition spoken (i : string) (langs : list string) : Gpt5.Info :=
  {| Gpt5.i_id := i; Gpt5.i_downloads := None; Gpt5.i_likes := None;
     Gpt5.i_lastModified := None;
     Gpt5.i_cardData := PDict [("language", PList (PStr <$> langs))] |}.

(** A hub of the gpt5 file that lists the given datasets. *)
Definition hub5 (infos : list Gpt5.Info) : Gpt5.Hub :=
  {| Gpt5.list_datasets := fun _ => (infos, None);
     Gpt5.dataset_info := fun i =>
       match List.find (fun info => String.eqb (Gpt5.i_id info) i) infos with
       | Some info => Ok info
       | None => Raise (HubError "404")
       end;
     Gpt5.trending := fun _ => Ok (PList []) |}.

Definition query_task (t : string) : Gpt5.Query :=
  {| Gpt5.limit := 50; Gpt5.search_text := ""; Gpt5.task := t;
     Gpt5.language := "Any"; Gpt5.require_license := false;
     Gpt5.require_carddata := false |}.

Definition query_language (l : string) : Gpt5.Query :=
  {| Gpt5.limit := 50; Gpt5.search_text := ""; Gpt5.task := "Any";
     Gpt5.language := l; Gpt5.require_license := false;
     Gpt5.require_carddata := false |}.

(** A box with the buttons a and b, the second one selected. *)
Definition box_ab : BB.ButtonBox :=
  match BB.select_clicked 1%nat (BB.init ["a"; "b"] 60 "powderblue") with
  | Ok bb => bb
  | Raise _ => BB.init [] 60 "powderblue"
  end.

Definition ds_b : Qwen3.Info :=
  {| Qwen3.id := "b"; Qwen3.downloads := Some 1;
     Qwen3.downloads_all_time := Some 1; Qwen3.likes := None;
     Qwen3.last_modified := None; Qwen3.created_at := None;
     Qwen3.description := None; Qwen3.tags := None |}.

(** The hub of the qwen3 file, listing the dataset b only. *)
Definition hubq_b : Qwen3.Hub :=
  {| Qwen3.list_datasets := fun _ _ => Ok ([ds_b], None) |}.

(** The widgets of the explorer as they start. *)
Definition uiq0 : Qwen3.UI :=
  {| Qwen3.sort_value := "downloads"; Qwen3.date_filter_value := None;
     Qwen3.limit_value := 50; Qwen3.output := Qwen3.Cleared |}.

(** The widgets of the gpt5 file before any refresh. *)
Definition ui5_0 : Gpt5.UI :=
  {| Gpt5.details := Gpt5.Markup "Select a dataset...";
     Gpt5.status := Gpt5.NoStatus;
     Gpt5._current_records := ∅; Gpt5.info_cache := [] |}.

(** A hub of the gpt5 file whose listing breaks off after the given
    datasets. *)
Definition hub5_broken (infos : list Gpt5.Info) : Gpt5.Hub :=
  {| Gpt5.list_datasets := fun _ => (infos, Some (HubError "timeout"));
     Gpt5.dataset_info := fun _ => Raise (HubError "timeout");
     Gpt5.trending := fun _ => Ok (PDict [("error", PStr "not found")]) |}.

Definition query_limit (n : Z) : Gpt5.Query :=
  {| Gpt5.limit := n; Gpt5.search_text := ""; Gpt5.task := "Any";
     Gpt5.language := "Any"; Gpt5.require_license := false;
     Gpt5.require_carddata := false |}.

(** A hub of the gpt5 file that knows the given datasets and answers
    the trending request with the given payload. *)
Definition hub5_trend (infos : list Gpt5.Info) (data : PyVal) : Gpt5.Hub :=
  {| Gpt5.list_datasets := fun _ => ([], None);
     Gpt5.dataset_info := fun i =>
       match List.find (fun info => String.eqb (Gpt5.i_id info) i) infos with
       | Some info => Ok info
       | None => Raise (HubError "404")
       end;
     Gpt5.trending := fun _ => Ok data |}.

(** The hub of the gpt5 file, out of reach. *)
Definition hub5_down : Gpt5.Hub :=
  {| Gpt5.list_datasets := fun _ => ([], Some (HubError "timeout"));
     Gpt5.dataset_info := fun _ => Raise (HubError "timeout");
     Gpt5.trending := fun _ => Raise (HubError "timeout") |}.

(** The query of the widgets as they start: 50 items, no filter. *)
Definition query0 : Gpt5.Query :=
  {| Gpt5.limit := 50; Gpt5.search_text := ""; Gpt5.task := "Any";
     Gpt5.language := "Any"; Gpt5.require_license := false;
     Gpt5.require_carddata := false |}.

(** A box with three buttons whose last one is selected. *)
Definition box_abc : BB.ButtonBox :=
  match BB.select_clicked 2%nat (BB.init ["a"; "b"; "c"] 60 "powderblue") with
  | Ok bb => bb
  | Raise _ => BB.init [] 60 "powderblue"
  end.


(** A dataset of the qwen3 file with the given id, recent downloads
    and creation date. *)
Definition dsq (i : string) (dl created : option Z) : Qwen3.Info :=
  {| Qwen3.id := i; Qwen3.downloads := dl;
     Qwen3.downloads_all_time := Some 1000; Qwen3.likes := Some 1;
     Qwen3.last_modified := Some 2000000; Qwen3.created_at := created;
     Qwen3.description := None; Qwen3.tags := None |}.

(** A hub of the qwen3 file that lists the given datasets whatever
    the sort key and the limit. *)
Definition hubq (items : list Qwen3.Info) : Qwen3.Hub :=
  {| Qwen3.list_datasets := fun _ _ => Ok (items, None) |}.

(** Three datasets: created lately, created long ago, and without a
    creation date. *)
Definition dsq_new : Qwen3.Info := dsq "new" (Some 7) (Some 1900000).
Definition dsq_old : Qwen3.Info := dsq "old" None (Some 1000).
Definition dsq_undated : Qwen3.Info := dsq "undated" (Some 3) None.

End Sample.

(* ===================================================================== *)
(** * Properties *)
(* ===================================================================== *)

Section ButtonBoxRemove.
Import BB.

Lemma drop_at_length {A} (p : Z) (l : list A) :
  0 <= p < Z.of_nat (length l) -> length (drop_at p l) = pred (length l).
Proof.
  intros Hp. unfold drop_at.
  rewrite length_app, length_take, length_drop. lia.
Qed.

Lemma gpt5_remove_cases pos bb :
  Gpt5.remove pos bb = bb \/
  exists p, 0 <= p < Z.of_nat (length (buttons bb)) /\ Gpt5.remove pos bb = removed p bb.
Proof.
  unfold Gpt5.remove.
  set (p := match pos with None => position bb | Some p => p end).
  destruct (negb (p <? _) || (p <? 0)) eqn:E; [by left|right].
  exists p. split; [|done].
  apply orb_false_iff in E as [E1 E2].
  apply negb_false_iff in E1. lia.
Qed.

Lemma sonnet4_remove_cases pos bb :
  Sonnet4.remove pos bb = bb \/
  exists p, 0 < p < Z.of_nat (length (buttons bb)) /\ Sonnet4.remove pos bb = removed p bb.
Proof.
  unfold Sonnet4.remove.
  set (p := match pos with None => position bb | Some p => _ end).
  destruct ((p =? 0) || negb (p <? _) || (p <? 0)) eqn:E; [by left|right].
  exists p. split; [|done].
  apply orb_false_iff in E as [E E3]. apply orb_false_iff in E as [E1 E2].
  apply negb_false_iff in E2. lia.
Qed.

End ButtonBoxRemove.

Section ButtonBoxRemoveClaim.
Import BB Sample.

Example box_abc_selected :
  button box_abc = Some 2%nat /\ position box_abc = 2 /\
  button_color <$> (store box_abc !! 2%nat) = Some (Some "powderblue").
Proof. vm_compute. done. Qed.

(** An explicit in-range position always removes in the gpt5 file. *)
Lemma gpt5_remove_in_range p bb :
  0 <= p < Z.of_nat (length (buttons bb)) ->
  Gpt5.remove (Some p) bb = removed p bb /\
  length (buttons (Gpt5.remove (Some p) bb)) = pred (length (buttons bb)).
Proof.
  intros Hp. unfold Gpt5.remove.
  destruct (p <? Z.of_nat (length (buttons bb))) eqn:E1; [|lia].
  destruct (p <? 0) eqn:E2; [lia|]. simpl. split; [done|].
  by apply drop_at_length.
Qed.


(** Whenever [remove] takes a button out of the box, in either
    variant of the class, the selection is cleared afterwards: [button]
    is [None] and [position] is [-1], whichever button was selected. *)
Lemma remove_clears_selection (bb bb' : ButtonBox) (pos : option Z) :
  bb' = Gpt5.remove pos bb \/ bb' = Sonnet4.remove pos bb ->
  buttons bb' <> buttons bb ->
  button bb' = None /\ position bb' = -1.
Proof.
  intros Hrm Hchg.
  assert (bb' = bb \/ exists p, bb' = removed p bb) as [->|[p ->]].
  { destruct Hrm as [->| ->].
    - destruct (gpt5_remove_cases pos bb) as [?|(p & _ & ?)]; eauto.
    - destruct (sonnet4_remove_cases pos bb) as [?|(p & _ & ?)]; eauto. }
  - by destruct Hchg.
  - done.
Qed.




End ButtonBoxRemoveClaim.

(** ** [list.sort]: a stable sort, and the only one *)

Section ListSort.
Import Sonnet4.
Context {A : Type} (key : A -> Z).

Local Abbreviation class k := (filter (fun a => key a = k)).
Local Abbreviation ascending := (StronglySorted (fun a b => key a <= key b)).
Local Abbreviation descending := (StronglySorted (fun a b => key b <= key a)).

Lemma filter_rev (P : A -> Prop) `{!forall a, Decision (P a)} (l : list A) :
  filter P (rev l) = rev (filter P l).
Proof.
  induction l as [|a l IH]; [done|]. simpl.
  rewrite filter_app, IH, filter_cons.
  destruct (decide (P a)); simpl.
  - by rewrite filter_cons_True, filter_nil.
  - by rewrite filter_cons_False, filter_nil, app_nil_r.
Qed.

Lemma insert_asc_perm x l : insert_asc key x l ≡ₚ x :: l.
Proof.
  induction l as [|y l IH]; simpl; [done|].
  destruct (key x <=? key y); [done|].
  rewrite IH. apply Permutation_swap.
Qed.

Lemma sort_asc_perm l : sort_asc key l ≡ₚ l.
Proof.
  induction l as [|x l IH]; simpl; [done|].
  unfold sort_asc in *. simpl. by rewrite insert_asc_perm, IH.
Qed.

Lemma insert_asc_class k x l :
  class k (insert_asc key x l) = class k (x :: l).
Proof.
  induction l as [|y l IH]; simpl; [done|].
  destruct (key x <=? key y) eqn:E; [done|].
  apply Z.leb_gt in E.
  rewrite (filter_cons _ y), IH, !(filter_cons _ x), (filter_cons _ y).
  destruct (decide (key y = k)), (decide (key x = k)); try done; lia.
Qed.

Lemma sort_asc_class k l : class k (sort_asc key l) = class k l.
Proof.
  induction l as [|x l IH]; [done|].
  unfold sort_asc in *. simpl.
  by rewrite insert_asc_class, !(filter_cons _ x), IH.
Qed.

Lemma insert_asc_sorted x l : ascending l -> ascending (insert_asc key x l).
Proof.
  induction 1 as [|y l Hl IH Hy]; simpl.
  - repeat constructor.
  - destruct (key x <=? key y) eqn:E.
    + apply Z.leb_le in E. constructor; [by constructor|].
      constructor; [done|].
      eapply Forall_impl; [exact Hy|]. simpl. intros; lia.
    + apply Z.leb_gt in E. constructor; [done|].
      rewrite insert_asc_perm. constructor; [lia|done].
Qed.

Lemma sort_asc_sorted l : ascending (sort_asc key l).
Proof.
  induction l as [|x l IH]; [constructor|].
  unfold sort_asc in *; simpl. by apply insert_asc_sorted.
Qed.

Lemma ascending_rev l : ascending l -> descending (rev l).
Proof.
  induction 1 as [|y l Hl IH Hy]; simpl; [constructor|].
  apply StronglySorted_app_2; [|done|repeat constructor].
  intros a b Ha Hb. apply list_elem_of_singleton in Hb as ->.
  rewrite Forall_forall in Hy. apply Hy.
  apply list_elem_of_In. apply list_elem_of_In in Ha.
  by apply in_rev.
Qed.

(** The sort of the program: a descending rearrangement of its input
    that keeps the items of each key in their order. *)
Lemma list_sort_desc l :
  list_sort key true l ≡ₚ l /\
  descending (list_sort key true l) /\
  forall k, class k (list_sort key true l) = class k l.
Proof.
  unfold list_sort. split; [|split].
  - by rewrite rev_alt, <-rev_alt, <-Permutation_rev, sort_asc_perm, <-Permutation_rev.
  - apply ascending_rev, sort_asc_sorted.
  - intros k. by rewrite filter_rev, sort_asc_class, filter_rev, rev_involutive.
Qed.

(** Two descending lists with the same items of each key, in the same
    order, are one list: stability leaves a sort no choice. *)
Lemma stable_sort_unique l1 l2 :
  descending l1 -> descending l2 ->
  (forall k, class k l1 = class k l2) -> l1 = l2.
Proof.
  intros H1. revert l2.
  induction H1 as [|a l1 Hl1 IH Ha]; intros l2 H2 Hc.
  - destruct l2 as [|b l2]; [done|].
    specialize (Hc (key b)). by rewrite filter_cons_True in Hc.
  - destruct l2 as [|b l2].
    { specialize (Hc (key a)). by rewrite filter_cons_True in Hc. }
    apply StronglySorted_inv in H2 as [H2 Hb].
    rewrite Forall_forall in Ha, Hb.
    assert (key a = key b) as Hab.
    { destruct (decide (key a = key b)) as [|Hne]; [done|exfalso].
      assert (a ∈ l2) as Ha2.
      { assert (a ∈ class (key a) (b :: l2)) as Hin.
        { rewrite <-Hc, filter_cons_True by done. left. }
        apply list_elem_of_filter in Hin as [_ Hin].
        apply elem_of_cons in Hin as [->|]; [done|done]. }
      assert (b ∈ l1) as Hb1.
      { assert (b ∈ class (key b) (a :: l1)) as Hin.
        { rewrite Hc, filter_cons_True by done. left. }
        apply list_elem_of_filter in Hin as [_ Hin].
        apply elem_of_cons in Hin as [->|]; [done|done]. }
      specialize (Ha _ Hb1). specialize (Hb _ Ha2). simpl in *. lia. }
    pose proof (Hc (key a)) as Hk.
    rewrite (filter_cons_True _ a), (filter_cons_True _ b) in Hk by done.
    injection Hk as -> Hk. f_equal. apply IH; [done|].
    intros k. specialize (Hc k). rewrite !(filter_cons _ b) in Hc.
    destruct (decide (key b = k)); [by injection Hc|done].
Qed.

End ListSort.

Section SortOptional.
Import Sonnet4.
Context {A : Type}.

Lemma filter_ext_Forall (P Q : A -> Prop) `{!forall a, Decision (P a)}
    `{!forall a, Decision (Q a)} (l : list A) :
  Forall (fun a => P a <-> Q a) l -> filter P l = filter Q l.
Proof.
  induction 1 as [|a l Ha _ IH]; [done|].
  rewrite !(filter_cons _ a), IH.
  destruct (decide (P a)), (decide (Q a)); tauto.
Qed.

Lemma StronglySorted_lookup (R : relation A) (l : list A) (i j : nat) (a b : A) :
  StronglySorted R l -> (i < j)%nat -> l !! i = Some a -> l !! j = Some b -> R a b.
Proof.
  intros Hs. revert i j.
  induction Hs as [|x l Hl IH Hx]; intros i j Hij Hi Hj; [done|].
  destruct j as [|j]; [lia|]. simpl in Hj.
  destruct i as [|i]; simpl in Hi.
  - injection Hi as ->. rewrite Forall_forall in Hx.
    apply Hx. by eapply list_elem_of_lookup_2.
  - apply (IH i j); [lia|done|done].
Qed.

(** A key that is never [None] sorts as a plain key does. *)
Lemma list_sort_opt_total (f : A -> Z) (reverse : bool) (l : list A) :
  list_sort_opt (fun a => Some (f a)) reverse l = Ok (list_sort f reverse l).
Proof.
  unfold list_sort_opt. cbv beta.
  match goal with
  | |- context [forallb ?g l] => assert (forallb g l = true) as ->
  end.
  { apply forallb_forall. intros a _. apply bool_decide_eq_true. by eexists. }
  by rewrite andb_false_r.
Qed.

Lemma list_sort_opt_spec (key : A -> option Z) (l out : list A) :
  list_sort_opt key true l = Ok out ->
  out ≡ₚ l /\
  (forall k, filter (fun a => key a = k) out = filter (fun a => key a = k) l) /\
  (forall i j a b ka kb, (i < j)%nat -> out !! i = Some a -> out !! j = Some b ->
     key a = Some ka -> key b = Some kb -> kb <= ka).
Proof.
  unfold list_sort_opt.
  destruct (1 <? length l)%nat eqn:Hlen; cbn [andb].
  - destruct (forallb _ l) eqn:Hall; cbn [negb]; [|done].
    intros [= <-].
    set (key' := fun a => default 0 (key a)).
    destruct (list_sort_desc key' l) as (Hp & Hs & Hc).
    assert (Forall (fun a => is_Some (key a)) l) as Hsome.
    { apply Forall_forall. intros a Ha.
      rewrite forallb_forall in Hall.
      apply list_elem_of_In, Hall in Ha. by apply bool_decide_eq_true in Ha. }
    assert (forall k (l' : list A), Forall (fun a => is_Some (key a)) l' ->
              filter (fun a => key a = k) l' =
              match k with
              | Some z => filter (fun a => key' a = z) l'
              | None => []
              end) as Hcls.
    { intros k l' Hl'. destruct k as [z|].
      - apply filter_ext_Forall. eapply Forall_impl; [exact Hl'|].
        intros a [v Hv]. unfold key'. rewrite Hv. simpl. split; congruence.
      - induction Hl' as [|a l' [v Hv] _ IH]; [done|].
        rewrite filter_cons_False; [done|congruence]. }
    split; [done|split].
    + intros k. rewrite !Hcls; [|done|by rewrite Hp].
      destruct k; [apply Hc|done].
    + intros i j a b ka kb Hij Hi Hj Ha Hb.
      pose proof (StronglySorted_lookup _ _ _ _ _ _ Hs Hij Hi Hj) as Hle.
      unfold key' in Hle. rewrite Ha, Hb in Hle. exact Hle.
  - intros [= <-]. apply Nat.ltb_ge in Hlen.
    assert (rev (sort_asc (fun a => default 0 (key a)) (rev l)) = l) as ->.
    { destruct l as [|a [|b l]]; [done|done|simpl in Hlen; lia]. }
    split; [done|split; [done|]].
    intros i j a b ka kb Hij Hi Hj.
    apply lookup_lt_Some in Hj. lia.
Qed.

End SortOptional.

Section ApplyFilters.
Import Sonnet4 Sample.

Lemma since_naive c (l : list DatasetStats) :
  Forall (fun d => is_naive (Some (updated_at d)) = true) l ->
  since c l = Ok (filter (fun d => c <= instant (updated_at d)) l).
Proof.
  induction 1 as [|d l Hd _ IH]; [done|].
  cbn [since]. destruct (updated_at d) as [t|t] eqn:E; [|done].
  cbn [ge_naive mbind result_bind instant]. rewrite IH. cbn [mbind result_bind].
  rewrite filter_cons, E. cbn [instant].
  destruct (decide (c <= t)) as [Hle|Hgt].
  - apply Z.leb_le in Hle. by rewrite Hle.
  - assert ((c <=? t) = false) as Hf by lia. by rewrite Hf.
Qed.

Lemma since_aware c (l : list DatasetStats) :
  Exists (fun d => is_aware (Some (updated_at d)) = true) l ->
  since c l = Raise TypeError.
Proof.
  induction l as [|d l IH]; intros H; [by apply Exists_nil in H|].
  cbn [since]. destruct (updated_at d) as [t|t] eqn:E; [|done].
  apply Exists_cons in H as [H|H]; [by rewrite E in H|].
  cbn [ge_naive mbind result_bind]. by rewrite IH.
Qed.

Lemma since_raises c (l : list DatasetStats) e : since c l = Raise e -> e = TypeError.
Proof.
  induction l as [|d l IH]; [done|].
  cbn [since]. destruct (updated_at d) as [t|t]; [|by intros [= <-]].
  cbn [ge_naive mbind result_bind].
  destruct (since c l) as [kept|e']; [done|].
  cbn [mbind result_bind]. intros [= <-]. by apply IH.
Qed.

Lemma since_inv c (l out : list DatasetStats) :
  since c l = Ok out ->
  Forall (fun d => is_naive (Some (updated_at d)) = true) l.
Proof.
  revert out. induction l as [|d l IH]; intros out; [by constructor|].
  cbn [since]. destruct (updated_at d) as [t|t] eqn:E; [|done].
  cbn [ge_naive mbind result_bind].
  destruct (since c l) as [kept|e] eqn:Hs; [|done].
  intros _. constructor; [by rewrite E|by eapply IH].
Qed.

Lemma time_filter_subseteq now tp (datasets l : list DatasetStats) :
  time_filter now tp datasets = Ok l -> l ⊆ datasets.
Proof.
  unfold time_filter. destruct (negb _); [|by intros [= <-]].
  intros H. pose proof (since_inv _ _ _ H) as Hn.
  rewrite (since_naive _ _ Hn) in H. injection H as <-.
  intros d Hd. by apply list_elem_of_filter in Hd as [_ ?].
Qed.

Lemma list_sort_opt_ok {A} (key : A -> option Z) (reverse : bool) (l : list A) :
  Forall (fun a => is_Some (key a)) l -> is_ok (list_sort_opt key reverse l) = true.
Proof.
  intros Hl. unfold list_sort_opt.
  assert (forallb (fun a => bool_decide (is_Some (key a))) l = true) as ->.
  { apply forallb_forall. intros a Ha. apply bool_decide_eq_true.
    rewrite Forall_forall in Hl. by apply Hl, list_elem_of_In. }
  by rewrite andb_false_r.
Qed.

(** Where the sort over dates returns, it is the sort by the number of
    the date. *)
Lemma list_sort_date_inv {A} (key : A -> option datetime) (reverse : bool) (l out : list A) :
  list_sort_date key reverse l = Ok out ->
  list_sort_opt (fun a => instant <$> key a) reverse l = Ok out.
Proof. unfold list_sort_date. by destruct (_ && _ && _). Qed.

(** Where [_apply_filters] returns, the time filter has returned, and
    the result is what [list_sort_opt] makes of the items it kept, under
    the key of [sort_by]. *)
Lemma apply_filters_sort now datasets tp sort_by key out :
  sort_key sort_by = Some key ->
  _apply_filters now datasets tp sort_by = Ok out ->
  exists l, time_filter now tp datasets = Ok l /\ list_sort_opt key true l = Ok out.
Proof.
  unfold sort_key, _apply_filters.
  destruct (time_filter now tp datasets) as [l|e]; [|by intros _ ?].
  cbn [mbind result_bind]. intros Hkey Hout. exists l. split; [done|].
  destruct (String.eqb sort_by "downloads");
    [injection Hkey as <-; by rewrite list_sort_opt_total|].
  destruct (String.eqb sort_by "likes");
    [injection Hkey as <-; by rewrite list_sort_opt_total|].
  destruct (String.eqb sort_by "updated");
    [injection Hkey as <-; by apply list_sort_date_inv in Hout|].
  destruct (String.eqb sort_by "created"); [|done].
  injection Hkey as <-. by apply list_sort_date_inv in Hout.
Qed.

(** The result of [_apply_filters] is a rearrangement of what the
    time filter kept, whatever [sort_by] is. *)
Lemma apply_filters_perm now datasets tp sb out :
  _apply_filters now datasets tp sb = Ok out ->
  exists l, time_filter now tp datasets = Ok l /\ out ≡ₚ l.
Proof.
  intros H. destruct (sort_key sb) as [key|] eqn:Hk.
  - destruct (apply_filters_sort _ _ _ _ _ _ Hk H) as (l & Hl & Hs).
    exists l. split; [done|]. by apply list_sort_opt_spec in Hs as [? _].
  - revert H Hk. unfold _apply_filters, sort_key.
    destruct (time_filter now tp datasets) as [l|e]; [|done].
    cbn [mbind result_bind].
    destruct (String.eqb sb "downloads"); [done|].
    destruct (String.eqb sb "likes"); [done|].
    destruct (String.eqb sb "updated"); [done|].
    destruct (String.eqb sb "created"); [done|].
    intros [= <-] _. by exists l.
Qed.

(** For each of the four sort keys, the list [_apply_filters] returns
    is a rearrangement of the items that passed the time filter, in
    descending order of the key, in which the items of equal key keep the
    order they had in the input. *)
Lemma apply_filters_stable (now : Z) (datasets out : list DatasetStats)
    (time_period sort_by : string) (key : DatasetStats -> option Z) :
  sort_key sort_by = Some key ->
  _apply_filters now datasets time_period sort_by = Ok out ->
  exists l, time_filter now time_period datasets = Ok l /\
    out ≡ₚ l /\
    (forall k, filter (fun d => key d = k) out = filter (fun d => key d = k) l) /\
    (forall i j a b ka kb, (i < j)%nat -> out !! i = Some a -> out !! j = Some b ->
       key a = Some ka -> key b = Some kb -> kb <= ka).
Proof.
  intros Hkey Hout.
  destruct (apply_filters_sort _ _ _ _ _ _ Hkey Hout) as (l & Hl & Hs).
  exists l. split; [done|]. by apply list_sort_opt_spec.
Qed.

(** Downloads a:100, b:500, c:500 come out as b, c, a: the tie between
    b and c keeps the input order, and the first two are b and c. *)
Example apply_filters_stable_example :
  _apply_filters 0 [a100; b500; c500] "all" "downloads" = Ok [b500; c500; a100] /\
  slice_to 2 [b500; c500; a100] = [b500; c500].
Proof. split; [vm_compute; reflexivity|reflexivity]. Qed.


End ApplyFilters.

(** ** Truncation and sorting in [get_popular_datasets] *)

Section PopularLimit.
Import Sonnet4 Sample.

(** The loop never holds more than [limit] items, so the sort that
    follows sees at most [limit] of the listed datasets. *)
Lemma stats_loop_length hub now limit ids tail acc m out m' :
  0 <= limit ->
  Z.of_nat (length acc) <= limit ->
  stats_loop hub now limit ids tail acc m = (Ok out, m') ->
  Z.of_nat (length out) <= limit.
Proof.
  intros Hlim. revert acc m.
  induction ids as [|i ids IH]; intros acc m Hacc; simpl.
  - destruct tail; [done|]. by intros [= <- _].
  - destruct (limit <=? Z.of_nat (length acc)) eqn:E.
    + by intros [= <- _].
    + apply Z.leb_gt in E.
      destruct (get_dataset_stats hub now i m) as [[s|] m1]; apply IH; [|done].
      rewrite length_app. simpl. lia.
Qed.

(** C1, at its failing input: the hub lists a (100 downloads) before
    b (500 downloads), and the query asks for the single most downloaded
    dataset. The loop stops after a, before anything is sorted, and the
    answer is a; sorting the two and truncating afterwards gives b. *)
Theorem popular_truncates_before_sorting :
  (get_popular_datasets (hub_ab 100 500) 0 "all" 1 "downloads" init).1 = [a100] /\
  slice_to 1 <$> _apply_filters 0 [a100; b500] "all" "downloads" = Ok [b500].
Proof. split; vm_compute; reflexivity. Qed.

(** The same defect on the example of the stable sort: with [limit = 2]
    the loop stops after a and b, and c never reaches the sort. *)
Example popular_misses_the_tie :
  (get_popular_datasets hub_abc 0 "all" 2 "downloads" init).1 = [b500; a100] /\
  slice_to 2 <$> _apply_filters 0 [a100; b500; c500] "all" "downloads" = Ok [b500; c500].
Proof. split; vm_compute; reflexivity. Qed.

End PopularLimit.

(** ** The two caches of [DatasetManager] *)

Section ManagerCaches.
Import Sonnet4 Sample.

Lemma frame_refl m : frame m m.
Proof. by repeat split. Qed.

Lemma frame_trans m1 m2 m3 : frame m1 m2 -> frame m2 m3 -> frame m1 m3.
Proof.
  intros (?&?&?) (?&?&?). repeat split; [congruence|congruence|].
  by etrans.
Qed.

Lemma fetch_stats_frame hub now i m : frame m (fetch_stats hub now i m).2.
Proof.
  unfold fetch_stats.
  destruct (dataset_info hub i ≫= make_stats now i); simpl;
    repeat split; by apply prefix_app_r.
Qed.

Lemma get_dataset_stats_body_frame hub now i m :
  frame m (get_dataset_stats_body hub now i m).2.
Proof.
  unfold get_dataset_stats_body.
  destruct (_stats_cache m !! i) as [[t s]|]; [|apply fetch_stats_frame].
  destruct (now - t <? cache_timeout m); [apply frame_refl|apply fetch_stats_frame].
Qed.

Lemma get_dataset_stats_frame hub now i m :
  frame m (get_dataset_stats hub now i m).2.
Proof.
  unfold get_dataset_stats.
  destruct (LRU.find i (stats_memo m)); [by repeat split|].
  pose proof (get_dataset_stats_body_frame hub now i m) as H.
  destruct (get_dataset_stats_body hub now i m) as [r m']. exact H.
Qed.

Lemma stats_loop_frame hub now limit ids tail acc m :
  frame m (stats_loop hub now limit ids tail acc m).2.
Proof.
  revert acc m. induction ids as [|i ids IH]; intros acc m; simpl.
  - apply frame_refl.
  - destruct (limit <=? Z.of_nat (length acc)); [apply frame_refl|].
    pose proof (get_dataset_stats_frame hub now i m) as H.
    destruct (get_dataset_stats hub now i m) as [s m1].
    eapply frame_trans; [exact H|apply IH].
Qed.

(** A memo hit of [lru_cache]. *)
Lemma lru_find_add {V} (n : nat) (k : string) (v : V) (c : LRU.t V) :
  LRU.find k (LRU.add (S n) k v c) = Some v.
Proof. unfold LRU.add. simpl. by rewrite String.eqb_refl. Qed.

Lemma get_dataset_stats_hit hub now i m r :
  LRU.find i (stats_memo m) = Some r ->
  get_dataset_stats hub now i m =
  (r, set_stats_memo (LRU.touch i r (stats_memo m)) m).
Proof. intros H. unfold get_dataset_stats. by rewrite H. Qed.

Lemma get_dataset_stats_remembers hub now i m :
  LRU.find i (stats_memo (get_dataset_stats hub now i m).2) =
  Some (get_dataset_stats hub now i m).1.
Proof.
  unfold get_dataset_stats.
  destruct (LRU.find i (stats_memo m)) as [r|]; simpl.
  - by rewrite String.eqb_refl.
  - destruct (get_dataset_stats_body hub now i m) as [r m1]. simpl.
    by rewrite String.eqb_refl.
Qed.

(** Once [get_dataset_stats] has answered for an id, it answers the
    same from the memo table, whatever the clock and the hub say, and
    sends no request. *)
Lemma get_dataset_stats_memoized hub1 hub2 t1 t2 i m :
  let first := get_dataset_stats hub1 t1 i m in
  let second := get_dataset_stats hub2 t2 i first.2 in
  second.1 = first.1 /\ calls second.2 = calls first.2.
Proof.
  intros first second. subst second.
  by rewrite (get_dataset_stats_hit _ _ _ _ _ (get_dataset_stats_remembers hub1 t1 i m)).
Qed.

Lemma fetch_popular_spec hub now tp limit sb m :
  let r := fetch_popular hub now tp limit sb m in
  cache_timeout r.2 = cache_timeout m /\
  (exists rest, calls r.2 = calls m ++ CallList (Some (limit * 3)) :: rest) /\
  match r.1 with
  | Ok data => cache r.2 = <[cache_key tp limit sb := (now, data)]> (cache m)
  | Raise _ => cache r.2 = cache m
  end.
Proof.
  unfold fetch_popular.
  set (m1 := log (CallList (Some (limit * 3))) m).
  assert (frame m1 m1 /\ frame m1 (log (CallList None) m1)) as [F1 F2].
  { split; [apply frame_refl|]. repeat split. by apply prefix_app_r. }
  assert (forall m2 (r : result (list DatasetStats) * Manager),
            frame m1 m2 -> frame m2 r.2 ->
            cache_timeout r.2 = cache_timeout m /\
            (exists rest, calls r.2 = calls m ++ CallList (Some (limit * 3)) :: rest) /\
            cache r.2 = cache m) as Hframe.
  { intros m2 r Fa Fb.
    destruct (frame_trans _ _ _ Fa Fb) as (Hc & Ht & [k Hk]).
    repeat split; [done| |done].
    exists k. rewrite Hk. subst m1. simpl. by rewrite <-app_assoc. }
  destruct (list_datasets hub (Some (limit * 3))) as [g|e1].
  - destruct g as [ids tail].
    pose proof (stats_loop_frame hub now limit ids tail [] m1) as F3.
    destruct (stats_loop hub now limit ids tail [] m1) as [[ds|e] m3]; simpl in *.
    + destruct (_apply_filters now ds tp sb) as [fs|e]; simpl.
      * destruct (Hframe m1 (Ok ds, m3) F1 F3) as (?&?&?).
        simpl in *. repeat split; [done|done|by f_equal].
      * apply (Hframe m1 (Raise e, m3) F1 F3).
    + apply (Hframe m1 (Raise e, m3) F1 F3).
  - destruct (list_datasets hub None) as [g|e2].
    + destruct g as [ids tail].
      pose proof (stats_loop_frame hub now limit ids tail [] (log (CallList None) m1)) as F3.
      destruct (stats_loop hub now limit ids tail [] (log (CallList None) m1))
        as [[ds|e] m3]; simpl in *.
      * destruct (_apply_filters now ds tp sb) as [fs|e]; simpl.
        -- destruct (Hframe _ (Ok ds, m3) F2 F3) as (?&?&?).
           simpl in *. repeat split; [done|done|by f_equal].
        -- apply (Hframe _ (Raise e, m3) F2 F3).
      * apply (Hframe _ (Raise e, m3) F2 F3).
    + apply (Hframe _ (Raise e2, log (CallList None) m1) F2 (frame_refl _)).
Qed.

(** X16: the query cache of [get_popular_datasets] does keep its
    time-to-live: a list fetched at [t1] is served without a request
    while [t2 - t1 < cache_timeout], and fetched again, and stored
    again, from then on. *)
Lemma popular_cache_ttl hub t1 tp limit sb m data m1 :
  cached t1 (cache_key tp limit sb) m = None ->
  fetch_popular hub t1 tp limit sb m = (Ok data, m1) ->
  get_popular_datasets hub t1 tp limit sb m = (data, m1) /\
  (forall hub' t2, t2 - t1 < cache_timeout m ->
     get_popular_datasets hub' t2 tp limit sb m1 = (data, m1)) /\
  (forall hub' t3, cache_timeout m <= t3 - t1 ->
     let again := get_popular_datasets hub' t3 tp limit sb m1 in
     (exists rest, calls again.2 = calls m1 ++ CallList (Some (limit * 3)) :: rest) /\
     (forall data', (fetch_popular hub' t3 tp limit sb m1).1 = Ok data' ->
        again.1 = data' /\
        cache again.2 !! cache_key tp limit sb = Some (t3, data'))).
Proof.
  intros Hmiss Hfetch.
  pose proof (fetch_popular_spec hub t1 tp limit sb m) as (Ht & _ & Hc).
  rewrite Hfetch in Ht, Hc. simpl in Ht, Hc.
  assert (cache m1 !! cache_key tp limit sb = Some (t1, data)) as Hstored.
  { rewrite Hc. apply lookup_insert_eq. }
  split; [|split].
  - unfold get_popular_datasets. by rewrite Hmiss, Hfetch.
  - intros hub' t2 Hin. unfold get_popular_datasets, cached.
    rewrite Hstored, Ht.
    destruct (t2 - t1 <? cache_timeout m) eqn:E; [done|]. apply Z.ltb_ge in E. lia.
  - intros hub' t3 Hout again. subst again.
    unfold get_popular_datasets, cached. rewrite Hstored, Ht.
    destruct (t3 - t1 <? cache_timeout m) eqn:E; [apply Z.ltb_lt in E; lia|].
    pose proof (fetch_popular_spec hub' t3 tp limit sb m1) as (_ & Hcalls & Hc').
    destruct (fetch_popular hub' t3 tp limit sb m1) as [[d|e] m3]; simpl in *.
    + split; [done|]. intros data' [= <-]. split; [done|].
      rewrite Hc'. apply lookup_insert_eq.
    + split; [done|]. by intros data' ?.
Qed.

(** C2, at its failing input: the stats of a are asked for at time 0
    and again at time 4000, past the 3600 s of [cache_timeout], when
    the hub reports 999 downloads. The second answer is the first one,
    and the detail endpoint was called once; the body of the method,
    without the decorator, would have called it again. *)
Theorem stats_not_refreshed_after_ttl :
  let first := get_dataset_stats (hub_ab 100 500) 0 "a" init in
  let second := get_dataset_stats (hub_ab 999 500) 4000 "a" first.2 in
  first.1 = Some a100 /\
  second.1 = Some a100 /\
  calls second.2 = [CallInfo "a"] /\
  (get_dataset_stats_body (hub_ab 999 500) 4000 "a" first.2).1 = Some (stats "a" 999).
Proof. vm_compute. repeat split; reflexivity. Qed.

End ManagerCaches.

(** ** Failures of the hub *)

Section FetchFailures.
Import Sample.

(** C6, as stated, does not hold: a failure of the trending request is
    not handed to the caller. *)
Lemma fetch_failure_not_reported :
  ~ (forall hub period q c e,
       Gpt5.trending hub period = Raise e ->
       (Gpt5.list_trending hub period q c).1 = Raise e).
Proof.
  intros H.
  specialize (H hub5_down "week" query0 [] (HubError "timeout") eq_refl).
  vm_compute in H. discriminate H.
Qed.

(** C6, amended: when the trending request fails (transport, status
    or decoding), [list_trending] returns the empty list; when both
    listing calls of [get_popular_datasets] fail and no fresh entry is
    cached, it returns the empty list and stores nothing. In neither
    case does the caller see the cause. *)
Theorem fetch_failure_gives_empty_list
    (hub5 : Gpt5.Hub) (period : string) (q : Gpt5.Query) (c : LRU.t Gpt5.Info)
    (hub4 : Sonnet4.Hub) (now : Z) (time_period sort_by : string) (limit : Z)
    (m : Sonnet4.Manager) (e e1 e2 : Exn) :
  Gpt5.trending hub5 period = Raise e ->
  Sonnet4.list_datasets hub4 (Some (limit * 3)) = Raise e1 ->
  Sonnet4.list_datasets hub4 None = Raise e2 ->
  Sonnet4.cached now (Sonnet4.cache_key time_period limit sort_by) m = None ->
  Gpt5.list_trending hub5 period q c = (Ok [], c) /\
  (Sonnet4.get_popular_datasets hub4 now time_period limit sort_by m).1 = [] /\
  Sonnet4.cache (Sonnet4.get_popular_datasets hub4 now time_period limit sort_by m).2
  = Sonnet4.cache m.
Proof.
  intros Ht Hl1 Hl2 Hmiss. split.
  - unfold Gpt5.list_trending. by rewrite Ht.
  - unfold Sonnet4.get_popular_datasets, Sonnet4.fetch_popular.
    by rewrite Hmiss, Hl1, Hl2.
Qed.

Lemma fetch_failure_gives_empty_list_witness :
  Gpt5.list_trending hub5_down "week" query0 [] = (Ok [], []) /\
  (Sonnet4.get_popular_datasets hub_down 0 "all" 50 "downloads" Sonnet4.init).1 = [] /\
  Sonnet4.cache (Sonnet4.get_popular_datasets hub_down 0 "all" 50 "downloads" Sonnet4.init).2
  = Sonnet4.cache Sonnet4.init.
Proof.
  apply (fetch_failure_gives_empty_list hub5_down "week" query0 [] hub_down 0
           "all" "downloads" 50 Sonnet4.init
           (HubError "timeout") (HubError "timeout") (HubError "timeout"));
    reflexivity.
Defined.

(** An id whose detail lookup fails is left out of the trending list
    without a trace. *)
Lemma trending_loop_skips hub q rid rest records c e c' :
  Gpt5.cached_dataset_info hub rid c = (Raise e, c') ->
  Gpt5.trending_loop hub q (rid :: rest) records c =
  Gpt5.trending_loop hub q rest records c'.
Proof. intros H. simpl. by rewrite H. Qed.

(** A failure of the listing ends [list_all_time] with the exception:
    this path does hand the cause to its caller. *)
Lemma list_all_time_raises hub q backend_limit e :
  Gpt5.list_datasets hub backend_limit = ([], Some e) ->
  Gpt5.list_all_time hub q backend_limit = Raise e.
Proof. intros H. unfold Gpt5.list_all_time. by rewrite H. Qed.

End FetchFailures.

(** ** The popularity counters *)

Section Counters.
Import Sonnet4.

Lemma lru_find_elem {V} (k : string) (v : V) (c : LRU.t V) :
  LRU.find k c = Some v -> (k, v) ∈ c.
Proof.
  induction c as [|[k' v'] c IH]; simpl; [done|].
  destruct (String.eqb k k') eqn:E.
  - apply String.eqb_eq in E as ->. intros [= ->]. left.
  - intros H. right. by apply IH.
Qed.

Lemma lru_forget_subseteq {V} (k : string) (c : LRU.t V) : LRU.forget k c ⊆ c.
Proof.
  induction c as [|[k' v'] c IH]; simpl; [done|].
  destruct (String.eqb k k').
  - intros x Hx. right. by apply IH.
  - intros x Hx. apply elem_of_cons in Hx as [->|Hx]; [left|right; by apply IH].
Qed.

Lemma lru_touch_elem {V} (k : string) (v : V) (c : LRU.t V) (x : string * V) :
  x ∈ LRU.touch k v c -> x = (k, v) \/ x ∈ c.
Proof.
  unfold LRU.touch. intros Hx.
  apply elem_of_cons in Hx as [->|Hx]; [by left|right].
  by apply (lru_forget_subseteq k).
Qed.

Lemma lru_add_elem {V} (n : nat) (k : string) (v : V) (c : LRU.t V) (x : string * V) :
  x ∈ LRU.add n k v c -> x = (k, v) \/ x ∈ c.
Proof.
  unfold LRU.add. intros Hx. apply (lru_touch_elem k v c).
  by apply (subseteq_take n).
Qed.

(** The counters of [make_stats] are the raw ones, and 0 where the hub
    gave none. *)
Lemma make_stats_counters now i info s :
  make_stats now i info = Ok s ->
  downloads s = match i_downloads info with Val z => z | _ => 0 end /\
  likes s = match i_likes info with Val z => z | _ => 0 end.
Proof.
  unfold make_stats. destruct (i_siblings info); simpl; [|done|];
    intros [= <-]; simpl; split.
  all: match goal with
       | |- attr_or _ _ ?a = _ => destruct a as [| |z]; simpl; [done|done|]
       end.
  all: by destruct z.
Qed.

Lemma make_stats_nonneg now i info s :
  raw_nonneg info -> make_stats now i info = Ok s -> nonneg s.
Proof.
  intros [Hd Hl] Hs. apply make_stats_counters in Hs as [Ed El].
  unfold nonneg. rewrite Ed, El.
  split; [destruct (i_downloads info)|destruct (i_likes info)]; done || lia.
Qed.

Section Invariant.
Context (P : DatasetStats -> Prop) (hub : Hub).
Hypothesis hub_P : forall now i info s,
  dataset_info hub i = Ok info -> make_stats now i info = Ok s -> P s.

Lemma fetch_stats_stored now i m :
  stored P m ->
  stored P (fetch_stats hub now i m).2 /\
  (forall s, (fetch_stats hub now i m).1 = Some s -> P s).
Proof.
  intros (Hc & Hs & Hm). unfold fetch_stats.
  destruct (dataset_info hub i) as [info|e] eqn:Hi; simpl; [|by repeat split].
  destruct (make_stats now i info) as [s|e] eqn:Hmk; simpl; [|by repeat split].
  pose proof (hub_P _ _ _ _ Hi Hmk) as HP.
  split; [|by intros ? [= <-]].
  split; [done|split; [|done]]. simpl.
  intros k t s' Hk. destruct (decide (i = k)) as [->|Hne].
  - rewrite lookup_insert_eq in Hk. by injection Hk as _ <-.
  - rewrite lookup_insert_ne in Hk by done. by eapply Hs.
Qed.

Lemma get_dataset_stats_body_stored now i m :
  stored P m ->
  stored P (get_dataset_stats_body hub now i m).2 /\
  (forall s, (get_dataset_stats_body hub now i m).1 = Some s -> P s).
Proof.
  intros Hst. unfold get_dataset_stats_body.
  destruct (_stats_cache m !! i) as [[t s]|] eqn:Hi; [|by apply fetch_stats_stored].
  destruct (now - t <? cache_timeout m); [|by apply fetch_stats_stored].
  split; [done|]. intros s' [= <-]. destruct Hst as (_ & Hs & _). by eapply Hs.
Qed.

Lemma get_dataset_stats_stored now i m :
  stored P m ->
  stored P (get_dataset_stats hub now i m).2 /\
  (forall s, (get_dataset_stats hub now i m).1 = Some s -> P s).
Proof.
  intros Hst. unfold get_dataset_stats.
  destruct (LRU.find i (stats_memo m)) as [r|] eqn:Hf; simpl.
  - destruct Hst as (Hc & Hs & Hm). apply lru_find_elem in Hf.
    split; [|intros s; simpl; intros ->; by eapply Hm].
    split; [done|split; [done|]]. simpl. intros k s Hk.
    apply lru_touch_elem in Hk as [[= -> <-]|Hk]; by eapply Hm.
  - pose proof (get_dataset_stats_body_stored now i m Hst) as [Hst' Hr].
    destruct (get_dataset_stats_body hub now i m) as [r m1]. simpl in *.
    split; [|done]. destruct Hst' as (Hc & Hs & Hm).
    split; [done|split; [done|]]. simpl. intros k s Hk.
    apply lru_add_elem in Hk as [[= -> <-]|Hk]; [by apply Hr|by eapply Hm].
Qed.

Lemma stats_loop_stored now limit ids tail acc m :
  stored P m -> Forall P acc ->
  stored P (stats_loop hub now limit ids tail acc m).2 /\
  (forall out, (stats_loop hub now limit ids tail acc m).1 = Ok out -> Forall P out).
Proof.
  revert acc m. induction ids as [|i ids IH]; intros acc m Hst Hacc; simpl.
  - split; [done|]. destruct tail; [done|]. by intros ? [= <-].
  - destruct (limit <=? Z.of_nat (length acc)); [split; [done|by intros ? [= <-]]|].
    pose proof (get_dataset_stats_stored now i m Hst) as [Hst' Hr].
    destruct (get_dataset_stats hub now i m) as [[s|] m1]; simpl in *.
    + apply IH; [done|]. apply Forall_app. split; [done|]. by repeat constructor; apply Hr.
    + by apply IH.
Qed.

(** Filtering, sorting and truncating return items of their input. *)
Lemma apply_filters_subseteq now datasets tp sb out :
  _apply_filters now datasets tp sb = Ok out -> out ⊆ datasets.
Proof.
  intros H. apply apply_filters_perm in H as (l & Hl & Hp).
  intros d Hd. rewrite Hp in Hd. by eapply time_filter_subseteq.
Qed.

Lemma slice_to_subseteq {A} (n : Z) (l : list A) : slice_to n l ⊆ l.
Proof. unfold slice_to. destruct (n <? 0); apply subseteq_take. Qed.

Lemma fetch_popular_stored now tp limit sb m :
  stored P m ->
  stored P (fetch_popular hub now tp limit sb m).2 /\
  (forall out, (fetch_popular hub now tp limit sb m).1 = Ok out -> Forall P out).
Proof.
  intros Hst. unfold fetch_popular.
  set (m1 := log (CallList (Some (limit * 3))) m).
  assert (forall g m2, stored P m2 ->
    let r := (let '(ids, tail) := g : Gen string in
              match stats_loop hub now limit ids tail [] m2 with
              | (Raise e, m3) => (Raise e, m3)
              | (Ok dataset_stats, m3) =>
                  match _apply_filters now dataset_stats tp sb with
                  | Raise e => (Raise e, m3)
                  | Ok filtered_stats =>
                      let data := slice_to limit filtered_stats in
                      (Ok data,
                       set_cache (<[cache_key tp limit sb := (now, data)]> (cache m3)) m3)
                  end
              end) in
    stored P r.2 /\ (forall out, r.1 = Ok out -> Forall P out)) as Hgen.
  { intros [ids tail] m2 Hst2.
    pose proof (stats_loop_stored now limit ids tail [] m2 Hst2 (Forall_nil_2 _)) as [Hst3 Hout].
    destruct (stats_loop hub now limit ids tail [] m2) as [[ds|e] m3]; simpl in *; [|done].
    destruct (_apply_filters now ds tp sb) as [fs|e] eqn:Hf; simpl; [|done].
    assert (Forall P (slice_to limit fs)) as Hdata.
    { specialize (Hout ds eq_refl). rewrite Forall_forall in *.
      intros d Hd. apply Hout. eapply apply_filters_subseteq; [exact Hf|].
      by eapply slice_to_subseteq. }
    split; [|by intros ? [= <-]].
    destruct Hst3 as (Hc & Hs & Hm). split; [|done]. simpl.
    intros k t data Hk. destruct (decide (cache_key tp limit sb = k)) as [<-|Hne].
    - rewrite lookup_insert_eq in Hk. by injection Hk as _ <-.
    - rewrite lookup_insert_ne in Hk by done. by eapply Hc. }
  destruct (list_datasets hub (Some (limit * 3))) as [g|e1].
  - by apply (Hgen g m1).
  - destruct (list_datasets hub None) as [g|e2]; [|done].
    by apply (Hgen g (log (CallList None) m1)).
Qed.

Lemma get_popular_datasets_stored now tp limit sb m :
  stored P m ->
  Forall P (get_popular_datasets hub now tp limit sb m).1 /\
  stored P (get_popular_datasets hub now tp limit sb m).2.
Proof.
  intros Hst. unfold get_popular_datasets, cached.
  pose proof (fetch_popular_stored now tp limit sb m Hst) as [Hst' Hout].
  assert (Forall P (match fetch_popular hub now tp limit sb m with
                    | (Ok data, m') => (data, m') | (Raise _, m') => ([], m') end).1 /\
          stored P (match fetch_popular hub now tp limit sb m with
                    | (Ok data, m') => (data, m') | (Raise _, m') => ([], m') end).2)
    as Hfetch.
  { destruct (fetch_popular hub now tp limit sb m) as [[d|e] m']; simpl in *;
      [by split; [apply Hout|]|by split]. }
  destruct (cache m !! cache_key tp limit sb) as [[t data]|] eqn:Hk; [|done].
  destruct (now - t <? cache_timeout m); [|done].
  split; [|done]. destruct Hst as (Hc & _). by eapply Hc.
Qed.

End Invariant.

End Counters.

Section CountersClaim.
Import Sample.

Lemma build_dataset_record_counters info rec :
  Gpt5.build_dataset_record info = Ok rec ->
  Gpt5.r_downloads rec = Gpt5.i_downloads info /\
  Gpt5.r_likes rec = Gpt5.i_likes info.
Proof.
  unfold Gpt5.build_dataset_record.
  destruct (Gpt5.extract_tasks _); simpl; [|done].
  destruct (Gpt5.extract_languages _); simpl; [|done].
  destruct (Py.get _ _); simpl; [|done].
  by intros [= <-].
Qed.

(** C9, as stated, does not hold: a negative counter of the hub stays
    negative in [get_dataset_stats], and an unknown counter stays [None]
    in [build_dataset_record] instead of becoming 0. *)
Lemma counters_not_normalized :
  ~ (forall now i info s,
       Sonnet4.make_stats now i info = Ok s -> 0 <= Sonnet4.downloads s) /\
  ~ (forall info rec,
       Gpt5.build_dataset_record info = Ok rec ->
       Gpt5.i_downloads info = None -> Gpt5.r_downloads rec = Some 0).
Proof.
  split; intros H.
  - specialize (H 0 "a" (Sample.info (-5)) (stats "a" (-5)) eq_refl).
    vm_compute in H. by apply H.
  - destruct (Gpt5.build_dataset_record (bare "a")) as [rec|] eqn:E; [|by vm_compute in E].
    specialize (H (bare "a") rec E eq_refl).
    apply build_dataset_record_counters in E as [E _].
    rewrite H in E. discriminate E.
Qed.

(** C9, amended: the normalized counters are the raw ones. In
    [get_dataset_stats] a counter that is missing, [None] or 0 becomes 0
    and any other value is kept; in [build_dataset_record] the counter is
    kept, and an unknown one stays [None]. When the counters the hub
    reports are non-negative and those a manager has stored are, so are
    those of every list [get_popular_datasets] returns and of everything
    it stores. *)
Theorem counters_follow_raw :
  (forall now i info s,
     Sonnet4.make_stats now i info = Ok s ->
     Sonnet4.downloads s =
       match Sonnet4.i_downloads info with Sonnet4.Val z => z | _ => 0 end /\
     Sonnet4.likes s =
       match Sonnet4.i_likes info with Sonnet4.Val z => z | _ => 0 end) /\
  (forall info rec,
     Gpt5.build_dataset_record info = Ok rec ->
     Gpt5.r_downloads rec = Gpt5.i_downloads info /\
     Gpt5.r_likes rec = Gpt5.i_likes info) /\
  (forall hub now time_period limit sort_by m,
     (forall i info, Sonnet4.dataset_info hub i = Ok info -> Sonnet4.raw_nonneg info) ->
     Sonnet4.stored Sonnet4.nonneg m ->
     Forall Sonnet4.nonneg
       (Sonnet4.get_popular_datasets hub now time_period limit sort_by m).1 /\
     Sonnet4.stored Sonnet4.nonneg
       (Sonnet4.get_popular_datasets hub now time_period limit sort_by m).2).
Proof.
  split; [exact make_stats_counters|].
  split; [exact build_dataset_record_counters|].
  intros hub now tp limit sb m Hhub Hst.
  apply get_popular_datasets_stored; [|done].
  intros now' i info s Hi Hs. eapply make_stats_nonneg; [|exact Hs]. by eapply Hhub.
Qed.

Lemma counters_follow_raw_witness :
  Forall Sonnet4.nonneg
    (Sonnet4.get_popular_datasets (hub_ab 100 500) 0 "all" 2 "downloads" Sonnet4.init).1.
Proof.
  destruct counters_follow_raw as (_ & _ & H).
  apply (H (hub_ab 100 500) 0 "all" 2 "downloads" Sonnet4.init).
  - intros i info. unfold hub_ab. simpl.
    destruct (String.eqb i "a"); [intros [= <-]; vm_compute; by split|].
    destruct (String.eqb i "b"); [intros [= <-]; vm_compute; by split|].
    discriminate.
  - unfold Sonnet4.stored, Sonnet4.init.
    cbn [Sonnet4.cache Sonnet4._stats_cache Sonnet4.stats_memo].
    split; [|split]; intros * Hk.
    + vm_compute in Hk. discriminate Hk.
    + vm_compute in Hk. discriminate Hk.
    + inversion Hk.
Defined.

End CountersClaim.

(** ** The normalizer of the gpt5 file *)

Section Normalizer.
Import Gpt5.

Lemma lower_ascii_idemp c : Str.lower_ascii (Str.lower_ascii c) = Str.lower_ascii c.
Proof. destruct c as [[] [] [] [] [] [] [] []]; reflexivity. Qed.

Lemma lower_idemp s : Str.lower (Str.lower s) = Str.lower s.
Proof.
  induction s as [|c s IH]; [done|]. simpl. by rewrite lower_ascii_idemp, IH.
Qed.

Lemma flat_map_lowered_strings (ss : list string) :
  flat_map lowered (PStr <$> ss) = Str.lower <$> ss.
Proof. induction ss as [|s ss IH]; [done|]. cbn. by f_equal. Qed.

Lemma snd_zip_strings (ks : list string) (vs : list PyVal) :
  length ks = length vs -> (zip ks vs).*2 = vs.
Proof. intros H. apply snd_zip. lia. Qed.

(** C4: a tag source gives one set, whatever its shape. A single
    string gives what the one-element sequence gives; a mapping gives what
    the sequence of its values gives; a sequence of strings gives the set
    of their lowercase forms, and so does a mapping with these strings as
    values, under any keys; every member of the set is lowercase, and the
    list built from it names each member once. *)
Theorem normalize_any_shape (s : string) (ss ks : list string)
    (d : list (string * PyVal)) :
  length ks = length ss ->
  normalize (PStr s) = normalize (PList [PStr s]) /\
  normalize (PDict d) = normalize (PList d.*2) /\
  normalize (PList (PStr <$> ss)) = list_to_set (Str.lower <$> ss) /\
  normalize (PDict (zip ks (PStr <$> ss))) = normalize (PList (PStr <$> ss)) /\
  (forall t, t ∈ normalize (PList (PStr <$> ss)) -> Str.lower t = t) /\
  NoDup (elements (normalize (PList (PStr <$> ss)))).
Proof.
  intros Hlen. unfold normalize, _lower_flatten, _normalize_list.
  rewrite snd_zip_strings by (by rewrite length_fmap).
  rewrite flat_map_lowered_strings.
  split; [done|]. split; [done|]. split; [done|]. split; [done|].
  split; [|apply NoDup_elements].
  intros t Ht. apply elem_of_list_to_set, list_elem_of_fmap in Ht as (u & -> & _).
  apply lower_idemp.
Qed.

(** The mapping {"x": "Translation"} gives the set {"translation"},
    and the dataset that carries it passes the task filter "translation"
    while a dataset without card data does not. *)
Lemma normalize_any_shape_witness :
  normalize (PDict [("x", PStr "Translation")]) = {["translation"]} /\
  normalize (PStr "Translation") = {["translation"]} /\
  fmap (M := result) (fmap (M := list) r_id)
    (list_all_time (Sample.hub5 [Sample.bare "a"; Sample.translation_info])
       (Sample.query_task "translation") 500) = Ok ["org/x"].
Proof.
  destruct (normalize_any_shape "Translation" ["Translation"] ["x"] [] eq_refl)
    as (H1 & _ & H2 & H3 & _).
  split; [|split].
  - etrans; [exact H3|]. etrans; [exact H2|]. vm_compute. reflexivity.
  - etrans; [exact H1|]. etrans; [exact H2|]. vm_compute. reflexivity.
  - vm_compute. reflexivity.
Defined.

End Normalizer.

(** ** Records and filters of the gpt5 file *)

Section Gpt5Filter.
Import Gpt5.

Lemma get_card_ok card k :
  card_ok card -> Py.get (Py.or card (PDict [])) k = Ok (card_get card k).
Proof.
  unfold card_ok, card_get, Py.or. intros [Hf|[d ->]].
  - by rewrite Hf.
  - by destruct (Py.truthy (PDict d)).
Qed.

Lemma get_card_bad card k :
  ~ card_ok card -> Py.get (Py.or card (PDict [])) k = Raise AttributeError.
Proof.
  unfold card_ok, Py.or. intros H.
  destruct (Py.truthy card) eqn:Hc; [|by destruct H; left].
  destruct card; try done. destruct H. right. by eexists.
Qed.

Lemma extract_ok a b d card :
  card_ok card ->
  extract a b d card =
  Ok (normalize (Py.or (Py.or (card_get card a) (card_get card b)) (card_get card d))).
Proof. intros H. unfold extract. by rewrite !(get_card_ok _ _ H). Qed.

Lemma build_dataset_record_ok info :
  card_ok (i_cardData info) ->
  build_dataset_record info =
  Ok {| r_id := i_id info;
        r_downloads := i_downloads info;
        r_likes := i_likes info;
        r_last_modified := i_lastModified info;
        r_card := i_cardData info;
        r_tasks := normalize (Py.or (Py.or (card_get (i_cardData info) "task_categories")
                                           (card_get (i_cardData info) "task_ids"))
                                    (card_get (i_cardData info) "tasks"));
        r_languages := normalize (Py.or (Py.or (card_get (i_cardData info) "language")
                                               (card_get (i_cardData info) "languages"))
                                        (card_get (i_cardData info) "langs"));
        r_license := card_get (i_cardData info) "license" |}.
Proof.
  intros H. unfold build_dataset_record, extract_tasks, extract_languages.
  by rewrite !(extract_ok _ _ _ _ H), (get_card_ok _ _ H).
Qed.

Lemma build_dataset_record_bad info :
  ~ card_ok (i_cardData info) -> build_dataset_record info = Raise AttributeError.
Proof.
  intros H. unfold build_dataset_record, extract_tasks, extract.
  rewrite (get_card_bad _ "task_categories" H). reflexivity.
Qed.

Lemma build_dataset_record_card info rec :
  build_dataset_record info = Ok rec -> card_ok (r_card rec).
Proof.
  intros Hb. destruct (decide (Py.truthy (i_cardData info) = false)) as [Hf|Ht].
  - rewrite build_dataset_record_ok in Hb by (by left).
    injection Hb as <-. by left.
  - destruct (i_cardData info) as [| | | | |d] eqn:Hc;
      try (rewrite build_dataset_record_bad in Hb;
           [done|rewrite Hc; intros [?|[? ?]]; done]).
    rewrite build_dataset_record_ok in Hb by (rewrite Hc; right; by eexists).
    injection Hb as <-. simpl. rewrite Hc. right. by eexists.
Qed.

Lemma passes_ok q rec :
  card_ok (r_card rec) -> passes q rec = Ok (keep q rec).
Proof.
  intros H. unfold passes, search_ok, keep, others_ok, search_hit.
  destruct (String.eqb (search_of q) "") eqn:E; simpl.
  - f_equal. by destruct (task_ok q rec), (language_ok q rec), (license_ok q rec),
      (carddata_ok q rec).
  - rewrite (get_card_ok _ _ H). simpl. f_equal.
    destruct (Str.contains _ (Str.lower (r_id rec))), (Str.contains _ _),
      (task_ok q rec), (language_ok q rec), (license_ok q rec), (carddata_ok q rec); done.
Qed.

Lemma language_ok_multi q rec :
  language q = "multi" -> language_ok q rec = bool_decide (multi rec).
Proof.
  intros E. unfold language_ok, multi. rewrite E. simpl.
  destruct (1 <? size (r_languages rec))%nat eqn:Hs; simpl.
  - apply Nat.ltb_lt in Hs. symmetry. apply bool_decide_eq_true. by left.
  - apply Nat.ltb_ge in Hs. apply bool_decide_ext. split; [by right|].
    intros [?|?]; [lia|done].
Qed.

(** The loop of [list_all_time] keeps the records that pass the
    tests, in their order, up to [limit] of them; the exception at the
    end of the listing is met only when fewer than [limit] passed. *)
Lemma all_time_loop_spec q infos recs tail acc :
  Forall2 (fun info rec => build_dataset_record info = Ok rec) infos recs ->
  Z.of_nat (length acc) < limit q ->
  all_time_loop q infos tail acc =
  let kept := acc ++ List.filter (keep q) recs in
  if limit q <=? Z.of_nat (length kept) then Ok (take (Z.to_nat (limit q)) kept)
  else match tail with Some e => Raise e | None => Ok kept end.
Proof.
  intros HF. revert acc.
  induction HF as [|info rec infos recs Hb _ IH]; intros acc Hacc; simpl.
  - rewrite app_nil_r.
    destruct (limit q <=? Z.of_nat (length acc)) eqn:E; [apply Z.leb_le in E; lia|done].
  - rewrite Hb. simpl.
    rewrite (passes_ok _ _ (build_dataset_record_card _ _ Hb)). simpl.
    unfold step. destruct (keep q rec) eqn:Hk.
    + destruct (limit q <=? Z.of_nat (length (acc ++ [rec]))) eqn:E.
      * apply Z.leb_le in E. rewrite length_app in E. simpl in E.
        assert ((limit q <=? Z.of_nat (length (acc ++ rec :: List.filter (keep q) recs)))
                = true) as ->.
        { apply Z.leb_le. rewrite length_app. simpl. lia. }
        f_equal. rewrite take_app_ge by lia.
        replace (Z.to_nat (limit q) - length acc)%nat with 1%nat by lia.
        simpl. by rewrite take_0.
      * apply Z.leb_gt in E. rewrite IH by done.
        by rewrite <-app_assoc.
    + by apply IH.
Qed.

End Gpt5Filter.

Section MultiLanguage.
Import Gpt5 Sample.

(** C5: with [language = 'multi'], [list_all_time] returns the records
    of the listing that have more than one language tag or the tag
    "multilingual" (and pass the other tests of the query), in their
    order, up to [limit] of them; a record with a single language tag
    other than "multilingual" is not among them. *)
Theorem multi_language_filter (hub : Hub) (q : Query) (backend_limit : Z)
    (infos : list Info) (recs : list Rec) :
  language q = "multi" ->
  1 <= limit q ->
  list_datasets hub backend_limit = (infos, None) ->
  Forall2 (fun info rec => build_dataset_record info = Ok rec) infos recs ->
  list_all_time hub q backend_limit =
    Ok (take (Z.to_nat (limit q))
          (filter (fun rec => multi rec /\ others_ok q rec = true) recs)) /\
  (forall out rec, list_all_time hub q backend_limit = Ok out ->
     size (r_languages rec) = 1%nat -> "multilingual" ∉ r_languages rec ->
     rec ∉ out).
Proof.
  intros Hlang Hlim Hhub Hrecs.
  assert (List.filter (keep q) recs =
          filter (fun rec => multi rec /\ others_ok q rec = true) recs) as Hf.
  { clear Hrecs. induction recs as [|rec recs IH]; [done|]. simpl.
    rewrite filter_cons, <-IH. unfold keep. rewrite (language_ok_multi _ _ Hlang).
    destruct (decide (multi rec /\ others_ok q rec = true)) as [[Hm Ho]|Hn].
    - by rewrite Ho, bool_decide_true.
    - destruct (others_ok q rec) eqn:Ho; [|done].
      rewrite bool_decide_false; [done|]. intros Hm. by apply Hn. }
  assert (list_all_time hub q backend_limit =
          Ok (take (Z.to_nat (limit q))
                (filter (fun rec => multi rec /\ others_ok q rec = true) recs))) as Hres.
  { unfold list_all_time. rewrite Hhub.
    rewrite (all_time_loop_spec q infos recs None [] Hrecs) by (simpl; lia).
    cbn zeta. rewrite app_nil_l, Hf.
    destruct (limit q <=? _) eqn:E; [done|].
    apply Z.leb_gt in E. f_equal. symmetry. apply take_ge. lia. }
  split; [done|].
  intros out rec Hout Hone Hnot Hin. rewrite Hres in Hout. injection Hout as <-.
  apply (subseteq_take (Z.to_nat (limit q))) in Hin.
  apply list_elem_of_filter in Hin as [[[Hm|Hm] _] _]; [lia|done].
Qed.

(** Of a dataset in English and German, one in English only, one
    tagged "multilingual" and one without tags, the first and the third
    are listed. *)
Lemma multi_language_filter_witness :
  fmap (M := result) (fmap (M := list) r_id)
    (list_all_time
       (hub5 [spoken "two" ["en"; "de"]; spoken "one" ["en"];
              spoken "ml" ["Multilingual"]; bare "none"])
       (query_language "multi") 500) = Ok ["two"; "ml"].
Proof.
  set (infos := [spoken "two" ["en"; "de"]; spoken "one" ["en"];
                 spoken "ml" ["Multilingual"]; bare "none"]).
  eassert (Forall2 (fun info rec => build_dataset_record info = Ok rec) infos _) as Hrecs.
  { repeat (constructor; [vm_compute; reflexivity|]). constructor. }
  destruct (multi_language_filter (hub5 infos) (query_language "multi") 500 infos _
              eq_refl ltac:(simpl; lia) eq_refl Hrecs) as [H _].
  rewrite H. vm_compute. reflexivity.
Defined.

End MultiLanguage.

Section RecordDefaults.
Import Gpt5 Sample.

(** The sibling of [get_popular_datasets] truncates as the
    specification asks: [list_all_time] cuts the list off after the
    filters (the hub has sorted the listing). *)
Lemma list_all_time_truncates_after_filter hub q backend_limit infos recs :
  1 <= limit q ->
  list_datasets hub backend_limit = (infos, None) ->
  Forall2 (fun info rec => build_dataset_record info = Ok rec) infos recs ->
  list_all_time hub q backend_limit =
  Ok (take (Z.to_nat (limit q)) (List.filter (keep q) recs)).
Proof.
  intros Hlim Hhub Hrecs. unfold list_all_time. rewrite Hhub.
  rewrite (all_time_loop_spec q infos recs None [] Hrecs) by (simpl; lia).
  cbn zeta. rewrite app_nil_l.
  destruct (limit q <=? _) eqn:E; [done|].
  apply Z.leb_gt in E. f_equal. symmetry. apply take_ge. lia.
Qed.

Lemma card_get_falsy card k : Py.truthy card = false -> card_get card k = PNone.
Proof. intros H. unfold card_get, Py.or. by rewrite H. Qed.

(** C8, as stated, does not hold: a record without counters gets
    [None] for them, not zero. *)
Lemma missing_counters_stay_none :
  ~ (forall info, exists rec,
       build_dataset_record info = Ok rec /\
       (i_downloads info = None -> r_downloads rec = Some 0) /\
       (i_likes info = None -> r_likes rec = Some 0)).
Proof.
  intros H. destruct (H (bare "a")) as (rec & Hb & Hd & _).
  specialize (Hd eq_refl).
  rewrite build_dataset_record_ok in Hb by (by left).
  injection Hb as <-. discriminate Hd.
Qed.

(** C8, amended: [build_dataset_record] is a function of the raw
    record alone, and for every raw record whose card data is missing,
    falsy or a mapping it returns a record: the id, the counters and the
    timestamp are those of the raw record, [None] where the raw record
    has none; the license is the one of the card, [None] without one;
    tasks and languages are the empty set when the card names none. *)
Theorem build_dataset_record_defaults (info : Info) :
  card_ok (i_cardData info) ->
  exists rec,
    build_dataset_record info = Ok rec /\
    r_id rec = i_id info /\
    r_downloads rec = i_downloads info /\
    r_likes rec = i_likes info /\
    r_last_modified rec = i_lastModified info /\
    r_license rec = card_get (i_cardData info) "license" /\
    (card_get (i_cardData info) "task_categories" = PNone ->
     card_get (i_cardData info) "task_ids" = PNone ->
     card_get (i_cardData info) "tasks" = PNone -> r_tasks rec = ∅) /\
    (card_get (i_cardData info) "language" = PNone ->
     card_get (i_cardData info) "languages" = PNone ->
     card_get (i_cardData info) "langs" = PNone -> r_languages rec = ∅) /\
    (Py.truthy (i_cardData info) = false ->
     r_license rec = PNone /\ r_tasks rec = ∅ /\ r_languages rec = ∅).
Proof.
  intros H. eexists. split; [by apply build_dataset_record_ok|]. simpl.
  repeat (split; [done|]).
  split; [by intros -> -> ->|]. split; [by intros -> -> ->|].
  intros Hf. by rewrite !(card_get_falsy _ _ Hf).
Qed.

Lemma build_dataset_record_defaults_witness :
  exists rec,
    build_dataset_record (bare "a") = Ok rec /\
    r_id rec = "a" /\ r_downloads rec = None /\ r_likes rec = None /\
    r_last_modified rec = None /\ r_license rec = PNone /\
    r_tasks rec = ∅ /\ r_languages rec = ∅.
Proof.
  destruct (build_dataset_record_defaults (bare "a")) as
    (rec & Hb & Hid & Hd & Hl & Hm & _ & _ & _ & Hf); [by left|].
  destruct (Hf eq_refl) as (Hlic & Ht & Hla).
  exists rec. repeat split; assumption.
Defined.

(** Card data that is neither falsy nor a mapping makes the
    normalizer raise. *)
Lemma build_dataset_record_raises info :
  ~ card_ok (i_cardData info) -> build_dataset_record info = Raise AttributeError.
Proof. apply build_dataset_record_bad. Qed.

End RecordDefaults.

(** ** Selecting a button *)

Section Selection.
Import BB Sample.

Lemma find_refs_head b i0 bs i but rest :
  find_refs b i0 bs = (i, but) :: rest ->
  but = b /\ exists n, i = i0 + Z.of_nat n /\ bs !! n = Some b.
Proof.
  revert i0. induction bs as [|x bs IH]; intros i0; simpl; [done|].
  destruct (Nat.eqb b x) eqn:E.
  - apply Nat.eqb_eq in E as <-. intros [= <- <- _].
    split; [done|]. exists 0%nat. split; [lia|done].
  - intros H. apply IH in H as (-> & n & -> & Hn).
    split; [done|]. exists (S n). split; [lia|done].
Qed.

Lemma find_refs_elem b i0 bs : b ∈ bs -> find_refs b i0 bs <> [].
Proof.
  revert i0. induction bs as [|x bs IH]; intros i0 Hb; [by apply elem_of_nil in Hb|].
  simpl. destruct (Nat.eqb b x) eqn:E; [done|].
  apply elem_of_cons in Hb as [->|Hb]; [by rewrite Nat.eqb_refl in E|by apply IH].
Qed.

Lemma alter_color_tooltip c r (st : gmap nat Button) k :
  tooltip <$> alter (set_color c) r st !! k = tooltip <$> st !! k.
Proof.
  destruct (decide (r = k)) as [->|Hne].
  - rewrite lookup_alter_eq. by destruct (st !! k).
  - by rewrite lookup_alter_ne.
Qed.

Lemma unselect_tooltip bb k :
  tooltip <$> store (unselect bb) !! k = tooltip <$> store bb !! k.
Proof.
  unfold unselect. simpl. induction (buttons bb) as [|r rs IH]; [done|].
  simpl. by rewrite alter_color_tooltip.
Qed.

Lemma index_ref_lookup bs n b :
  bs !! n = Some b -> index_ref bs (Z.of_nat n) = Some b.
Proof.
  intros H. pose proof (lookup_lt_Some _ _ _ H) as Hlt. unfold index_ref.
  destruct (0 <=? Z.of_nat n) eqn:E1; [|lia].
  destruct (Z.of_nat n <? Z.of_nat (length bs)) eqn:E2; [|lia].
  simpl. by rewrite Nat2Z.id.
Qed.

(** What [_clicker] does before it fires the event: the clicked
    button becomes the selection. *)
Lemma select_clicked_spec b bb :
  b ∈ buttons bb ->
  exists bb1 n,
    select_clicked b bb = Ok bb1 /\
    buttons bb !! n = Some b /\
    position bb1 = Z.of_nat n /\
    button bb1 = Some b /\
    buttons bb1 = buttons bb /\
    forall k, tooltip <$> store bb1 !! k = tooltip <$> store bb !! k.
Proof.
  intros Hb. unfold select_clicked.
  destruct (find_refs b 0 (buttons bb)) as [|[i but] rest] eqn:Hf;
    [by apply find_refs_elem in Hf|].
  apply find_refs_head in Hf as (-> & n & -> & Hn).
  cbn [unselect with_selection with_store buttons position store color].
  rewrite Z.add_0_l, (index_ref_lookup _ _ _ Hn).
  eexists _, n. split; [done|]. simpl. repeat split; [done|].
  intros k. rewrite alter_color_tooltip.
  apply (unselect_tooltip (with_selection (Z.of_nat n) (Some b) bb)).
Qed.

Lemma find_refs_none b i0 bs : b ∉ bs -> find_refs b i0 bs = [].
Proof.
  revert i0. induction bs as [|x bs IH]; intros i0 Hb; [done|]. simpl.
  apply not_elem_of_cons in Hb as [Hne Hb].
  destruct (Nat.eqb b x) eqn:E; [by apply Nat.eqb_eq in E|by apply IH].
Qed.

(** A button whose id no listed button carries is not in the list. *)
Lemma unlisted_id_unlisted_button (b : nat) (bb : ButtonBox) (btn : Button) :
  store bb !! b = Some btn ->
  (forall r btn', r ∈ buttons bb -> store bb !! r = Some btn' ->
     tooltip btn' <> tooltip btn) ->
  b ∉ buttons bb.
Proof. intros Hb Hids Hin. by apply (Hids b btn Hin Hb). Qed.

(** C7, as stated, does not hold: no exception other than
    [IndexError], the one of the subscript [[0]] on an empty list, is
    what the selection of an unlisted button fails with. *)
Lemma select_unlisted_no_not_found_error :
  ~ (exists not_found : Exn,
       not_found <> IndexError /\
       forall hub b bb ui, b ∉ buttons bb ->
         (Gpt5.click hub b (bb, ui)).1 = Raise not_found).
Proof.
  intros (e & Hne & H).
  specialize (H hub5_down 7%nat box_ab ui5_0).
  assert (7%nat ∉ buttons box_ab) as Hout.
  { vm_compute. intros Hin.
    repeat (apply elem_of_cons in Hin as [Hin|Hin]; [discriminate Hin|]).
    by apply elem_of_nil in Hin. }
  specialize (H Hout). vm_compute in H. injection H as <-. by destruct Hne.
Qed.

(** C7, amended: the selection of a button whose id no button of the
    list carries fails with [IndexError] before the handler runs, and
    the box and the widgets are what they were, the prior selection
    included. *)
Theorem select_unlisted_id
    (b : nat) (bb : ButtonBox) (btn : Button)
    (hub5 : Gpt5.Hub) (ui5 : Gpt5.UI)
    (hubq : Qwen3.Hub) (now : Z) (uiq : Qwen3.UI) :
  store bb !! b = Some btn ->
  (forall r btn', r ∈ buttons bb -> store bb !! r = Some btn' ->
     tooltip btn' <> tooltip btn) ->
  Gpt5.click hub5 b (bb, ui5) = (Raise IndexError, (bb, ui5)) /\
  Qwen3.click hubq now b (bb, uiq) = (Raise IndexError, (bb, uiq)).
Proof.
  intros Hb Hids.
  pose proof (unlisted_id_unlisted_button b bb btn Hb Hids) as Hout.
  unfold Gpt5.click, Qwen3.click, _clicker, select_clicked. cbn [fst].
  by rewrite (find_refs_none _ _ _ Hout).
Qed.

(** The box held a, b and c, and b was taken out of it. A click that
    still comes from the button of b raises [IndexError] in both files
    and leaves the box and the widgets as they were. *)
Lemma select_unlisted_id_witness :
  let bb := Gpt5.remove (Some 1) box_abc in
  buttons bb = [0%nat; 2%nat] /\
  tooltip <$> store bb !! 1%nat = Some "b" /\
  Gpt5.click hub5_down 1%nat (bb, ui5_0) = (Raise IndexError, (bb, ui5_0)) /\
  Qwen3.click hubq_b 0 1%nat (bb, uiq0) = (Raise IndexError, (bb, uiq0)).
Proof.
  intros bb.
  eassert (store bb !! 1%nat = Some _) as Hb by (vm_compute; reflexivity).
  destruct (select_unlisted_id 1%nat bb _ hub5_down ui5_0 hubq_b 0 uiq0 Hb) as [H5 Hq].
  { intros r btn' Hr Hs. vm_compute in Hr.
    apply elem_of_cons in Hr as [->|Hr];
      [vm_compute in Hs; injection Hs as <-; vm_compute; discriminate|].
    apply elem_of_cons in Hr as [->|Hr];
      [vm_compute in Hs; injection Hs as <-; vm_compute; discriminate|].
    by apply elem_of_nil in Hr. }
  split; [vm_compute; reflexivity|].
  split; [vm_compute; reflexivity|].
  split; [exact H5|exact Hq].
Defined.

(** A different case is a listed button whose id the hub no longer
    lists, or that has no current record: the click goes through and
    moves the selection. In the qwen3 file the list is fetched again, and
    when the id is not in it the output reads "Dataset <id> not found.";
    in the gpt5 file the record is looked up on the hub, and the details
    pane shows it, or the text of the exception when the lookup, the
    normalizer or the rendering raises. *)
Lemma click_listed_absent_id
    (b : nat) (bb : ButtonBox) (btn : Button)
    (hubq : Qwen3.Hub) (now : Z) (uiq : Qwen3.UI) (datasets : list Qwen3.Info)
    (hub5 : Gpt5.Hub) (ui5 : Gpt5.UI) :
  b ∈ buttons bb ->
  store bb !! b = Some btn ->
  Qwen3.fetch_datasets hubq now (Qwen3.sort_value uiq) (Qwen3.limit_value uiq) None
    = Ok datasets ->
  Forall (fun ds => Qwen3.id ds <> tooltip btn) datasets ->
  Gpt5._current_records ui5 !! tooltip btn = None ->
  exists bb1 n,
    select_clicked b bb = Ok bb1 /\
    button bb1 = Some b /\ position bb1 = Z.of_nat n /\ buttons bb !! n = Some b /\
    Qwen3.click hubq now b (bb, uiq) =
      (Ok (), (bb1, Qwen3.set_output (Qwen3.NotFound (tooltip btn)) uiq)) /\
    Gpt5.click hub5 b (bb, ui5) =
      (Ok (),
       (bb1,
        let '(r, c) := Gpt5.cached_dataset_info hub5 (PStr (tooltip btn))
                         (Gpt5.info_cache ui5) in
        Gpt5.set_details
          match (info ← r; rec ← Gpt5.build_dataset_record info; Gpt5.render_details rec) with
          | Ok d => d
          | Raise e => Gpt5.ErrorText e
          end
          (Gpt5.set_info_cache c ui5))).
Proof.
  intros Hb Hbtn Hfetch Habsent Hcur.
  destruct (select_clicked_spec b bb Hb) as (bb1 & n & Hsel & Hn & Hpos & Hbut & _ & Htip).
  exists bb1, n. repeat (split; [done|]).
  assert (exists btn1, store bb1 !! b = Some btn1 /\ tooltip btn1 = tooltip btn)
    as (btn1 & Hbtn1 & Ht1).
  { specialize (Htip b). rewrite Hbtn in Htip.
    destruct (store bb1 !! b) as [btn1|]; [|done].
    exists btn1. split; [done|]. by injection Htip. }
  split.
  - unfold Qwen3.click, _clicker. simpl. rewrite Hsel.
    unfold Qwen3.show_dataset_details. rewrite Hbut. simpl. rewrite Hbtn1, Ht1, Hfetch.
    simpl.
    assert (List.find (fun ds => String.eqb (Qwen3.id ds) (tooltip btn)) datasets = None)
      as ->; [|done].
    clear -Habsent. induction Habsent as [|ds l Hds _ IH]; [done|]. simpl.
    by apply String.eqb_neq in Hds as ->.
  - remember (Gpt5.cached_dataset_info hub5 (PStr (tooltip btn)) (Gpt5.info_cache ui5))
      as rc eqn:Hrc.
    unfold Gpt5.click, _clicker. cbn [fst snd]. rewrite Hsel.
    unfold Gpt5.on_select, Gpt5.on_select_try. rewrite Hbut.
    cbn [mbind option_bind]. rewrite Hbtn1, Ht1, Hcur, <-Hrc.
    destruct rc as [r c].
    destruct r as [info|e]; simpl; [|done].
    destruct (Gpt5.build_dataset_record info) as [rec|e]; simpl; [|done].
    by destruct (Gpt5.render_details rec).
Qed.

End Selection.

(* ===================================================================== *)
(** * Further properties of the three files *)
(* ===================================================================== *)

(** ** [ButtonBox] *)

Section ButtonBoxMore.
Import BB Sample.

(** X1: [remove] of the sonnet4 and qwen3 files never takes the first
    button out of the box, whatever position it is given and whichever
    button is selected: [not position] reads position 0 as no position. *)
Theorem sonnet4_remove_keeps_first (pos : option Z) (bb : ButtonBox) (b0 : nat) :
  buttons bb !! 0%nat = Some b0 ->
  buttons (Sonnet4.remove pos bb) !! 0%nat = Some b0.
Proof.
  intros H0.
  destruct (sonnet4_remove_cases pos bb) as [->|(p & Hp & ->)]; [done|].
  simpl. unfold drop_at. rewrite lookup_app_l by (rewrite length_take; lia).
  rewrite lookup_take_lt by lia. done.
Qed.

(** Asked to remove position 0 while the last of three buttons is
    selected, it removes the selected one. *)
Lemma sonnet4_remove_keeps_first_witness :
  buttons (Sonnet4.remove (Some 0) box_abc) !! 0%nat = Some 0%nat /\
  buttons (Sonnet4.remove (Some 0) box_abc) = [0%nat; 1%nat].
Proof.
  split; [|vm_compute; reflexivity].
  apply (sonnet4_remove_keeps_first (Some 0) box_abc 0%nat). vm_compute. reflexivity.
Defined.

Lemma lookup_drop_at {A} (p : Z) (l : list A) (i : nat) :
  0 <= p < Z.of_nat (length l) ->
  drop_at p l !! i = if (i <? Z.to_nat p)%nat then l !! i else l !! S i.
Proof.
  intros Hp. unfold drop_at.
  destruct (i <? Z.to_nat p)%nat eqn:E.
  - apply Nat.ltb_lt in E. rewrite lookup_app_l by (rewrite length_take; lia).
    by rewrite lookup_take_lt.
  - apply Nat.ltb_ge in E. rewrite lookup_app_r by (rewrite length_take; lia).
    rewrite length_take, lookup_drop. f_equal. lia.
Qed.

(** X2: [remove] of the gpt5 file, given a position inside the list,
    takes out the button at that position and no other: the buttons in
    front keep their index, those behind move up by one, and the box loses
    the same child. Given a position outside the list it changes nothing. *)
Theorem gpt5_remove_position (p : Z) (bb : ButtonBox) :
  (0 <= p < Z.of_nat (length (buttons bb)) ->
   forall i, buttons (Gpt5.remove (Some p) bb) !! i =
             if (i <? Z.to_nat p)%nat then buttons bb !! i else buttons bb !! S i) /\
  (0 <= p < Z.of_nat (length (buttons bb)) ->
   children (Gpt5.remove (Some p) bb) =
   take (Z.to_nat p) (children bb) ++ drop (S (Z.to_nat p)) (children bb)) /\
  (p < 0 \/ Z.of_nat (length (buttons bb)) <= p -> Gpt5.remove (Some p) bb = bb).
Proof.
  split; [|split].
  - intros Hp i. destruct (gpt5_remove_in_range p bb Hp) as [-> _].
    simpl. by apply lookup_drop_at.
  - intros Hp. destruct (gpt5_remove_in_range p bb Hp) as [-> _].
    simpl. unfold drop_at. do 2 f_equal. lia.
  - intros Hp. unfold Gpt5.remove.
    destruct (p <? Z.of_nat (length (buttons bb))) eqn:E1;
      destruct (p <? 0) eqn:E2; simpl; try done; lia.
Qed.

Lemma gpt5_remove_position_witness :
  buttons (Gpt5.remove (Some 1) box_abc) !! 1%nat = Some 2%nat /\
  Gpt5.remove (Some 3) box_abc = box_abc.
Proof.
  destruct (gpt5_remove_position 1 box_abc) as (H1 & _ & _).
  destruct (gpt5_remove_position 3 box_abc) as (_ & _ & H3).
  split.
  - rewrite H1 by (vm_compute; split; [discriminate|reflexivity]).
    vm_compute. reflexivity.
  - apply H3. right. vm_compute. discriminate.
Defined.

Lemma find_refs_first b i0 bs i but rest :
  find_refs b i0 bs = (i, but) :: rest ->
  exists n, i = i0 + Z.of_nat n /\ bs !! n = Some b /\
            forall m, (m < n)%nat -> bs !! m <> Some b.
Proof.
  revert i0. induction bs as [|x bs IH]; intros i0; simpl; [done|].
  destruct (Nat.eqb b x) eqn:E.
  - apply Nat.eqb_eq in E as <-. intros [= <- <- _].
    exists 0%nat. split; [lia|]. split; [done|]. intros m Hm. lia.
  - intros H. apply IH in H as (n & -> & Hn & Hfirst).
    exists (S n). split; [lia|]. split; [done|].
    intros [|m] Hm; simpl.
    + intros [= ->]. by rewrite Nat.eqb_refl in E.
    + apply Hfirst. lia.
Qed.

Lemma foldr_alter_lookup (f : Button -> Button) (l : list nat) (st : gmap nat Button) k :
  (forall x, f (f x) = f x) ->
  foldr (fun r st => alter f r st) st l !! k =
  if decide (k ∈ l) then f <$> st !! k else st !! k.
Proof.
  intros Hf. induction l as [|r l IH]; simpl; [done|].
  destruct (decide (r = k)) as [->|Hne].
  - rewrite lookup_alter_eq, IH.
    destruct (decide (k ∈ k :: l)) as [_|Hn]; [|destruct Hn; left].
    destruct (decide (k ∈ l)); [|done].
    destruct (st !! k); simpl; [by rewrite Hf|done].
  - rewrite lookup_alter_ne, IH by done.
    destruct (decide (k ∈ l)) as [Hin|Hnin].
    + destruct (decide (k ∈ r :: l)) as [_|Hn]; [done|]. destruct Hn. by right.
    + destruct (decide (k ∈ r :: l)) as [Hin|_]; [|done].
      apply elem_of_cons in Hin as [->|]; done.
Qed.

(** X3: a click on a listed button makes it the selection, at the
    index of its first occurrence, and leaves it the only highlighted
    button of the list: it gets the colour of the box, every other listed
    button loses its colour, and buttons outside the list are not touched. *)
Theorem click_highlights_one (b : nat) (bb bb1 : ButtonBox) :
  select_clicked b bb = Ok bb1 ->
  b ∈ buttons bb /\
  button bb1 = Some b /\
  buttons bb1 = buttons bb /\ children bb1 = children bb /\
  (exists n, position bb1 = Z.of_nat n /\ buttons bb !! n = Some b /\
             forall m, (m < n)%nat -> buttons bb !! m <> Some b) /\
  (forall r, store bb1 !! r =
     if decide (r = b) then set_color (Some (color bb)) <$> store bb !! r
     else if decide (r ∈ buttons bb) then set_color None <$> store bb !! r
     else store bb !! r).
Proof.
  unfold select_clicked.
  destruct (find_refs b 0 (buttons bb)) as [|[i but] rest] eqn:Hf; [done|].
  pose proof (find_refs_head _ _ _ _ _ _ Hf) as (-> & _).
  apply find_refs_first in Hf as (n & -> & Hn & Hfirst).
  cbn [unselect with_selection with_store buttons position store color].
  rewrite Z.add_0_l, (index_ref_lookup _ _ _ Hn).
  intros [= <-]. simpl.
  split; [by eapply list_elem_of_lookup_2|].
  do 3 (split; [done|]).
  split; [by exists n|].
  intros r. destruct (decide (r = b)) as [->|Hne].
  - rewrite lookup_alter_eq, foldr_alter_lookup by done.
    rewrite decide_True by (by eapply list_elem_of_lookup_2).
    by destruct (store bb !! b).
  - rewrite lookup_alter_ne by done. by rewrite foldr_alter_lookup.
Qed.

Lemma click_highlights_one_witness :
  button box_ab = Some 1%nat /\
  button_color <$> store box_ab !! 1%nat = Some (Some "powderblue") /\
  button_color <$> store box_ab !! 0%nat = Some None.
Proof.
  assert (select_clicked 1%nat (init ["a"; "b"] 60 "powderblue") = Ok box_ab) as H
    by (vm_compute; reflexivity).
  destruct (click_highlights_one _ _ _ H) as (_ & Hb & _ & _ & _ & Hst).
  split; [exact Hb|]. rewrite !Hst. vm_compute. split; reflexivity.
Defined.

(** X4: a click on a button that is not in the list raises
    [IndexError] before anything is changed, and the handler is not
    called. *)
Theorem click_unlisted_raises {St : Type}
    (clicker : option (ButtonBox -> St -> result unit * St))
    (b : nat) (st : ButtonBox * St) :
  b ∉ buttons st.1 ->
  _clicker clicker b st = (Raise IndexError, st).
Proof.
  intros Hb. unfold _clicker, select_clicked. by rewrite (find_refs_none _ _ _ Hb).
Qed.

Lemma click_unlisted_raises_witness :
  _clicker (St := unit) None 7%nat (box_ab, ()) = (Raise IndexError, (box_ab, ())).
Proof.
  apply (click_unlisted_raises (St := unit) None 7%nat (box_ab, ())).
  vm_compute. intros H. repeat (apply elem_of_cons in H as [H|H]; [discriminate H|]).
  by apply elem_of_nil in H.
Defined.

Lemma select_clicked_lists b bb bb1 :
  select_clicked b bb = Ok bb1 -> buttons bb1 = buttons bb /\ children bb1 = children bb.
Proof.
  unfold select_clicked.
  destruct (find_refs b 0 (buttons bb)) as [|[i but] rest]; [done|].
  destruct (index_ref _ _); [|done]. by intros [= <-].
Qed.

Lemma append_lists {St : Type} (clicker : option (ButtonBox -> St -> result unit * St))
    (d : string) (sel : bool) (st : ButtonBox * St) :
  buttons (append clicker d sel st).2.1 = buttons st.1 ++ [next_ref st.1] /\
  children (append clicker d sel st).2.1 = children st.1 ++ [next_ref st.1].
Proof.
  unfold append. destruct sel; [|done].
  unfold _clicker. cbn [fst snd].
  match goal with
  | |- context [select_clicked ?b ?x] =>
      destruct (select_clicked b x) as [bb1|e] eqn:Hs
  end.
  - apply select_clicked_lists in Hs as [Hb Hc].
    destruct clicker as [f|]; simpl.
    + destruct (f bb1 st.2) as [[[]|e] s']; simpl; by rewrite Hb, Hc.
    + by rewrite Hb, Hc.
  - done.
Qed.

(** X5: the box and the class stay in step. When [box.children] holds
    the buttons of [buttons], it still does after [remove] (in either
    variant), [clear], [append] and a click; and it does after [__init__]. *)
Theorem synced_preserved {St : Type}
    (clicker : option (ButtonBox -> St -> result unit * St))
    (bb : ButtonBox) (pos : option Z) (d : string) (sel : bool) (s : St) (b : nat) :
  synced bb ->
  synced (Gpt5.remove pos bb) /\
  synced (Sonnet4.remove pos bb) /\
  synced (Sonnet4.clear bb) /\
  synced (append clicker d sel (bb, s)).2.1 /\
  (forall bb1, select_clicked b bb = Ok bb1 -> synced bb1) /\
  (forall descriptions mx col, synced (init descriptions mx col)).
Proof.
  unfold synced. intros Hs. repeat split.
  - destruct (gpt5_remove_cases pos bb) as [->|(p & _ & ->)]; [done|].
    simpl. by rewrite Hs.
  - destruct (sonnet4_remove_cases pos bb) as [->|(p & _ & ->)]; [done|].
    simpl. by rewrite Hs.
  - destruct (append_lists clicker d sel (bb, s)) as [-> ->]. simpl. by rewrite Hs.
  - intros bb1 H. apply select_clicked_lists in H as [-> ->]. done.
Qed.

Lemma synced_preserved_witness :
  synced (init ["a"; "b"] 60 "powderblue") /\
  synced (Gpt5.remove (Some 1) box_abc) /\
  synced (append (St := unit) None "d" true (box_abc, ())).2.1.
Proof.
  assert (synced box_abc) as H by (vm_compute; reflexivity).
  destruct (synced_preserved (St := unit) None box_abc (Some 1) "d" true () 0%nat H)
    as (H1 & _ & _ & H2 & _ & H3).
  split; [apply H3|]. split; [exact H1|exact H2].
Defined.

Lemma string_length_append (s1 s2 : string) :
  String.length (s1 +:+ s2) = (String.length s1 + String.length s2)%nat.
Proof. induction s1 as [|c s1 IH]; [done|]. simpl. by rewrite IH. Qed.

Lemma string_length_substring (n : nat) (s : string) :
  String.length (String.substring 0 n s) = Nat.min n (String.length s).
Proof.
  revert s. induction n as [|n IH]; intros s; [by destruct s|].
  destruct s as [|c s]; [done|]. simpl. by rewrite IH.
Qed.

(** X6: a button never shows more than [maxchar] characters (for
    [maxchar >= 3]): a description that fits is shown as it is, a longer
    one is cut to [maxchar - 3] characters followed by three dots; the
    tooltip keeps the whole description. *)
Theorem shorten_fits (mx : Z) (d : string) :
  3 <= mx ->
  Z.of_nat (String.length (description (new_button mx d))) <= mx /\
  (Z.of_nat (String.length d) <= mx -> description (new_button mx d) = d) /\
  (mx < Z.of_nat (String.length d) ->
   description (new_button mx d) = String.substring 0 (Z.to_nat (mx - 3)) d +:+ "..." /\
   Z.of_nat (String.length (description (new_button mx d))) = mx) /\
  tooltip (new_button mx d) = d.
Proof.
  intros Hmx. simpl. unfold shorten, slice_to.
  destruct (Z.of_nat (String.length d) <=? mx) eqn:E.
  - apply Z.leb_le in E. repeat split; [done|lia|lia].
  - apply Z.leb_gt in E.
    destruct (mx - 3 <? 0) eqn:E3; [lia|].
    rewrite Z.min_l by lia.
    assert (Z.of_nat (String.length
              (String.substring 0 (Z.to_nat (mx - 3)) d +:+ "...")) = mx) as Hlen.
    { rewrite string_length_append, string_length_substring. simpl. lia. }
    repeat split; [lia|lia|done].
Qed.

Lemma shorten_fits_witness :
  description (new_button 8 "wikipedia-en") = "wikip..." /\
  tooltip (new_button 8 "wikipedia-en") = "wikipedia-en".
Proof.
  destruct (shorten_fits 8 "wikipedia-en") as (_ & _ & H & Ht); [lia|].
  destruct H as [Hd _]; [vm_compute; reflexivity|].
  split; [rewrite Hd; vm_compute; reflexivity|exact Ht].
Defined.

End ButtonBoxMore.

(** ** The listing functions of the gpt5 file *)

Section Gpt5More.
Import Gpt5 Sample.

(** X7: [build_dataset_record] returns a record exactly when the card
    data is falsy or a mapping; any other card data (a non-empty string or
    list, a number, [True]) makes it raise [AttributeError]. *)
Theorem build_dataset_record_ok_iff (info : Info) :
  (is_ok (build_dataset_record info) = true <-> card_ok (i_cardData info)) /\
  (~ card_ok (i_cardData info) -> build_dataset_record info = Raise AttributeError).
Proof.
  split; [|apply build_dataset_record_bad].
  split.
  - intros H. destruct (build_dataset_record info) as [rec|] eqn:Hb; [|done].
    pose proof (build_dataset_record_card _ _ Hb) as Hc.
    destruct (decide (Py.truthy (i_cardData info) = false)) as [Hf|Ht]; [by left|].
    destruct (i_cardData info) as [| | | | |d] eqn:E;
      try (rewrite build_dataset_record_bad in Hb;
           [done|rewrite E; intros [?|[? ?]]; done]).
    right. by eexists.
  - intros H. by rewrite build_dataset_record_ok.
Qed.

Lemma build_dataset_record_ok_iff_witness :
  build_dataset_record
    {| i_id := "a"; i_downloads := None; i_likes := None; i_lastModified := None;
       i_cardData := PList [PStr "en"] |} = Raise AttributeError.
Proof.
  apply build_dataset_record_ok_iff. intros [H|[d H]]; discriminate H.
Defined.

(** X8: every tag of a record is lowercase, whatever the card holds:
    strings, numbers, nested lists or mappings. *)
Theorem record_tags_lowercase (info : Info) (rec : Rec) (t : string) :
  build_dataset_record info = Ok rec ->
  t ∈ r_tasks rec ∪ r_languages rec ->
  Str.lower t = t.
Proof.
  intros Hb Ht.
  assert (forall items, t ∈ _lower_flatten items -> Str.lower t = t) as Hlow.
  { intros items Hin. unfold _lower_flatten in Hin.
    apply elem_of_list_to_set, list_elem_of_In, in_flat_map in Hin as (x & _ & Hx).
    destruct x as [| | | |l|d]; unfold lowered in Hx;
      try (destruct Hx as [<-|[]]; apply lower_idemp).
    - apply in_map_iff in Hx as (y & <- & _). apply lower_idemp.
    - apply in_flat_map in Hx as ([k v] & _ & Hv). cbn [snd] in Hv.
      destruct v; try done. destruct Hv as [<-|[]]. apply lower_idemp. }
  pose proof (build_dataset_record_card _ _ Hb) as Hc.
  assert (card_ok (i_cardData info)) as Hci.
  { apply build_dataset_record_ok_iff. by rewrite Hb. }
  rewrite build_dataset_record_ok in Hb by done. injection Hb as <-. simpl in Ht.
  apply elem_of_union in Ht as [Ht|Ht]; by eapply Hlow.
Qed.

Lemma record_tags_lowercase_witness :
  is_ok (build_dataset_record (spoken "x" ["EN"; "De"])) = true /\
  Str.lower "en" = "en".
Proof.
  split; [vm_compute; reflexivity|].
  eassert (build_dataset_record (spoken "x" ["EN"; "De"]) = Ok _) as Hb
    by (vm_compute; reflexivity).
  apply (record_tags_lowercase _ _ "en" Hb). vm_compute. reflexivity.
Defined.

(** X9: [list_all_time] returns the first [limit] records that pass the
    tests of the query, in the order of the listing. When the listing
    breaks off with an exception, the caller sees the list all the same
    if [limit] records had passed by then, and the exception otherwise. *)
Theorem list_all_time_result (hub : Hub) (q : Query) (backend_limit : Z)
    (infos : list Info) (tail : option Exn) (recs : list Rec) :
  1 <= limit q ->
  list_datasets hub backend_limit = (infos, tail) ->
  Forall2 (fun info rec => build_dataset_record info = Ok rec) infos recs ->
  list_all_time hub q backend_limit =
  if limit q <=? Z.of_nat (length (List.filter (keep q) recs))
  then Ok (take (Z.to_nat (limit q)) (List.filter (keep q) recs))
  else match tail with
       | Some e => Raise e
       | None => Ok (List.filter (keep q) recs)
       end.
Proof.
  intros Hlim Hhub Hrecs. unfold list_all_time. rewrite Hhub.
  by rewrite (all_time_loop_spec q infos recs tail [] Hrecs) by (simpl; lia).
Qed.

Lemma list_all_time_result_witness :
  fmap (M := result) (fmap (M := list) r_id)
    (list_all_time (hub5_broken [bare "a"; bare "b"]) (query_limit 2) 500) = Ok ["a"; "b"] /\
  list_all_time (hub5_broken [bare "a"; bare "b"]) (query_limit 3) 500
    = Raise (HubError "timeout").
Proof.
  eassert (Forall2 (fun info rec => build_dataset_record info = Ok rec)
             [bare "a"; bare "b"] _) as Hrecs.
  { repeat (constructor; [vm_compute; reflexivity|]). constructor. }
  split.
  - rewrite (list_all_time_result (hub5_broken [bare "a"; bare "b"]) (query_limit 2) 500
               [bare "a"; bare "b"] (Some (HubError "timeout")) _
               ltac:(simpl; lia) eq_refl Hrecs).
    vm_compute. reflexivity.
  - rewrite (list_all_time_result (hub5_broken [bare "a"; bare "b"]) (query_limit 3) 500
               [bare "a"; bare "b"] (Some (HubError "timeout")) _
               ltac:(simpl; lia) eq_refl Hrecs).
    vm_compute. reflexivity.
Defined.

Lemma all_time_loop_nonpositive q infos recs tail acc :
  limit q <= 0 ->
  Forall2 (fun info rec => build_dataset_record info = Ok rec) infos recs ->
  all_time_loop q infos tail acc =
  match List.filter (keep q) recs with
  | rec :: _ => Ok (acc ++ [rec])
  | [] => match tail with Some e => Raise e | None => Ok acc end
  end.
Proof.
  intros Hlim HF. induction HF as [|info rec infos recs Hb _ IH]; simpl; [done|].
  rewrite Hb. simpl.
  rewrite (passes_ok _ _ (build_dataset_record_card _ _ Hb)). simpl.
  unfold step. destruct (keep q rec) eqn:Hk; [|done].
  destruct (limit q <=? Z.of_nat (length (acc ++ [rec]))) eqn:E; [done|].
  apply Z.leb_gt in E. lia.
Qed.

(** X10: the limit is tested after a record is appended, so a limit of
    zero (or less) does not give the empty list: [list_all_time] returns
    the first record that passes the tests, alone. *)
Theorem list_all_time_limit_zero (hub : Hub) (q : Query) (backend_limit : Z)
    (infos : list Info) (tail : option Exn) (recs : list Rec) (rec : Rec)
    (rest : list Rec) :
  limit q <= 0 ->
  list_datasets hub backend_limit = (infos, tail) ->
  Forall2 (fun info rec => build_dataset_record info = Ok rec) infos recs ->
  List.filter (keep q) recs = rec :: rest ->
  list_all_time hub q backend_limit = Ok [rec].
Proof.
  intros Hlim Hhub Hrecs Hk. unfold list_all_time. rewrite Hhub.
  by rewrite (all_time_loop_nonpositive q infos recs tail [] Hlim Hrecs), Hk.
Qed.

Lemma list_all_time_limit_zero_witness :
  fmap (M := result) (fmap (M := list) r_id)
    (list_all_time (hub5 [bare "a"; bare "b"]) (query_limit 0) 500) = Ok ["a"].
Proof.
  eassert (Forall2 (fun info rec => build_dataset_record info = Ok rec)
             [bare "a"; bare "b"] _) as Hrecs.
  { repeat (constructor; [vm_compute; reflexivity|]). constructor. }
  erewrite (list_all_time_limit_zero (hub5 [bare "a"; bare "b"]) (query_limit 0) 500
              [bare "a"; bare "b"] None _ _ _
              ltac:(simpl; lia) eq_refl Hrecs).
  2: vm_compute; reflexivity.
  vm_compute. reflexivity.
Defined.

Lemma trending_ids_dicts (ds : list (list (string * PyVal))) (ids : list PyVal) :
  trending_ids (PDict <$> ds) ids = Ok (ids ++ List.filter Py.truthy (rid_of <$> ds)).
Proof.
  revert ids. induction ds as [|d ds IH]; intros ids; simpl.
  - by rewrite app_nil_r.
  - rewrite IH. fold (rid_of d). destruct (Py.truthy (rid_of d)); [|done].
    by rewrite <-app_assoc.
Qed.

(** X11: from a trending response that is a list of objects,
    [list_trending] takes for each object the first truthy value among
    [repoId], [id] and [name], skips the objects that have none, and looks
    these ids up in their order. *)
Theorem list_trending_ids (hub : Hub) (period : string) (q : Query)
    (c : LRU.t Info) (ds : list (list (string * PyVal))) :
  trending hub period = Ok (PList (PDict <$> ds)) ->
  list_trending hub period q c =
  trending_loop hub q (List.filter Py.truthy (rid_of <$> ds)) [] c.
Proof.
  intros Ht. unfold list_trending. rewrite Ht. simpl.
  by rewrite trending_ids_dicts.
Qed.

Lemma trending_ids_bad (items : list PyVal) (ids : list PyVal) :
  existsb (fun v => negb (is_dict v)) items = true ->
  trending_ids items ids = Raise AttributeError.
Proof.
  revert ids. induction items as [|item items IH]; intros ids; simpl; [done|].
  destruct item as [| | | | |d]; simpl; try done.
  intros H. by apply IH.
Qed.

(** X12: only the transport of [list_trending] is guarded. A response
    that decodes to something else than a list of objects is not caught:
    an object or a string (iterated key by key, character by character)
    and a list with an item that is not an object raise [AttributeError];
    [null], a boolean and a number raise [TypeError]. *)
Theorem list_trending_malformed (hub : Hub) (period : string) (q : Query)
    (c : LRU.t Info) (data : PyVal) :
  trending hub period = Ok data ->
  match data with
  | PList items =>
      existsb (fun v => negb (is_dict v)) items = true ->
      list_trending hub period q c = (Raise AttributeError, c)
  | PDict (_ :: _) => list_trending hub period q c = (Raise AttributeError, c)
  | PStr (String _ _) => list_trending hub period q c = (Raise AttributeError, c)
  | PDict [] | PStr EmptyString => list_trending hub period q c = (Ok [], c)
  | PNone | PBool _ | PInt _ => list_trending hub period q c = (Raise TypeError, c)
  end.
Proof.
  intros Ht. unfold list_trending. rewrite Ht.
  destruct data as [| | |s|items|d]; simpl; try done.
  - by destruct s.
  - intros H. by rewrite (trending_ids_bad _ _ H).
  - by destruct d as [|[k v] d].
Qed.

Lemma list_trending_malformed_witness :
  list_trending (hub5_broken []) "week" query0 [] = (Raise AttributeError, []).
Proof.
  apply (list_trending_malformed (hub5_broken []) "week" query0 []
           (PDict [("error", PStr "not found")])).
  reflexivity.
Defined.

Lemma list_trending_ids_witness :
  fmap (M := result) (fmap (M := list) r_id)
    (list_trending
       (hub5_trend [bare "a"; bare "b"]
          (PList [PDict [("id", PStr "x"); ("repoId", PStr "a")];
                  PDict [("title", PStr "t")];
                  PDict [("name", PStr "b")]]))
       "week" query0 []).1 = Ok ["a"; "b"].
Proof.
  rewrite (list_trending_ids
             (hub5_trend [bare "a"; bare "b"]
                (PList [PDict [("id", PStr "x"); ("repoId", PStr "a")];
                        PDict [("title", PStr "t")];
                        PDict [("name", PStr "b")]]))
             "week" query0 []
             [[("id", PStr "x"); ("repoId", PStr "a")]; [("title", PStr "t")];
              [("name", PStr "b")]] eq_refl).
  vm_compute. reflexivity.
Defined.

Lemma lru_find_touch {V} (k : string) (v : V) (c : LRU.t V) :
  LRU.find k (LRU.touch k v c) = Some v.
Proof. unfold LRU.touch. simpl. by rewrite String.eqb_refl. Qed.

(** X13: [cached_dataset_info] keeps what the hub answered and nothing
    else. After a lookup that returned, the same id gets the same answer
    without a request, whatever the hub says by then; a lookup that raised
    leaves the table as it was, so the next call asks the hub again. *)
Theorem cached_dataset_info_roundtrip (hub hub' : Hub) (s : string) (c : LRU.t Info) :
  (forall info c1,
     cached_dataset_info hub (PStr s) c = (Ok info, c1) ->
     (cached_dataset_info hub' (PStr s) c1).1 = Ok info) /\
  (forall e c1,
     cached_dataset_info hub (PStr s) c = (Raise e, c1) ->
     c1 = c /\
     cached_dataset_info hub' (PStr s) c1 =
       match dataset_info hub' s with
       | Ok info => (Ok info, LRU.add 2048 s info c)
       | Raise e' => (Raise e', c)
       end).
Proof.
  unfold cached_dataset_info. split.
  - intros info c1. destruct (LRU.find s c) as [i|] eqn:Hf.
    + intros [= -> <-]. by rewrite lru_find_touch.
    + destruct (dataset_info hub s); [|done]. intros [= -> <-].
      by rewrite lru_find_add.
  - intros e c1. destruct (LRU.find s c) as [i|] eqn:Hf; [done|].
    destruct (dataset_info hub s); [done|]. intros [= _ <-]. by rewrite Hf.
Qed.

Lemma cached_dataset_info_roundtrip_witness :
  (cached_dataset_info hub5_down (PStr "a")
     (cached_dataset_info (hub5 [bare "a"]) (PStr "a") []).2).1 = Ok (bare "a").
Proof.
  destruct (cached_dataset_info_roundtrip (hub5 [bare "a"]) hub5_down "a" []) as [H _].
  eapply H. vm_compute. reflexivity.
Defined.

(** X14: a click on a listed button whose id is among the current
    records shows that record, or the text of the exception the rendering
    raised; no request goes to the hub and the table of
    [cached_dataset_info] is left alone. *)
Theorem click_current_record (hub : Hub) (b : nat) (bb : BB.ButtonBox) (ui : UI)
    (btn : BB.Button) (rec : Rec) :
  b ∈ BB.buttons bb ->
  BB.store bb !! b = Some btn ->
  _current_records ui !! BB.tooltip btn = Some rec ->
  exists bb1,
    BB.select_clicked b bb = Ok bb1 /\
    click hub b (bb, ui) =
      (Ok (), (bb1, set_details match render_details rec with
                                | Ok d => d
                                | Raise e => ErrorText e
                                end ui)).
Proof.
  intros Hb Hbtn Hcur.
  destruct (select_clicked_spec b bb Hb) as (bb1 & n & Hsel & _ & _ & Hbut & _ & Htip).
  exists bb1. split; [done|].
  assert (exists btn1, BB.store bb1 !! b = Some btn1 /\ BB.tooltip btn1 = BB.tooltip btn)
    as (btn1 & Hbtn1 & Ht1).
  { specialize (Htip b). rewrite Hbtn in Htip.
    destruct (BB.store bb1 !! b) as [btn1|]; [|done].
    exists btn1. split; [done|]. by injection Htip. }
  unfold click, BB._clicker. cbn [fst snd]. rewrite Hsel.
  unfold on_select, on_select_try. rewrite Hbut.
  cbn [mbind option_bind]. rewrite Hbtn1, Ht1, Hcur.
  by destruct (render_details rec).
Qed.

Lemma populate_loop_spec (records : list Rec) (bb : BB.ButtonBox) :
  Forall (fun rec => card_ok (r_card rec)) records ->
  exists bb',
    populate_loop records bb = (Ok (), bb') /\
    BB.buttons bb' = BB.buttons bb ++ seq (BB.next_ref bb) (length records) /\
    BB.children bb' = BB.children bb ++ seq (BB.next_ref bb) (length records) /\
    BB.next_ref bb' = (BB.next_ref bb + length records)%nat /\
    BB.position bb' = BB.position bb /\ BB.button bb' = BB.button bb /\
    (forall r, (r < BB.next_ref bb)%nat -> BB.store bb' !! r = BB.store bb !! r) /\
    (forall j rec, records !! j = Some rec ->
       BB.tooltip <$> BB.store bb' !! (BB.next_ref bb + j)%nat = Some (r_id rec)).
Proof.
  intros Hc. revert bb. induction Hc as [|rec records Hrec _ IH]; intros bb.
  - exists bb. simpl. rewrite !app_nil_r. repeat split; [lia|done].
  - simpl. rewrite (get_card_ok _ _ Hrec).
    set (r := BB.next_ref bb).
    set (title := Py.or (card_get (r_card rec) "pretty_name") (PStr (r_id rec))).
    unfold BB.append. cbn [fst snd].
    match goal with
    | |- context [populate_loop records ?x] => set (bb2 := x)
    end.
    destruct (IH bb2) as (bb' & Hloop & Hb & Hch & Hn & Hp & Hbut & Hold & Hnew).
    exists bb'. split; [done|]. subst bb2. simpl in *.
    split; [by rewrite Hb, <-app_assoc|].
    split; [by rewrite Hch, <-app_assoc|].
    split; [lia|]. split; [done|]. split; [done|]. split.
    + intros r' Hr'. rewrite Hold by lia.
      rewrite lookup_alter_ne, lookup_insert_ne by (subst r; lia). done.
    + intros [|j] rec' Hj; simpl in Hj.
      * injection Hj as <-. rewrite Nat.add_0_r, Hold by lia.
        by rewrite lookup_alter_eq, lookup_insert_eq.
      * replace (r + S j)%nat with (S (r + j)) by lia.
        by apply Hnew.
Qed.

Lemma current_records_ids (records : list Rec) (m0 : gmap string Rec) :
  (forall k v, m0 !! k = Some v -> r_id v = k) ->
  (forall k v, foldl (fun m rec => <[r_id rec := rec]> m) m0 records !! k = Some v ->
     r_id v = k) /\
  (forall rec, rec ∈ records ->
     is_Some (foldl (fun m rec => <[r_id rec := rec]> m) m0 records !! r_id rec)) /\
  (forall k, is_Some (m0 !! k) ->
     is_Some (foldl (fun m rec => <[r_id rec := rec]> m) m0 records !! k)).
Proof.
  revert m0. induction records as [|rec records IH]; intros m0 H0; simpl.
  - repeat split; [done| |done]. intros rec Hr. by apply elem_of_nil in Hr.
  - destruct (IH (<[r_id rec := rec]> m0)) as (H1 & H2 & H3).
    { intros k v. destruct (decide (r_id rec = k)) as [<-|Hne].
      - rewrite lookup_insert_eq. by intros [= <-].
      - rewrite lookup_insert_ne by done. apply H0. }
    split; [done|]. split.
    + intros rec' Hr. apply elem_of_cons in Hr as [->|Hr]; [|by apply H2].
      apply H3. rewrite lookup_insert_eq. by eexists.
    + intros k Hk. apply H3. destruct (decide (r_id rec = k)) as [<-|Hne].
      * rewrite lookup_insert_eq. by eexists.
      * by rewrite lookup_insert_ne.
Qed.

Lemma step_cards q rec k records :
  card_ok (r_card rec) -> Forall (fun r => card_ok (r_card r)) records ->
  match step q rec k records with
  | inl out | inr out => Forall (fun r => card_ok (r_card r)) out
  end.
Proof.
  intros Hrec Hrecs. unfold step. destruct k; [|done].
  assert (Forall (fun r => card_ok (r_card r)) (records ++ [rec])) as H.
  { apply Forall_app. split; [done|]. apply Forall_cons. split; [done|apply Forall_nil_2]. }
  by destruct (limit q <=? _).
Qed.

Lemma all_time_loop_cards q infos tail acc out :
  Forall (fun r => card_ok (r_card r)) acc ->
  all_time_loop q infos tail acc = Ok out ->
  Forall (fun r => card_ok (r_card r)) out.
Proof.
  revert acc. induction infos as [|info infos IH]; intros acc Hacc; simpl.
  - destruct tail; [done|]. by intros [= <-].
  - destruct (build_dataset_record info) as [rec|] eqn:Hb; simpl; [|done].
    pose proof (build_dataset_record_card _ _ Hb) as Hc.
    rewrite (passes_ok _ _ Hc). simpl.
    pose proof (step_cards q rec (keep q rec) acc Hc Hacc) as Hs.
    destruct (step q rec (keep q rec) acc) as [final|records'].
    + by intros [= <-].
    + by apply IH.
Qed.

Lemma trending_loop_cards hub q ids acc c out c' :
  Forall (fun r => card_ok (r_card r)) acc ->
  trending_loop hub q ids acc c = (Ok out, c') ->
  Forall (fun r => card_ok (r_card r)) out.
Proof.
  revert acc c. induction ids as [|rid ids IH]; intros acc c Hacc; simpl.
  - by intros [= <- _].
  - destruct (cached_dataset_info hub rid c) as [[info|e] c1]; [|by apply IH].
    destruct (build_dataset_record info) as [rec|] eqn:Hb; simpl; [|done].
    pose proof (build_dataset_record_card _ _ Hb) as Hc.
    rewrite (passes_ok _ _ Hc). simpl.
    pose proof (step_cards q rec (keep q rec) acc Hc Hacc) as Hs.
    destruct (step q rec (keep q rec) acc) as [final|records'].
    + by intros [= <- _].
    + by apply IH.
Qed.

Lemma list_all_time_cards hub q backend_limit out :
  list_all_time hub q backend_limit = Ok out ->
  Forall (fun r => card_ok (r_card r)) out.
Proof.
  unfold list_all_time. destruct (list_datasets hub backend_limit) as [infos tail].
  by apply all_time_loop_cards.
Qed.

Lemma list_trending_cards hub period q c out c' :
  list_trending hub period q c = (Ok out, c') ->
  Forall (fun r => card_ok (r_card r)) out.
Proof.
  unfold list_trending. destruct (trending hub period) as [data|e].
  - destruct (iterate data ≫= _) as [ids|e]; [|done].
    by apply trending_loop_cards.
  - by intros [= <- _].
Qed.

Lemma current_records_from (records : list Rec) (m0 : gmap string Rec) k v :
  foldl (fun m rec => <[r_id rec := rec]> m) m0 records !! k = Some v ->
  v ∈ records \/ m0 !! k = Some v.
Proof.
  revert m0. induction records as [|rec records IH]; intros m0; simpl; [by right|].
  intros H. apply IH in H as [H|H]; [left; by right|].
  destruct (decide (r_id rec = k)) as [<-|Hne].
  - rewrite lookup_insert_eq in H. injection H as <-. left. left.
  - rewrite lookup_insert_ne in H by done. by right.
Qed.

Lemma listing_cards hub metric_val q c records c' :
  listing hub metric_val q c = (Ok records, c') ->
  Forall (fun r => card_ok (r_card r)) records.
Proof.
  unfold listing. destruct (String.eqb metric_val "All-time downloads").
  - intros [= Hf _]. by eapply list_all_time_cards.
  - destruct (String.eqb metric_val "Trending (week)"); by eapply list_trending_cards.
Qed.

(** X15: a refresh shows what its listing returned. When
    [list_all_time] or [list_trending], whichever the metric asks for,
    returns records, [refresh] goes through: the box then holds one
    button per record, in the order of the records, and the tooltip of
    each is the id of its record; the status line counts the records; the
    current records are records of this listing, each under its id, and
    hold one for every id listed, so a click on any button finds its
    record there. The selection fields are not reset: they still name the
    button and the position selected before the refresh. *)
Theorem refresh_buttons_have_records (hub : Hub) (metric_val : string) (q : Query)
    (bb : BB.ButtonBox) (ui : UI) (records : list Rec) (c : LRU.t Info) :
  listing hub metric_val q (info_cache ui) = (Ok records, c) ->
  exists bb' ui',
    refresh hub metric_val q (bb, ui) = (Ok (), (bb', ui')) /\
    status ui' = Showing (length records) metric_val /\
    info_cache ui' = c /\
    (fun b => BB.tooltip <$> BB.store bb' !! b) <$> BB.buttons bb'
      = (fun rec => Some (r_id rec)) <$> records /\
    BB.children bb' = BB.buttons bb' /\
    BB.position bb' = BB.position bb /\ BB.button bb' = BB.button bb /\
    (forall k rec, _current_records ui' !! k = Some rec -> rec ∈ records /\ r_id rec = k) /\
    (forall rec, rec ∈ records -> is_Some (_current_records ui' !! r_id rec)) /\
    (forall b, b ∈ BB.buttons bb' ->
       exists btn rec,
         BB.store bb' !! b = Some btn /\
         _current_records ui' !! BB.tooltip btn = Some rec /\
         r_id rec = BB.tooltip btn).
Proof.
  intros Hlist. pose proof (listing_cards _ _ _ _ _ _ Hlist) as Hcards.
  unfold refresh. unfold listing in Hlist.
  set (ui1 := set_details (Markup "") (set_status Loading ui)).
  change (info_cache ui1) with (info_cache ui). rewrite Hlist.
  unfold populate_buttons.
  destruct (populate_loop_spec records (BB.with_lists [] [] bb) Hcards)
    as (bb1 & Hloop & Hb & Hch & _ & Hp & Hbut & _ & Hnew).
  rewrite Hloop. eexists _, _. split; [reflexivity|]. simpl in *.
  destruct (current_records_ids records ∅) as (Hid & Hin & _).
  { intros k v Hk. by rewrite lookup_empty in Hk. }
  split; [done|]. split; [done|].
  split; [|split; [congruence|split; [done|split; [done|split; [|split; [done|]]]]]].
  - apply list_eq. intros j. rewrite !list_lookup_fmap, Hb.
    destruct (records !! j) as [rec|] eqn:Hj; simpl.
    + rewrite lookup_seq_lt by (by eapply lookup_lt_Some). simpl. f_equal.
      by apply Hnew.
    + rewrite lookup_seq_ge; [done|]. by apply lookup_ge_None.
  - intros k rec Hk. split; [|by eapply Hid].
    apply current_records_from in Hk as [?|Hk]; [done|].
    by rewrite lookup_empty in Hk.
  - intros b Hb'. rewrite Hb in Hb'.
    apply list_elem_of_lookup in Hb' as [j Hj].
    apply lookup_seq in Hj as [-> Hj].
    destruct (lookup_lt_is_Some_2 records j Hj) as [rec Hrec].
    specialize (Hnew j rec Hrec).
    destruct (BB.store bb1 !! (BB.next_ref bb + j)%nat) as [btn|]; [|done].
    injection Hnew as Ht.
    destruct (Hin rec) as [rec' Hrec']; [by eapply list_elem_of_lookup_2|].
    exists btn, rec'. split; [done|]. rewrite Ht. split; [done|]. by eapply Hid.
Qed.

(** The hub lists a and b and the box showed two buttons with the
    second selected: the refresh shows the buttons of a and b, and the
    click on the first of them then shows the record of a out of the
    current records, with the hub down. *)
Lemma refresh_buttons_have_records_witness :
  let st := (refresh (hub5 [bare "a"; bare "b"]) "All-time downloads" query0
               (box_ab, ui5_0)).2 in
  BB.button st.1 = Some 1%nat /\
  (fun b => BB.tooltip <$> BB.store st.1 !! b) <$> BB.buttons st.1 = [Some "a"; Some "b"] /\
  status st.2 = Showing 2 "All-time downloads" /\
  r_id <$> match details (click hub5_down 2%nat st).2.2 with
           | Rendered rec => Some rec
           | _ => None
           end = Some "a".
Proof.
  intros st.
  eassert (listing (hub5 [bare "a"; bare "b"]) "All-time downloads" query0
             (info_cache ui5_0) = (Ok _, _)) as Hlist by (vm_compute; reflexivity).
  destruct (refresh_buttons_have_records (hub5 [bare "a"; bare "b"])
              "All-time downloads" query0 box_ab ui5_0 _ _ Hlist)
    as (bb' & ui' & Hr & Hstatus & _ & Htips & _ & _ & Hbut & _).
  assert (st = (bb', ui')) as Hst by (subst st; by rewrite Hr).
  split; [rewrite Hst; cbn [fst snd]; rewrite Hbut; vm_compute; reflexivity|].
  split; [rewrite Hst; cbn [fst snd]; rewrite Htips; vm_compute; reflexivity|].
  split; [rewrite Hst; cbn [fst snd]; rewrite Hstatus; vm_compute; reflexivity|].
  vm_compute. reflexivity.
Defined.

Lemma click_current_record_witness :
  let st := (refresh (hub5 [bare "a"; bare "b"]) "All-time downloads" query0
               (box_ab, ui5_0)).2 in
  BB.button (click hub5_down 3%nat st).2.1 = Some 3%nat /\
  info_cache (click hub5_down 3%nat st).2.2 = [].
Proof.
  intros st.
  eassert (BB.store st.1 !! 3%nat = Some _) as Hbtn by (vm_compute; reflexivity).
  eassert (_current_records st.2 !! "b" = Some _) as Hcur by (vm_compute; reflexivity).
  assert (3%nat ∈ BB.buttons st.1) as Hin by (vm_compute; right; left).
  destruct (click_current_record hub5_down 3%nat st.1 st.2 _ _ Hin Hbtn Hcur)
    as (bb1 & Hsel & Hclick).
  replace st with (st.1, st.2) by (by destruct st).
  rewrite Hclick. simpl. split; [|vm_compute; reflexivity].
  vm_compute in Hsel. injection Hsel as <-. reflexivity.
Defined.

End Gpt5More.

(** ** [DatasetManager] of the sonnet4 file *)

Section ManagerMore.
Import Sonnet4 Sample.

(** The query cache at work: a list fetched at time 0 is served again
    at time 3599 from a hub that is down, and fetched anew at time 3600. *)
Lemma popular_cache_ttl_witness :
  let first := get_popular_datasets (hub_ab 100 500) 0 "all" 2 "downloads" init in
  get_popular_datasets hub_down 3599 "all" 2 "downloads" first.2 = first /\
  exists rest,
    calls (get_popular_datasets hub_down 3600 "all" 2 "downloads" first.2).2
    = calls first.2 ++ CallList (Some 6) :: rest.
Proof.
  intros first.
  destruct (popular_cache_ttl (hub_ab 100 500) 0 "all" 2 "downloads" init first.1 first.2)
    as (_ & Hin & Hout).
  - vm_compute. reflexivity.
  - vm_compute. reflexivity.
  - split.
    + rewrite (Hin hub_down 3599) by (vm_compute; reflexivity). by destruct first.
    + destruct (Hout hub_down 3600) as [Hcalls _]; [vm_compute; discriminate|].
      exact Hcalls.
Defined.

Lemma existsb_Exists {A} (f : A -> bool) (l : list A) :
  existsb f l = true <-> Exists (fun a => f a = true) l.
Proof.
  induction l as [|a l IH]; simpl.
  - split; [done|]. intros H. by apply Exists_nil in H.
  - rewrite orb_true_iff, Exists_cons, IH. done.
Qed.

Lemma forallb_false_Exists {A} (f : A -> bool) (l : list A) :
  forallb f l = false <-> Exists (fun a => f a = false) l.
Proof.
  induction l as [|a l IH]; simpl.
  - split; [done|]. intros H. by apply Exists_nil in H.
  - rewrite andb_false_iff, Exists_cons, IH. done.
Qed.

(** When the sort over dates raises: on two items or more, where the
    keys mix naive and aware dates or one of them is [None]. *)
Lemma list_sort_date_raises {A} (key : A -> option datetime) (l : list A) :
  (forall e, list_sort_date key true l = Raise e -> e = TypeError) /\
  (list_sort_date key true l = Raise TypeError <->
   (2 <= length l)%nat /\
   ((Exists (fun a => is_naive (key a) = true) l /\
     Exists (fun a => is_aware (key a) = true) l) \/
    Exists (fun a => key a = None) l)).
Proof.
  unfold list_sort_date, list_sort_opt.
  destruct (1 <? length l)%nat eqn:Hlen; cbn [andb].
  - apply Nat.ltb_lt in Hlen.
    destruct (existsb (fun a => is_naive (key a)) l) eqn:Hn; cbn [andb].
    + destruct (existsb (fun a => is_aware (key a)) l) eqn:Ha.
      * apply existsb_Exists in Hn, Ha.
        split; [by intros e [= <-]|]. split; [intros _|done].
        split; [lia|]. by left.
      * destruct (forallb _ l) eqn:Hs; cbn [negb].
        -- split; [done|]. split; [done|]. intros (_ & [[_ H]|H]).
           ++ apply existsb_Exists in H. congruence.
           ++ apply Exists_exists in H as (a & Hin & Hnone).
              rewrite forallb_forall in Hs. apply list_elem_of_In, Hs in Hin.
              apply bool_decide_eq_true in Hin. rewrite Hnone in Hin.
              by destruct Hin.
        -- split; [by intros e [= <-]|]. split; [intros _|done].
           split; [lia|]. right.
           apply forallb_false_Exists in Hs.
           eapply Exists_impl; [exact Hs|]. intros a Hf.
           apply bool_decide_eq_false in Hf.
           destruct (key a) as [d|]; [|done]. destruct Hf. by eexists.
    + destruct (forallb _ l) eqn:Hs; cbn [negb].
      * split; [done|]. split; [done|]. intros (_ & [[H _]|H]).
        -- apply existsb_Exists in H. congruence.
        -- apply Exists_exists in H as (a & Hin & Hnone).
           rewrite forallb_forall in Hs. apply list_elem_of_In, Hs in Hin.
           apply bool_decide_eq_true in Hin. rewrite Hnone in Hin.
           by destruct Hin.
      * split; [by intros e [= <-]|]. split; [intros _|done].
        split; [lia|]. right.
        apply forallb_false_Exists in Hs.
        eapply Exists_impl; [exact Hs|]. intros a Hf.
        apply bool_decide_eq_false in Hf.
        destruct (key a) as [d|]; [|done]. destruct Hf. by eexists.
  - apply Nat.ltb_ge in Hlen. split; [done|]. split; [done|]. intros [? _]. lia.
Qed.

Lemma time_filter_all now datasets : time_filter now "all" datasets = Ok datasets.
Proof. reflexivity. Qed.

(** X19: when the sort of [_apply_filters] raises. Without a time
    window ([time_period = 'all']) the only exception is [TypeError], and
    it is raised exactly when there are two items or more and either
    [sort_by] is 'updated' and the update dates mix naive and aware values
    (an item whose date the hub did not give, among dated ones), or
    [sort_by] is 'created' and the creation dates mix these kinds or one of
    them is [None]. Sorting by a counter, or by a key the code does not
    know, always returns. *)
Theorem apply_filters_raises_iff (now : Z) (datasets : list DatasetStats)
    (sort_by : string) :
  (forall e, _apply_filters now datasets "all" sort_by = Raise e -> e = TypeError) /\
  (_apply_filters now datasets "all" sort_by = Raise TypeError <->
   (2 <= length datasets)%nat /\
   ((sort_by = "updated" /\
     Exists (fun d => is_naive (Some (updated_at d)) = true) datasets /\
     Exists (fun d => is_aware (Some (updated_at d)) = true) datasets) \/
    (sort_by = "created" /\
     ((Exists (fun d => is_naive (created_at d) = true) datasets /\
       Exists (fun d => is_aware (created_at d) = true) datasets) \/
      Exists (fun d => created_at d = None) datasets)))).
Proof.
  unfold _apply_filters. rewrite time_filter_all. cbn [mbind result_bind].
  destruct (String.eqb_spec sort_by "downloads") as [->|Hd].
  { split; [done|]. split; [done|]. by intros (_ & [[? _]|[? _]]). }
  destruct (String.eqb_spec sort_by "likes") as [->|Hl].
  { split; [done|]. split; [done|]. by intros (_ & [[? _]|[? _]]). }
  destruct (String.eqb_spec sort_by "updated") as [->|Hu].
  { destruct (list_sort_date_raises (fun d => Some (updated_at d)) datasets) as [He Hiff].
    split; [done|]. rewrite Hiff. split.
    - intros (Hlen & [[Hn Ha]|Hnone]).
      + split; [done|]. left. by repeat split.
      + apply Exists_exists in Hnone as (d & _ & ?). done.
    - intros (Hlen & [(_ & Hn & Ha)|[? _]]); [|done].
      split; [done|]. by left. }
  destruct (String.eqb_spec sort_by "created") as [->|Hc].
  { destruct (list_sort_date_raises created_at datasets) as [He Hiff].
    split; [done|]. rewrite Hiff. split.
    - intros (Hlen & H). split; [done|]. by right.
    - intros (Hlen & [[? _]|[_ H]]); [done|]. by split. }
  split; [done|]. split; [done|]. by intros (_ & [[? _]|[? _]]).
Qed.

(** Two datasets, one without a creation date: sorting by creation
    date raises, and [get_popular_datasets] answers with the empty list;
    so does sorting by update date when the hub gave no update date for
    one of them. *)
Lemma apply_filters_raises_iff_witness :
  _apply_filters 0 [a100; undated "u"] "all" "created" = Raise TypeError /\
  _apply_filters 5 [a100; undated_update "u" 5] "all" "updated" = Raise TypeError /\
  (get_popular_datasets (hub_au (info_dated Null (Val (Aware 0)))) 0 "all" 2 "created"
     init).1 = [] /\
  (get_popular_datasets (hub_au (info_dated (Val (Aware 0)) Null)) 5 "all" 2 "updated"
     init).1 = [].
Proof.
  split; [|split; [|split; vm_compute; reflexivity]].
  - apply (apply_filters_raises_iff 0 [a100; undated "u"] "created").
    split; [simpl; lia|]. right. split; [reflexivity|]. right.
    apply Exists_cons_tl, Exists_cons_hd. reflexivity.
  - apply (apply_filters_raises_iff 5 [a100; undated_update "u" 5] "updated").
    split; [simpl; lia|]. left. split; [reflexivity|]. split.
    + apply Exists_cons_tl, Exists_cons_hd. reflexivity.
    + apply Exists_cons_hd. reflexivity.
Defined.

(** X17: the time window of [_apply_filters]. With [time_period =
    'all'] nothing is filtered: a result is a rearrangement of the input.
    With any other [time_period] the update date of each item is compared
    with a cutoff taken from [datetime.now()], which is naive: as soon as
    one item has an aware update date, as every date the hub gives is,
    [TypeError] is raised, whatever [sort_by] is. Where all the update
    dates are naive, the call does what it does on the items at or after
    the cutoff without a window: it returns unless [sort_by] is 'created',
    and what it returns holds exactly these items. The cutoff is 7, 30 or
    90 days before now for '7d', '30d' and '90d', and now itself for a
    value of [time_period] the code does not know. *)
Theorem apply_filters_window (now : Z) (datasets : list DatasetStats)
    (time_period sort_by : string) :
  (forall out, _apply_filters now datasets "all" sort_by = Ok out -> out ≡ₚ datasets) /\
  (time_period <> "all" ->
   (Exists (fun d => is_aware (Some (updated_at d)) = true) datasets ->
    _apply_filters now datasets time_period sort_by = Raise TypeError) /\
   (Forall (fun d => is_naive (Some (updated_at d)) = true) datasets ->
    _apply_filters now datasets time_period sort_by
    = _apply_filters now
        (filter (fun d => cutoff_date now time_period <= instant (updated_at d)) datasets)
        "all" sort_by /\
    (sort_by <> "created" ->
     is_ok (_apply_filters now datasets time_period sort_by) = true) /\
    (forall out, _apply_filters now datasets time_period sort_by = Ok out ->
       forall d, d ∈ out <->
         d ∈ datasets /\ cutoff_date now time_period <= instant (updated_at d)))) /\
  cutoff_date now "7d" = now - 604800 /\
  cutoff_date now "30d" = now - 2592000 /\
  cutoff_date now "90d" = now - 7776000 /\
  (time_period <> "7d" -> time_period <> "30d" -> time_period <> "90d" ->
   cutoff_date now time_period = now).
Proof.
  split; [|split].
  - intros out H. apply apply_filters_perm in H as (l & Hl & Hp).
    rewrite time_filter_all in Hl. by injection Hl as <-.
  - intros Hne. apply String.eqb_neq in Hne.
    assert (time_filter now time_period datasets
            = since (cutoff_date now time_period) datasets) as Htf.
    { unfold time_filter. by rewrite Hne. }
    split.
    + intros Haware. unfold _apply_filters.
      by rewrite Htf, (since_aware _ _ Haware).
    + intros Hnaive.
      set (kept := filter (fun d => cutoff_date now time_period <= instant (updated_at d))
                     datasets).
      assert (_apply_filters now datasets time_period sort_by
              = _apply_filters now kept "all" sort_by) as Heq.
      { unfold _apply_filters.
        by rewrite Htf, (since_naive _ _ Hnaive), time_filter_all. }
      split; [done|]. split.
      * intros Hsb. rewrite Heq.
        destruct (_apply_filters now kept "all" sort_by) as [out|e] eqn:Hr; [done|].
        destruct (apply_filters_raises_iff now kept sort_by) as [He Hiff].
        pose proof (He _ Hr) as ->.
        apply Hiff in Hr as (_ & [(-> & _ & Ha)|[-> _]]); [|done].
        apply Exists_exists in Ha as (d & Hd & Ha).
        apply list_elem_of_filter in Hd as [_ Hd].
        rewrite Forall_forall in Hnaive. specialize (Hnaive _ Hd).
        by destruct (updated_at d).
      * intros out Hout d. rewrite Heq in Hout.
        apply apply_filters_perm in Hout as (l & Hl & Hp).
        rewrite time_filter_all in Hl. injection Hl as <-.
        rewrite Hp. subst kept. rewrite list_elem_of_filter. tauto.
  - repeat split; try reflexivity.
    intros H7 H30 H90. unfold cutoff_date.
    apply String.eqb_neq in H7, H30, H90. by rewrite H7, H30, H90.
Qed.

(** The hub dates a and b: the window of the last seven days raises
    on them, and [get_popular_datasets] answers with the empty list
    where it lists both without a window. A period the code does not
    know, '1y', keeps of two items dated by [datetime.now()] only the one
    that is not older than the present instant. *)
Lemma apply_filters_window_witness :
  _apply_filters 0 [a100; b500] "7d" "downloads" = Raise TypeError /\
  (get_popular_datasets (hub_ab 100 500) 0 "7d" 2 "downloads" init).1 = [] /\
  length (get_popular_datasets (hub_ab 100 500) 0 "all" 2 "downloads" init).1 = 2%nat /\
  _apply_filters 100 [undated_update "old" 99; undated_update "new" 100] "1y" "downloads"
  = Ok [undated_update "new" 100].
Proof.
  destruct (apply_filters_window 0 [a100; b500] "7d" "downloads") as (_ & H & _).
  destruct H as [Hraise _]; [discriminate|].
  split; [apply Hraise, Exists_cons_hd; reflexivity|].
  split; [vm_compute; reflexivity|].
  split; vm_compute; reflexivity.
Defined.

Lemma lru_find_take {V} (k : string) (n : nat) (c : LRU.t V) (v : V) :
  LRU.find k (take n c) = Some v -> LRU.find k c = Some v.
Proof.
  revert n. induction c as [|[k' v'] c IH]; intros [|n]; simpl; try done.
  destruct (String.eqb k k'); [done|]. apply IH.
Qed.

Lemma lru_find_take_S {V} (k : string) (n : nat) (c : LRU.t V) (v : V) :
  LRU.find k (take n c) = Some v -> LRU.find k (take (S n) c) = Some v.
Proof.
  revert n. induction c as [|[k' v'] c IH]; intros [|n]; try done.
  cbn [take LRU.find]. destruct (String.eqb k k'); [done|]. apply IH.
Qed.

(** Forgetting another key does not push an entry back. *)
Lemma lru_forget_within {V} (k i : string) (n : nat) (c : LRU.t V) (v : V) :
  k <> i ->
  LRU.find i (take n c) = Some v -> LRU.find i (take n (LRU.forget k c)) = Some v.
Proof.
  intros Hne. revert n. induction c as [|[k0 v0] c IH]; intros [|n]; try done.
  cbn [take LRU.find LRU.forget].
  destruct (String.eqb_spec k k0) as [<-|Hk].
  - apply String.eqb_neq in Hne. rewrite String.eqb_sym, Hne.
    intros H. by apply lru_find_take_S, IH.
  - cbn [take LRU.find]. destruct (String.eqb i k0); [done|]. apply IH.
Qed.

Lemma get_dataset_stats_body_memo hub now i m :
  stats_memo (get_dataset_stats_body hub now i m).2 = stats_memo m.
Proof.
  unfold get_dataset_stats_body, fetch_stats.
  destruct (_stats_cache m !! i) as [[t s]|].
  - destruct (now - t <? cache_timeout m); [done|].
    by destruct (dataset_info hub i ≫= make_stats now i).
  - by destruct (dataset_info hub i ≫= make_stats now i).
Qed.

(** A lookup of another id moves an entry of the memo table back by
    one place at most. *)
Lemma get_dataset_stats_keeps hub now k m i v n :
  k <> i -> (S n < 100)%nat ->
  LRU.find i (take (S n) (stats_memo m)) = Some v ->
  LRU.find i (take (S (S n)) (stats_memo (get_dataset_stats hub now k m).2)) = Some v.
Proof.
  intros Hne Hn Hin. assert (String.eqb i k = false) as Hik.
  { apply String.eqb_neq. congruence. }
  unfold get_dataset_stats.
  destruct (LRU.find k (stats_memo m)) as [r|].
  - cbn [snd set_stats_memo stats_memo]. unfold LRU.touch.
    cbn [take LRU.find]. rewrite Hik. by apply lru_forget_within.
  - pose proof (get_dataset_stats_body_memo hub now k m) as Hmemo.
    destruct (get_dataset_stats_body hub now k m) as [r m'].
    cbn [snd set_stats_memo stats_memo] in *. rewrite Hmemo. unfold LRU.add.
    rewrite take_take. replace (S (S n) `min` 100)%nat with (S (S n)) by lia.
    cbn [take LRU.find]. rewrite Hik. by apply lru_forget_within.
Qed.

Lemma lookups_keep ks m i v n :
  Forall (fun k => k.2 <> i) ks -> (n + length ks < 100)%nat ->
  LRU.find i (take (S n) (stats_memo m)) = Some v ->
  LRU.find i (stats_memo (lookups ks m)) = Some v.
Proof.
  intros Hks. revert m n. induction Hks as [|k ks Hk _ IH]; intros m n Hlen Hin.
  - by eapply lru_find_take.
  - cbn [lookups foldl]. simpl in Hlen.
    apply (IH _ (S n)); [lia|].
    apply get_dataset_stats_keeps; [done|lia|done].
Qed.

(** X18: a failed lookup is remembered. When the detail request of
    [get_dataset_stats] raises, or the stats cannot be built, the answer
    is [None], nothing enters [_stats_cache], and the decorator stores the
    [None]: after any run of fewer than 100 lookups of other ids, by
    whatever hub and clock, a call for this id answers [None] without a
    request, whatever the hub would say by then. *)
Theorem stats_failure_is_memoized (hub hub' : Hub) (now now' : Z) (i : string)
    (m : Manager) (e : Exn) (ks : list (Hub * Z * string)) :
  LRU.find i (stats_memo m) = None ->
  _stats_cache m !! i = None ->
  dataset_info hub i ≫= make_stats now i = Raise e ->
  Forall (fun k => k.2 <> i) ks ->
  (length ks < 100)%nat ->
  let failed := get_dataset_stats hub now i m in
  let later := lookups ks failed.2 in
  failed.1 = None /\
  _stats_cache failed.2 = _stats_cache m /\
  calls failed.2 = calls m ++ [CallInfo i] /\
  (get_dataset_stats hub' now' i later).1 = None /\
  calls (get_dataset_stats hub' now' i later).2 = calls later.
Proof.
  intros Hmemo Hcache Hfail Hks Hlen failed later.
  assert (failed =
          (None, set_stats_memo (LRU.add 100 i None (stats_memo m)) (log (CallInfo i) m)))
    as Hfirst.
  { subst failed. unfold get_dataset_stats, get_dataset_stats_body, fetch_stats.
    by rewrite Hmemo, Hcache, Hfail. }
  assert (LRU.find i (stats_memo later) = Some None) as Hlater.
  { subst later. apply (lookups_keep ks _ i None 0); [done|lia|].
    rewrite Hfirst. cbn [snd set_stats_memo stats_memo]. unfold LRU.add.
    rewrite take_take. cbn [Nat.min take LRU.find]. by rewrite String.eqb_refl. }
  rewrite (get_dataset_stats_hit _ _ _ _ _ Hlater), Hfirst. done.
Qed.

(** The lookup of a fails while the hub is down. After lookups of b
    and of c the hub is back, and a is still answered with [None] and no
    request; b, which was looked up with success, is answered from the
    table too. *)
Lemma stats_failure_is_memoized_witness :
  let later := lookups [(hub_ab 100 500, 1, "b"); (hub_ab 100 500, 2, "c")]
                 (get_dataset_stats hub_down 0 "a" init).2 in
  (get_dataset_stats (hub_ab 100 500) 9 "a" later).1 = None /\
  calls (get_dataset_stats (hub_ab 100 500) 9 "a" later).2
  = [CallInfo "a"; CallInfo "b"; CallInfo "c"].
Proof.
  intros later.
  destruct (stats_failure_is_memoized hub_down (hub_ab 100 500) 0 9 "a" init
              (HubError "timeout")
              [(hub_ab 100 500, 1, "b"); (hub_ab 100 500, 2, "c")])
    as (_ & _ & _ & Hnone & Hcalls);
    [reflexivity|reflexivity|reflexivity| |simpl; lia|].
  - repeat constructor; discriminate.
  - split; [exact Hnone|]. fold later in Hcalls. rewrite Hcalls.
    vm_compute. reflexivity.
Defined.

Lemma append_cons c s1 s2 : String c s1 +:+ s2 = String c (s1 +:+ s2).
Proof. reflexivity. Qed.

Lemma append_nil s : EmptyString +:+ s = s.
Proof. reflexivity. Qed.

Lemma has_char_append c s1 s2 :
  Str.has_char c (s1 +:+ s2) = Str.has_char c s1 || Str.has_char c s2.
Proof.
  induction s1 as [|x s1 IH]; [done|].
  rewrite append_cons. cbn -[Ascii.eqb]. by rewrite IH, orb_assoc.
Qed.

Lemma split_first_slash a n :
  Str.has_char slash a = false -> split_first (a +:+ String slash n) = a.
Proof.
  induction a as [|c a IH]; [rewrite append_nil|rewrite append_cons];
    cbn -[Ascii.eqb slash].
  - by rewrite Ascii.eqb_refl.
  - intros H. apply orb_false_iff in H as [Hc Ha].
    rewrite Ascii.eqb_sym, Hc. by rewrite IH.
Qed.

Lemma split_last_none s : Str.has_char slash s = false -> split_last s = s.
Proof.
  destruct s as [|c s]; [done|]. cbn -[Ascii.eqb slash]. intros H.
  apply orb_false_iff in H as [Hc Hs]. by rewrite Hs, Ascii.eqb_sym, Hc.
Qed.

Lemma split_last_slash a n :
  Str.has_char slash n = false -> split_last (a +:+ String slash n) = n.
Proof.
  intros Hn. induction a as [|c a IH]; [rewrite append_nil|rewrite append_cons];
    cbn -[Ascii.eqb slash].
  - by rewrite Hn, Ascii.eqb_refl.
  - rewrite has_char_append. cbn -[Ascii.eqb slash].
    by rewrite Ascii.eqb_refl, orb_true_r.
Qed.

(** X20: the names [get_dataset_stats] derives from an id. The url is
    the datasets address followed by the id. An id of the form
    author/name (one slash) gives that author and that name; an id without
    a slash gives the author 'unknown' and the id as the name. *)
Theorem make_stats_names (now : Z) (i : string) (info : Info) (s : DatasetStats) :
  make_stats now i info = Ok s ->
  id s = i /\
  url s = "https://huggingface.co/datasets/" +:+ i /\
  (Str.has_char slash i = false -> author s = "unknown" /\ name s = i) /\
  (forall a n, i = a +:+ String slash n ->
     Str.has_char slash a = false -> Str.has_char slash n = false ->
     author s = a /\ name s = n).
Proof.
  unfold make_stats.
  destruct (i_siblings info); cbn -[Ascii.eqb slash split_first split_last];
    [|done|]; intros [= <-]; cbn -[Ascii.eqb slash split_first split_last].
  all: split; [done|]; split; [done|]; split.
  all: try (intros H; rewrite H; split; [done|by apply split_last_none]).
  all: intros au na -> Ha Hn; rewrite has_char_append;
    cbn -[Ascii.eqb slash split_first split_last];
    rewrite Ascii.eqb_refl, orb_true_r;
    by rewrite split_first_slash, split_last_slash.
Qed.

Lemma make_stats_names_witness :
  exists s, make_stats 0 "squad/v2" (info 5) = Ok s /\
            author s = "squad" /\ name s = "v2" /\
            url s = "https://huggingface.co/datasets/squad/v2".
Proof.
  eassert (make_stats 0 "squad/v2" (info 5) = Ok _) as H by (vm_compute; reflexivity).
  destruct (make_stats_names _ _ _ _ H) as (_ & Hu & _ & Hn).
  destruct (Hn "squad" "v2" eq_refl eq_refl eq_refl) as [Ha Hn'].
  eexists. split; [exact H|]. split; [exact Ha|]. split; [exact Hn'|exact Hu].
Defined.

Lemma lru_find_forget_ne {V} (k i : string) (c : LRU.t V) :
  k <> i -> LRU.find k (LRU.forget i c) = LRU.find k c.
Proof.
  intros Hne. induction c as [|[k' v] c IH]; [done|]. simpl.
  destruct (String.eqb i k') eqn:E.
  - apply String.eqb_eq in E as <-.
    apply String.eqb_neq in Hne. by rewrite Hne.
  - simpl. by rewrite IH.
Qed.

Lemma lru_find_touch_hit {V} (k i : string) (v : V) (c : LRU.t V) :
  LRU.find i c = Some v -> LRU.find k (LRU.touch i v c) = LRU.find k c.
Proof.
  intros Hi. unfold LRU.touch. simpl.
  destruct (String.eqb k i) eqn:E.
  - apply String.eqb_eq in E as ->. by rewrite Hi.
  - apply String.eqb_neq in E. by apply lru_find_forget_ne.
Qed.

Lemma memoized_nil m : memoized m [] = [].
Proof. reflexivity. Qed.

Lemma memoized_cons m i ids :
  memoized m (i :: ids)
  = match mjoin (LRU.find i (stats_memo m)) with
    | Some s => s :: memoized m ids
    | None => memoized m ids
    end.
Proof. reflexivity. Qed.

Lemma memoized_touch m i r ids :
  LRU.find i (stats_memo m) = Some r ->
  memoized (set_stats_memo (LRU.touch i r (stats_memo m)) m) ids = memoized m ids.
Proof.
  intros Hr. induction ids as [|k ids IH]; [done|].
  rewrite !memoized_cons, IH. cbn [set_stats_memo stats_memo].
  by rewrite (lru_find_touch_hit _ _ _ _ Hr).
Qed.

(** The loop over ids that begin with memoized ones: it sends nothing
    while it is among them, and it does not get past them when they hold
    enough stats to reach the limit. *)
Lemma stats_loop_memoized hub now limit pre rest tail acc m :
  (forall i, i ∈ pre -> is_Some (LRU.find i (stats_memo m))) ->
  rest = [] \/ limit <= Z.of_nat (length acc + length (memoized m pre)) ->
  calls (stats_loop hub now limit (pre ++ rest) tail acc m).2 = calls m /\
  forall out, (stats_loop hub now limit (pre ++ rest) tail acc m).1 = Ok out ->
    out ⊆ acc ++ memoized m pre.
Proof.
  revert acc m. induction pre as [|i pre IH]; intros acc m Hall Hstop.
  - rewrite memoized_nil in *. cbn [app] in *. rewrite app_nil_r.
    destruct Hstop as [->|Hlim].
    + cbn [stats_loop]. split; [done|]. destruct tail; [done|]. by intros out [= <-].
    + destruct rest as [|k rest]; cbn [stats_loop].
      * split; [done|]. destruct tail; [done|]. by intros out [= <-].
      * assert ((limit <=? Z.of_nat (length acc)) = true) as ->
          by (simpl in Hlim; lia).
        split; [done|]. by intros out [= <-].
  - cbn [app stats_loop].
    destruct (limit <=? Z.of_nat (length acc)).
    { split; [done|]. intros out [= <-] x Hx. apply elem_of_app. by left. }
    destruct (Hall i) as [r Hr]; [left|].
    rewrite (get_dataset_stats_hit _ _ _ _ _ Hr).
    set (m1 := set_stats_memo (LRU.touch i r (stats_memo m)) m).
    assert (memoized m (i :: pre)
            = match r with Some s => [s] | None => [] end ++ memoized m1 pre) as Hmem.
    { subst m1. rewrite memoized_touch by done.
      rewrite memoized_cons, Hr. by destruct r. }
    assert (forall k, k ∈ pre -> is_Some (LRU.find k (stats_memo m1))) as Hall1.
    { intros k Hk. subst m1. cbn [set_stats_memo stats_memo].
      rewrite (lru_find_touch_hit _ _ _ _ Hr). apply Hall. by right. }
    rewrite Hmem.
    set (acc1 := match r with Some s => acc ++ [s] | None => acc end).
    destruct (IH acc1 m1 Hall1) as [Hcalls Hout].
    { destruct Hstop as [->|Hlim]; [by left|right].
      rewrite Hmem, length_app in Hlim. subst acc1.
      destruct r; rewrite ?length_app; simpl in *; lia. }
    split; [done|]. intros out Ho. apply Hout in Ho.
    subst acc1. destruct r as [s|]; [|done].
    by rewrite <-app_assoc in Ho.
Qed.

(** X21: listing again costs one request where the lookups that the
    loop gets to are still in the memo table. When the query cache has no
    fresh entry, the listing begins with ids that are all in the table of
    [get_dataset_stats], and these are all the ids listed or hold at least
    [limit] stats, [get_popular_datasets] sends the listing request and no
    request for details: whatever it returns are stats out of the table,
    however old they are. *)
Theorem relisting_sends_one_request (hub : Hub) (now : Z) (time_period sort_by : string)
    (limit : Z) (m : Manager) (pre rest : list string) (tail : option Exn) :
  cached now (cache_key time_period limit sort_by) m = None ->
  list_datasets hub (Some (limit * 3)) = Ok (pre ++ rest, tail) ->
  (forall i, i ∈ pre -> is_Some (LRU.find i (stats_memo m))) ->
  rest = [] \/ limit <= Z.of_nat (length (memoized m pre)) ->
  calls (get_popular_datasets hub now time_period limit sort_by m).2
  = calls m ++ [CallList (Some (limit * 3))] /\
  (get_popular_datasets hub now time_period limit sort_by m).1 ⊆ memoized m pre.
Proof.
  intros Hmiss Hlist Hall Hstop. unfold get_popular_datasets, fetch_popular.
  rewrite Hmiss, Hlist.
  destruct (stats_loop_memoized hub now limit pre rest tail []
              (log (CallList (Some (limit * 3))) m) Hall) as [Hcalls Hout].
  { destruct Hstop as [->|Hlim]; [by left|right]. exact Hlim. }
  destruct (stats_loop hub now limit (pre ++ rest) tail [] _) as [[ds|e] m3];
    cbn [fst snd] in *; [|split; [done|apply list_subseteq_nil]].
  specialize (Hout ds eq_refl).
  destruct (_apply_filters now ds time_period sort_by) as [fs|e] eqn:Hf;
    cbn [fst snd set_cache calls]; (split; [done|]); [|apply list_subseteq_nil].
  etrans; [apply slice_to_subseteq|].
  etrans; [by eapply apply_filters_subseteq|]. exact Hout.
Qed.

(** The hub lists a, b and c, and the query asks for one dataset: the
    first listing looks a up and stops. Listed again at time 4000, past
    the life of the query cache, the loop gets to a only: one request
    is sent, and the download counter of time 0 is reported although the
    hub now says 999. *)
Lemma relisting_sends_one_request_witness :
  let hub' := {| list_datasets := fun _ => Ok (["a"; "b"; "c"], None);
                 dataset_info := fun _ => Ok (info 999) |} in
  let first := get_popular_datasets hub_abc 0 "all" 1 "downloads" init in
  let again := get_popular_datasets hub' 4000 "all" 1 "downloads" first.2 in
  calls first.2 = [CallList (Some 3); CallInfo "a"] /\
  calls again.2 = calls first.2 ++ [CallList (Some 3)] /\
  downloads <$> again.1 = [100].
Proof.
  intros hub' first again. split; [vm_compute; reflexivity|].
  split; [|vm_compute; reflexivity].
  apply (relisting_sends_one_request hub' 4000 "all" "downloads" 1 first.2
           ["a"] ["b"; "c"] None).
  - vm_compute. reflexivity.
  - reflexivity.
  - intros i Hi. apply list_elem_of_singleton in Hi as ->. vm_compute. by eexists.
  - right. vm_compute. discriminate.
Defined.

End ManagerMore.

Section ExplorerMore.
Import BB Qwen3 Sample.

(** X22: the date filter of the qwen3 file acts only under the sort
    keys [last_modified] and [created_at]. Under any other key, the
    default [downloads] among them, [fetch_datasets] returns what it
    returns without a date filter. *)
Theorem date_filter_needs_date_sort (hub : Hub) (now : Z) (sort_by : string) (limit : Z)
    (date_filter : option string) :
  sort_by <> "last_modified" -> sort_by <> "created_at" ->
  fetch_datasets hub now sort_by limit date_filter
  = fetch_datasets hub now sort_by limit None.
Proof.
  intros H1 H2. apply String.eqb_neq in H1, H2. unfold fetch_datasets.
  destruct (list_datasets hub sort_by limit) as [g|e]; [|done]. simpl.
  destruct (materialise g) as [l|e]; [|done]. simpl.
  destruct date_filter as [df|]; [|done].
  by rewrite H1, H2, andb_false_r.
Qed.

Lemma date_filter_needs_date_sort_witness :
  fetch_datasets (hubq [dsq_new; dsq_old; dsq_undated]) 2000000 "downloads" 50 (Some "week")
  = Ok [dsq_new; dsq_old; dsq_undated].
Proof.
  rewrite (date_filter_needs_date_sort (hubq [dsq_new; dsq_old; dsq_undated])
             2000000 "downloads" 50 (Some "week")) by discriminate.
  reflexivity.
Defined.

Lemma cutoff_date_nonempty now df c : cutoff_date now df = Some c -> String.eqb df "" = false.
Proof.
  intros H. destruct (String.eqb df "") eqn:E; [|done].
  apply String.eqb_eq in E as ->. discriminate H.
Qed.

(** X23: the window of the date filter. Under a date sort key and a
    filter with a cut-off, [fetch_datasets] keeps, in the order of the
    listing, exactly the datasets whose date of that key is strictly later
    than the cut-off; a dataset without that date is dropped. *)
Theorem fetch_datasets_window (hub : Hub) (now : Z) (sort_by : string) (limit : Z)
    (df : string) (cutoff : Z) (items : list Info) :
  sort_by = "last_modified" \/ sort_by = "created_at" ->
  cutoff_date now df = Some cutoff ->
  list_datasets hub sort_by limit = Ok (items, None) ->
  exists l,
    fetch_datasets hub now sort_by limit (Some df) = Ok l /\
    l `sublist_of` items /\
    forall ds, ds ∈ l <->
      ds ∈ items /\ exists t, date_attr sort_by ds = Some t /\ cutoff < t.
Proof.
  intros Hsort Hcut Hlist. unfold fetch_datasets. rewrite Hlist. simpl.
  rewrite (cutoff_date_nonempty _ _ _ Hcut), Hcut.
  assert (String.eqb sort_by "last_modified" || String.eqb sort_by "created_at" = true)
    as -> by (destruct Hsort as [-> | ->]; reflexivity).
  simpl. eexists. split; [reflexivity|]. split.
  - clear. induction items as [|x l IH]; simpl; [constructor|].
    destruct (match _ with Some _ => _ | None => _ end);
      [by apply sublist_skip|by apply sublist_cons].
  - intros ds. rewrite list_elem_of_In, filter_In, <-list_elem_of_In.
    unfold date_attr.
    destruct (String.eqb sort_by "last_modified").
    + destruct (last_modified ds) as [t|].
      * rewrite bool_decide_eq_true. split.
        -- intros [? ?]. split; [done|]. by exists t.
        -- intros [? (t' & [= <-] & ?)]. done.
      * split; [by intros [_ ?]|by intros [_ (t & ? & _)]].
    + destruct (created_at ds) as [t|].
      * rewrite bool_decide_eq_true. split.
        -- intros [? ?]. split; [done|]. by exists t.
        -- intros [? (t' & [= <-] & ?)]. done.
      * split; [by intros [_ ?]|by intros [_ (t & ? & _)]].
Qed.

Lemma fetch_datasets_window_witness :
  fetch_datasets (hubq [dsq_new; dsq_old; dsq_undated]) 2000000 "created_at" 50 (Some "week")
  = Ok [dsq_new].
Proof.
  destruct (fetch_datasets_window (hubq [dsq_new; dsq_old; dsq_undated]) 2000000
              "created_at" 50 "week" (2000000 - 7 * 86400)
              [dsq_new; dsq_old; dsq_undated])
    as (l & Hl & _); [by right|reflexivity|reflexivity|].
  vm_compute. reflexivity.
Defined.

Lemma append_all_spec (datasets : list Info) (bb : ButtonBox) :
  buttons (append_all datasets bb) = buttons bb ++ seq (next_ref bb) (length datasets) /\
  children (append_all datasets bb) = children bb ++ seq (next_ref bb) (length datasets) /\
  position (append_all datasets bb) = position bb /\
  button (append_all datasets bb) = button bb /\
  forall j ds, datasets !! j = Some ds ->
    store (append_all datasets bb) !! (next_ref bb + j)%nat
    = Some (new_button (maxchar bb) (id ds)).
Proof.
  assert (forall datasets bb,
    buttons (append_all datasets bb) = buttons bb ++ seq (next_ref bb) (length datasets) /\
    children (append_all datasets bb) = children bb ++ seq (next_ref bb) (length datasets) /\
    position (append_all datasets bb) = position bb /\
    button (append_all datasets bb) = button bb /\
    maxchar (append_all datasets bb) = maxchar bb /\
    (forall r, (r < next_ref bb)%nat -> store (append_all datasets bb) !! r = store bb !! r) /\
    forall j ds, datasets !! j = Some ds ->
      store (append_all datasets bb) !! (next_ref bb + j)%nat
      = Some (new_button (maxchar bb) (id ds))) as H.
  { clear. intros datasets. induction datasets as [|d l IH]; intros bb.
    - simpl. rewrite !app_nil_r. repeat split; done.
    - cbn [append_all]. unfold append. cbn [fst snd].
      match goal with
      | |- context [append_all l ?x] => set (bb2 := x)
      end.
      destruct (IH bb2) as (Hb & Hc & Hp & Hbu & Hm & Hold & Hnew).
      subst bb2. simpl in *.
      split; [by rewrite Hb, <-app_assoc|].
      split; [by rewrite Hc, <-app_assoc|].
      do 3 (split; [done|]). split.
      + intros r Hr. rewrite Hold by lia. by rewrite lookup_insert_ne by lia.
      + intros [|j] ds Hj; simpl in Hj.
        * injection Hj as <-. rewrite Nat.add_0_r, Hold by lia.
          by rewrite lookup_insert_eq.
        * replace (next_ref bb + S j)%nat with (S (next_ref bb + j)) by lia.
          by apply Hnew. }
  destruct (H datasets bb) as (? & ? & ? & ? & _ & _ & ?). done.
Qed.

(** X24: what [update_datasets] leaves behind. After a listing that
    succeeds the box holds one button per dataset, in the order of the
    listing, with the id as tooltip and its shortened form as label, no
    colour and no two buttons alike; the box shows these buttons, nothing
    is selected, and the output area counts them. After a listing that
    fails the box is as it was, the earlier buttons and selection
    included, and the output area shows the error. *)
Theorem update_datasets_outcome (hub : Hub) (now : Z) (sort_by date_filter : option string)
    (limit : option Z) (bb : ButtonBox) (ui : UI) :
  (forall datasets,
     fetch_datasets hub now (sort_or sort_by ui) (limit_or limit ui)
       (date_filter_or date_filter ui) = Ok datasets ->
     let st := update_datasets hub now sort_by date_filter limit (bb, ui) in
     output st.2 = ShowingDatasets (length datasets) /\
     length (buttons st.1) = length datasets /\
     NoDup (buttons st.1) /\
     synced st.1 /\
     button st.1 = None /\ position st.1 = -1 /\
     forall j ds, datasets !! j = Some ds ->
       exists r, buttons st.1 !! j = Some r /\
                 store st.1 !! r = Some (new_button (maxchar bb) (id ds))) /\
  (forall e,
     fetch_datasets hub now (sort_or sort_by ui) (limit_or limit ui)
       (date_filter_or date_filter ui) = Raise e ->
     update_datasets hub now sort_by date_filter limit (bb, ui)
     = (bb, set_output (ErrorFetchingDatasets e) ui)).
Proof.
  split.
  - intros datasets Hfetch st. subst st.
    unfold update_datasets, sort_or, limit_or, date_filter_or in *. rewrite Hfetch.
    cbn [fst snd].
    destruct (append_all_spec datasets (with_selection (-1) None (with_lists [] [] bb)))
      as (Hb & Hc & Hp & Hbu & Hnew).
    cbn [with_selection with_lists buttons children position button next_ref maxchar
         app] in *.
    split; [done|]. split; [by rewrite Hb, length_seq|].
    split; [rewrite Hb; apply NoDup_seq|].
    split; [unfold synced; by rewrite Hb, Hc|].
    do 2 (split; [done|]).
    intros j ds Hj. exists (next_ref bb + j)%nat. split; [|by apply Hnew].
    rewrite Hb. apply lookup_seq. split; [done|]. by eapply lookup_lt_Some.
  - intros e Hfetch.
    unfold update_datasets, sort_or, limit_or, date_filter_or in *. by rewrite Hfetch.
Qed.

(** The box shows a and b with b selected. Sorting by creation date
    with the filter of the last week lists one dataset: the box then
    holds the one button of that dataset and no selection. When the hub
    is out of reach the box keeps a and b. *)
Lemma update_datasets_outcome_witness :
  let st := update_datasets (hubq [dsq_new; dsq_old; dsq_undated]) 2000000
              (Some "created_at") (Some "week") None (box_ab, uiq0) in
  (output st.2 = ShowingDatasets 1 /\
   (fun r => tooltip <$> store st.1 !! r) <$> buttons st.1 = [Some "new"] /\
   button st.1 = None) /\
  update_datasets {| list_datasets := fun _ _ => Raise (HubError "timeout") |} 2000000
    None None None (box_ab, uiq0)
  = (box_ab, set_output (ErrorFetchingDatasets (HubError "timeout")) uiq0).
Proof.
  intros st. split.
  - destruct (update_datasets_outcome (hubq [dsq_new; dsq_old; dsq_undated]) 2000000
                (Some "created_at") (Some "week") None box_ab uiq0) as [H _].
    destruct (H [dsq_new]) as (Ho & _ & _ & _ & Hb & _); [vm_compute; reflexivity|].
    split; [exact Ho|]. split; [vm_compute; reflexivity|exact Hb].
  - destruct (update_datasets_outcome
                {| list_datasets := fun _ _ => Raise (HubError "timeout") |} 2000000
                None None None box_ab uiq0) as [_ H].
    apply H. reflexivity.
Defined.

(** X25: a click on a listed button in the qwen3 file never raises:
    whatever goes wrong while the details are fetched or laid out ends up
    in the output area. When the new listing, taken with the sort key and
    the limit of the widgets and no date filter, has a dataset with the
    id of the button, the first such dataset is shown if it has both
    download counters, and a [TypeError] is reported in the output area if
    one of them is [None]; when the listing fails, its error is reported
    there. In each case the clicked button is selected. *)
Theorem click_shows_details (hub : Hub) (now : Z) (b : nat) (bb : ButtonBox) (ui : UI)
    (btn : Button) :
  b ∈ buttons bb ->
  store bb !! b = Some btn ->
  let st := click hub now b (bb, ui) in
  st.1 = Ok () /\ button st.2.1 = Some b /\
  (forall e,
     fetch_datasets hub now (sort_value ui) (limit_value ui) None = Raise e ->
     output st.2.2 = ErrorFetchingDetails e) /\
  (forall datasets ds,
     fetch_datasets hub now (sort_value ui) (limit_value ui) None = Ok datasets ->
     List.find (fun d => String.eqb (id d) (tooltip btn)) datasets = Some ds ->
     (is_Some (downloads ds) -> is_Some (downloads_all_time ds) ->
      output st.2.2 = DetailsOf ds) /\
     (downloads ds = None \/ downloads_all_time ds = None ->
      output st.2.2 = ErrorFetchingDetails TypeError)).
Proof.
  intros Hb Hbtn st.
  destruct (select_clicked_spec b bb Hb) as (bb1 & n & Hsel & Hn & Hpos & Hbut & _ & Htip).
  assert (exists btn1, store bb1 !! b = Some btn1 /\ tooltip btn1 = tooltip btn)
    as (btn1 & Hbtn1 & Ht1).
  { specialize (Htip b). rewrite Hbtn in Htip.
    destruct (store bb1 !! b) as [btn1|]; [|done].
    exists btn1. split; [done|]. by injection Htip. }
  subst st. unfold click, _clicker. cbn [fst snd]. rewrite Hsel.
  unfold show_dataset_details. rewrite Hbut. cbn [mbind option_bind].
  rewrite Hbtn1, Ht1.
  destruct (fetch_datasets hub now (sort_value ui) (limit_value ui) None)
    as [datasets|e]; cbn [mbind result_bind].
  - destruct (List.find _ datasets) as [ds|] eqn:Hfind.
    + unfold display_dataset_details.
      destruct (downloads ds) as [x|] eqn:Hd, (downloads_all_time ds) as [y|] eqn:Ha;
        cbn [fst snd]; (split; [done|]); (split; [done|]); (split; [done|]);
        intros ds' d' [= <-] Hf; rewrite Hfind in Hf; injection Hf as <-;
        rewrite Hd, Ha; split.
      all: try done.
      all: try (by intros [? ?] [? ?]).
      all: try (by intros [? ?]).
      all: by intros [?|?].
    + cbn [fst snd]. repeat (split; [done|]).
      intros ds' d' [= <-] Hf. by rewrite Hfind in Hf.
  - cbn [fst snd]. repeat (split; [done|]). split; [by intros ? [= <-]|done].
Qed.

(** The box shows a and b; the hub lists b with both counters. A
    click on b shows the details of b. With the recent downloads of b
    missing the click reports the [TypeError] of the layout. *)
Lemma click_shows_details_witness :
  output (click hubq_b 0 1%nat (box_ab, uiq0)).2.2 = DetailsOf ds_b /\
  (click (hubq [dsq "b" None None]) 0 1%nat (box_ab, uiq0)).1 = Ok () /\
  output (click (hubq [dsq "b" None None]) 0 1%nat (box_ab, uiq0)).2.2
  = ErrorFetchingDetails TypeError.
Proof.
  assert (1%nat ∈ buttons box_ab) as Hin by (vm_compute; right; left).
  assert (store box_ab !! 1%nat
          = Some (set_color (Some "powderblue") (new_button 60 "b"))) as Hst
    by (vm_compute; reflexivity).
  split.
  - destruct (click_shows_details hubq_b 0 1%nat box_ab uiq0 _ Hin Hst)
      as (_ & _ & _ & H).
    destruct (H [ds_b] ds_b) as [Hshow _]; [reflexivity|reflexivity|].
    apply Hshow; by eexists.
  - destruct (click_shows_details (hubq [dsq "b" None None]) 0 1%nat box_ab uiq0 _ Hin Hst)
      as (Hok & _ & _ & H).
    split; [exact Hok|].
    destruct (H [dsq "b" None None] (dsq "b" None None)) as [_ Herr];
      [reflexivity|reflexivity|].
    apply Herr. by left.
Defined.

End ExplorerMore.
